(** * Well-emissions loader: a shallow embedding of [bin/load_emissions.py]
      and [bin/post_nodes_rels.py], with the properties of their identity
      derivation, graph construction, batch dispatch and replay
      classification. *)

From Stdlib Require Import String Ascii.
From Stdlib Require Import List NArith ZArith Bool Lia.
From Stdlib Require Import Permutation Sorting.Sorted PrimFloat Uint63.
Import ListNotations.

Set Implicit Arguments.

(* ===================================================================== *)
(** * Python values shared by both scripts *)
(* ===================================================================== *)

(** A Python [str] is a sequence of Unicode code points.  Code points are
    kept as [N]; [lit] turns an ASCII literal of the source into one. *)
Definition pystr := list N.

Definition lit (s : string) : pystr :=
  map N_of_ascii (list_ascii_of_string s).
Arguments lit s%_string.

Definition str_eq_dec : forall a b : pystr, {a = b} + {a <> b} :=
  list_eq_dec N.eq_dec.
Arguments str_eq_dec : simpl never.

Definition str_eqb (a b : pystr) : bool :=
  if str_eq_dec a b then true else false.

Definition show (s : pystr) : string :=
  string_of_list_ascii (map ascii_of_N s).

(** Exceptions the two scripts can meet. *)
Inductive exn : Type :=
| UnicodeEncodeError
| ValueError
| KeyError
| HTTPError
| ConnectionError
| JSONDecodeError
| StopIteration
| TypeError.

(** A computation either returns or raises. *)
Inductive result (A : Type) : Type :=
| Ok (a : A)
| Raise (e : exn).
Arguments Ok {A} a.
Arguments Raise {A} e.

Definition bind {A B} (r : result A) (k : A -> result B) : result B :=
  match r with
  | Ok a => k a
  | Raise e => Raise e
  end.

Notation "x <- c ;; k" := (bind c (fun x => k))
  (at level 61, c at next level, right associativity).

(** [for x in l: acc = f acc x], where the body may raise. *)
Fixpoint foldM {A S} (f : S -> A -> result S) (l : list A) (s : S)
  : result S :=
  match l with
  | [] => Ok s
  | x :: l' => s' <- f s x ;; foldM f l' s'
  end.

Fixpoint mapM {A B} (f : A -> result B) (l : list A) : result (list B) :=
  match l with
  | [] => Ok []
  | x :: l' => y <- f x ;; ys <- mapM f l' ;; Ok (y :: ys)
  end.

(* --------------------------------------------------------------------- *)
(** ** [str.strip], [str.zfill], [str.startswith], [str.endswith] *)
(* --------------------------------------------------------------------- *)

(** The code points [str.strip()] removes: those for which
    [str.isspace] holds. *)
Definition is_space (c : N) : bool :=
  ((0x09 <=? c) && (c <=? 0x0D) || (0x1C <=? c) && (c <=? 0x20)
   || (c =? 0x85) || (c =? 0xA0) || (c =? 0x1680)
   || (0x2000 <=? c) && (c <=? 0x200A)
   || (c =? 0x2028) || (c =? 0x2029) || (c =? 0x202F)
   || (c =? 0x205F) || (c =? 0x3000))%N.

Fixpoint lstrip (s : pystr) : pystr :=
  match s with
  | c :: s' => if is_space c then lstrip s' else s
  | [] => []
  end.

Definition rstrip (s : pystr) : pystr := rev (lstrip (rev s)).

Definition strip (s : pystr) : pystr := rstrip (lstrip s).

Definition zero : N := 48%N.

(** [s.zfill(width)]: zeros go after a leading sign. *)
Definition zfill (width : nat) (s : pystr) : pystr :=
  if (width <=? length s)%nat then s
  else
    let fill := repeat zero (width - length s) in
    match s with
    | c :: s' =>
        if ((c =? 43) || (c =? 45))%N then c :: fill ++ s' else fill ++ s
    | [] => fill
    end.

Fixpoint startswith (s p : pystr) : bool :=
  match p, s with
  | [], _ => true
  | c :: p', d :: s' => (c =? d)%N && startswith s' p'
  | _ :: _, [] => false
  end.

Definition endswith (s p : pystr) : bool := startswith (rev s) (rev p).

(** Truthiness of a string: [if s:]. *)
Definition nonempty (s : pystr) : bool :=
  match s with [] => false | _ => true end.

(* --------------------------------------------------------------------- *)
(** ** [str.encode('utf-8')] *)
(* --------------------------------------------------------------------- *)

(** A Unicode scalar value: a code point that is not a surrogate.  The
    strict UTF-8 codec encodes exactly these. *)
Definition is_scalar (c : N) : bool :=
  ((c <? 0xD800) || (0xDFFF <? c) && (c <? 0x110000))%N.

Definition text (s : pystr) : bool := forallb is_scalar s.

Definition utf8_char (c : N) : list N :=
  (if c <? 0x80 then [c]
   else if c <? 0x800 then [0xC0 + c / 64; 0x80 + c mod 64]
   else if c <? 0x10000 then
     [0xE0 + c / 4096; 0x80 + (c / 64) mod 64; 0x80 + c mod 64]
   else
     [0xF0 + c / 262144; 0x80 + (c / 4096) mod 64;
      0x80 + (c / 64) mod 64; 0x80 + c mod 64])%N.

Definition utf8_bytes (s : pystr) : list N := flat_map utf8_char s.

(** The codec raises on a lone surrogate ("surrogates not allowed"). *)
Definition encode_utf8 (s : pystr) : result (list N) :=
  if text s then Ok (utf8_bytes s) else Raise UnicodeEncodeError.

(* ===================================================================== *)
(** * [hashlib.sha256] (FIPS 180-4) on bytes, words kept in [N] *)
(* ===================================================================== *)

Module SHA256.
Local Open Scope N_scope.

Definition w32 (x : N) : N := x mod 4294967296.
Definition add32 (x y : N) : N := w32 (x + y).
Definition rotr (n x : N) : N :=
  N.lor (N.shiftr x n) (w32 (N.shiftl x (32 - n))).
Definition not32 (x : N) : N := N.lxor x 4294967295.

Definition ch (x y z : N) := N.lxor (N.land x y) (N.land (not32 x) z).
Definition maj (x y z : N) :=
  N.lxor (N.lxor (N.land x y) (N.land x z)) (N.land y z).
Definition bsig0 x := N.lxor (N.lxor (rotr 2 x) (rotr 13 x)) (rotr 22 x).
Definition bsig1 x := N.lxor (N.lxor (rotr 6 x) (rotr 11 x)) (rotr 25 x).
Definition ssig0 x := N.lxor (N.lxor (rotr 7 x) (rotr 18 x)) (N.shiftr x 3).
Definition ssig1 x :=
  N.lxor (N.lxor (rotr 17 x) (rotr 19 x)) (N.shiftr x 10).

(** The round constants of FIPS 180-4, section 4.2.2 (from the cube roots
    of the first 64 primes), and below them the initial chaining value
    of section 5.3.3, both written in decimal. *)
Definition round_constants : list N :=
  [1116352408; 1899447441; 3049323471; 3921009573; 961987163; 1508970993;
   2453635748; 2870763221; 3624381080; 310598401; 607225278; 1426881987;
   1925078388; 2162078206; 2614888103; 3248222580; 3835390401; 4022224774;
   264347078; 604807628; 770255983; 1249150122; 1555081692; 1996064986;
   2554220882; 2821834349; 2952996808; 3210313671; 3336571891; 3584528711;
   113926993; 338241895; 666307205; 773529912; 1294757372; 1396182291;
   1695183700; 1986661051; 2177026350; 2456956037; 2730485921; 2820302411;
   3259730800; 3345764771; 3516065817; 3600352804; 4094571909; 275423344;
   430227734; 506948616; 659060556; 883997877; 958139571; 1322822218;
   1537002063; 1747873779; 1955562222; 2024104815; 2227730452; 2361852424;
   2428436474; 2756734187; 3204031479; 3329325298].

(** The eight 32-bit chaining words. *)
Record state : Type := State {
  ha : N; hb : N; hc : N; hd : N; he : N; hf : N; hg : N; hh : N
}.

Definition initial : state :=
  State 1779033703 3144134277 1013904242 2773480762
        1359893119 2600822924 528734635 1541459225.

(** Padding: 0x80, zero bytes up to 56 mod 64, then the bit length as a
    64-bit big-endian integer. *)
Definition be_bytes (n : nat) (x : N) : list N :=
  map (fun i => (x / 2 ^ (8 * N.of_nat i)) mod 256) (rev (seq 0 n)).

Definition pad (msg : list N) : list N :=
  let len := N.of_nat (length msg) in
  let k := (64 - (len + 9) mod 64) mod 64 in
  msg ++ [128] ++ repeat 0 (N.to_nat k) ++ be_bytes 8 (8 * len).

(** Big-endian 32-bit words of a byte string. *)
Fixpoint words (bs : list N) : list N :=
  match bs with
  | b0 :: b1 :: b2 :: b3 :: bs' =>
      (b0 * 16777216 + b1 * 65536 + b2 * 256 + b3) :: words bs'
  | _ => []
  end.

(** The message schedule, newest word first: [extend n ws] adds [n]
    words to the reversed schedule [ws]. *)
Fixpoint extend (n : nat) (ws : list N) : list N :=
  match n with
  | O => ws
  | S n' =>
      let wt := add32 (add32 (ssig1 (nth 1 ws 0)) (nth 6 ws 0))
                      (add32 (ssig0 (nth 14 ws 0)) (nth 15 ws 0)) in
      extend n' (wt :: ws)
  end.

Definition schedule (block : list N) : list N :=
  rev (extend 48 (rev block)).

Definition round (s : state) (kw : N * N) : state :=
  let (k, w) := kw in
  let t1 := add32 (add32 (add32 (hh s) (bsig1 (he s)))
                         (add32 (ch (he s) (hf s) (hg s)) k)) w in
  let t2 := add32 (bsig0 (ha s)) (maj (ha s) (hb s) (hc s)) in
  State (add32 t1 t2) (ha s) (hb s) (hc s)
        (add32 (hd s) t1) (he s) (hf s) (hg s).

Definition compress (s : state) (block : list N) : state :=
  let r := fold_left round (combine round_constants (schedule block)) s in
  State (add32 (ha s) (ha r)) (add32 (hb s) (hb r))
        (add32 (hc s) (hc r)) (add32 (hd s) (hd r))
        (add32 (he s) (he r)) (add32 (hf s) (hf r))
        (add32 (hg s) (hg r)) (add32 (hh s) (hh r)).

(** Consecutive 16-word blocks; [fuel] bounds the number of blocks. *)
Fixpoint blocks (fuel : nat) (ws : list N) : list (list N) :=
  match fuel, ws with
  | S fuel', _ :: _ => firstn 16 ws :: blocks fuel' (skipn 16 ws)
  | _, _ => []
  end.

Definition digest (msg : list N) : state :=
  let ws := words (pad msg) in
  fold_left compress (blocks (length ws) ws) initial.

(** [hexdigest()]: eight lowercase hexadecimal digits per word. *)
Definition hexdigit (d : N) : N := if d <? 10 then 48 + d else 87 + d.

Definition hex_word (x : N) : pystr :=
  map (fun sh => hexdigit ((x / 2 ^ sh) mod 16)) [28; 24; 20; 16; 12; 8; 4; 0].

Definition hexdigest (msg : list N) : pystr :=
  let s := digest msg in
  hex_word (ha s) ++ hex_word (hb s) ++ hex_word (hc s) ++ hex_word (hd s)
  ++ hex_word (he s) ++ hex_word (hf s) ++ hex_word (hg s) ++ hex_word (hh s).
End SHA256.

(* ===================================================================== *)
(** * Insertion-ordered dictionaries *)
(* ===================================================================== *)

(** A Python [dict] keeps its keys in insertion order, and iteration
    ([items()]) follows it: an association list with one binding per key. *)
Section Dict.
Variables K V : Type.
Variable eq_dec : forall a b : K, {a = b} + {a <> b}.

Definition dict := list (K * V).

Fixpoint dict_get (d : dict) (k : K) : option V :=
  match d with
  | [] => None
  | (k', v) :: d' => if eq_dec k k' then Some v else dict_get d' k
  end.

(** [d[k] = v]: an existing key keeps its place, a new one goes last. *)
Fixpoint dict_set (d : dict) (k : K) (v : V) : dict :=
  match d with
  | [] => [(k, v)]
  | (k', v') :: d' =>
      if eq_dec k k' then (k', v) :: d' else (k', v') :: dict_set d' k v
  end.

Definition dict_mem (d : dict) (k : K) : bool :=
  match dict_get d k with Some _ => true | None => false end.

(** [d[k]] raises [KeyError] on a missing key. *)
Definition dict_item (d : dict) (k : K) : result V :=
  match dict_get d k with Some v => Ok v | None => Raise KeyError end.

Definition keys (d : dict) : list K := map fst d.
End Dict.

Arguments dict_get {K V} eq_dec d k.
Arguments dict_set {K V} eq_dec d k v.
Arguments dict_mem {K V} eq_dec d k.
Arguments dict_item {K V} eq_dec d k.
Arguments keys {K V} d.

Definition key2 := (pystr * pystr)%type.

Definition key2_eq_dec : forall a b : key2, {a = b} + {a <> b}.
Proof. decide equality; apply str_eq_dec. Defined.
Arguments key2_eq_dec : simpl never.

(* ===================================================================== *)
(** * [load_emissions.py] *)
(* ===================================================================== *)

(** [create_date_string]: the body of the [try]; any exception becomes a
    [ValueError]. *)
Definition create_date_string (year month day : pystr) : result pystr :=
  let body :=
    let year := strip year in
    let month := zfill 2 (strip month) in
    let day := zfill 2 (strip day) in
    Ok (year ++ lit "-" ++ month ++ lit "-" ++ day) in
  match body with
  | Ok v => Ok v
  | Raise _ => Raise ValueError
  end.

(** [generate_external_id]. *)
Definition generate_external_id (key emission_type date : pystr)
  : result pystr :=
  let combined := key ++ lit "_" ++ emission_type ++ lit "_" ++ date in
  hash_obj <- encode_utf8 combined ;;
  Ok (firstn 24 (SHA256.hexdigest hash_obj)).

(* --------------------------------------------------------------------- *)
(** ** Property dictionaries and [convert_properties_to_array] *)
(* --------------------------------------------------------------------- *)

(** The unit-of-measure metadata attached to a volume or a mass. *)
Record metadata : Type := Metadata {
  units : pystr;
  source : pystr;
  assurance_level : Z;
  verified_time : pystr
}.

(** The values a property dictionary holds. *)
Inductive pyval : Type :=
| VNone
| VStr (s : pystr)
| VFloat (f : float)
| VMeta (m : metadata).

Record property : Type := Property {
  prop_type : pystr;
  prop_value : pyval;
  prop_metadata : option pyval
}.

(** [prop_value is not None and prop_value != ""]. *)
Definition has_value (v : pyval) : bool :=
  match v with
  | VNone => false
  | VStr s => nonempty s
  | VFloat _ | VMeta _ => true
  end.

Definition convert_properties_to_array (properties : dict pystr pyval)
  : list property :=
  flat_map
    (fun kv : pystr * pyval =>
       let (prop_type, prop_value) := kv in
       if startswith prop_type (lit "_") && endswith prop_type (lit "_metadata")
       then []
       else if has_value prop_value then
         let metadata_key := lit "_" ++ prop_type ++ lit "_metadata" in
         [Property prop_type prop_value
                   (dict_get str_eq_dec properties metadata_key)]
       else [])
    properties.

(* --------------------------------------------------------------------- *)
(** ** Nodes and relationships *)
(* --------------------------------------------------------------------- *)

Record node : Type := Node {
  external_id : pystr;
  node_type : pystr;
  labels : option (list pystr);
  properties : list property
}.

Record endpoint : Type := Endpoint {
  end_type : pystr;
  end_id : pystr
}.

Record relationship : Type := Relationship {
  rel_source : endpoint;
  rel_target : endpoint;
  rel_type : pystr
}.

(* --------------------------------------------------------------------- *)
(** ** [read_csv_data] and [group_data_by_well] *)
(* --------------------------------------------------------------------- *)

Record rawrow : Type := RawRow {
  name : pystr;
  well_key : pystr;
  year : pystr;
  month : pystr;
  day : pystr;
  row_data : list pystr
}.

(** What the run prints about rows and fields it drops. *)
Inductive event : Type :=
| WarnShortRow (row : list pystr)
| WarnVolume (volume_str : pystr)
| WarnMass (mass_str : pystr)
| ErrorRow (e : exn).

(** [row[i].strip() if len(row) > i else ''] *)
Definition field (i : nat) (row : list pystr) : pystr :=
  if (i <? length row)%nat then strip (nth i row []) else [].

(** [reader] is what [csv.reader] yields, header first. *)
Definition read_csv_data (reader : list (list pystr))
  : result (list event * list rawrow) :=
  match reader with
  | [] => Raise StopIteration
  | _headers :: rows =>
      Ok (fold_left
            (fun (acc : list event * list rawrow) row =>
               let (log, data) := acc in
               if (length row <? 21)%nat
               then (log ++ [WarnShortRow row], data)
               else (log,
                     data ++ [RawRow (field 0 row) (field 1 row) (field 2 row)
                                     (field 3 row) (field 4 row) row]))
            rows ([], []))
  end.

(** [grouped[well_key].append(row)] on a [defaultdict(list)]. *)
Definition dict_append (grouped : dict pystr (list rawrow))
  (k : pystr) (row : rawrow) : dict pystr (list rawrow) :=
  match dict_get str_eq_dec grouped k with
  | Some rows => dict_set str_eq_dec grouped k (rows ++ [row])
  | None => dict_set str_eq_dec grouped k [row]
  end.

Definition group_data_by_well (data : list rawrow)
  : dict pystr (list rawrow) :=
  fold_left
    (fun grouped row =>
       if nonempty (well_key row)
       then dict_append grouped (well_key row) row
       else grouped)
    data [].

(* --------------------------------------------------------------------- *)
(** ** [get_emission_type_columns] *)
(* --------------------------------------------------------------------- *)

Record columns : Type := Columns {
  c_volume : nat;
  c_volume_uom : nat;
  c_mass : nat;
  c_mass_uom : nat
}.

(** [None] stands for the empty dictionary an unknown type gets. *)
Definition get_emission_type_columns (emission_type : pystr)
  : option columns :=
  if str_eqb emission_type (lit "Flaring") then Some (Columns 5 6 7 8)
  else if str_eqb emission_type (lit "ColdVentilation")
  then Some (Columns 9 10 11 12)
  else if str_eqb emission_type (lit "DieselFuel")
  then Some (Columns 13 14 15 16)
  else if str_eqb emission_type (lit "FuelGas")
  then Some (Columns 17 18 19 20)
  else None.

(** [column_map[field]]. *)
Definition column (column_map : option columns) (f : columns -> nat)
  : result nat :=
  match column_map with
  | Some c => Ok (f c)
  | None => Raise KeyError
  end.

Definition emission_types : list pystr :=
  [lit "Flaring"; lit "ColdVentilation"; lit "DieselFuel"; lit "FuelGas"].

(* --------------------------------------------------------------------- *)
(** ** [process_emissions_data]: building the graph *)
(* --------------------------------------------------------------------- *)

Record date_entry : Type := DateEntry {
  e_well_key : pystr;
  e_emission_type : pystr;
  e_date : pystr;
  e_properties : dict pystr pyval
}.

Record well_record : Type := WellRecord {
  w_name : pystr;
  emissions_id : pystr;
  w_emission_type_ids : dict pystr pystr
}.

(** The state of the collecting loop. *)
Record collected : Type := Collected {
  well_info : dict pystr well_record;
  emission_type_ids : dict key2 pystr;
  log : list event;
  date_entries : list date_entry
}.

Record graph : Type := Graph {
  g_log : list event;
  all_nodes : list node;
  all_relationships : list relationship
}.

(** Python compares strings by code point and tuples component-wise. *)
Definition str_compare : pystr -> pystr -> comparison :=
  list_compare N.compare.

Definition key3 := (pystr * pystr * pystr)%type.

Definition key_compare (a b : key3) : comparison :=
  let '(a1, a2, a3) := a in
  let '(b1, b2, b3) := b in
  match str_compare a1 b1 with
  | Eq => match str_compare a2 b2 with
          | Eq => str_compare a3 b3
          | c => c
          end
  | c => c
  end.

Definition key_ltb (a b : key3) : bool :=
  match key_compare a b with Lt => true | _ => false end.

Section Loader.
(** [float(s)] on a string; [None] when it raises [ValueError]. *)
Variable py_float : pystr -> option float.
(** [os.path.basename(csv_file_path)] *)
Variable spreadsheet_name : pystr.
(** [datetime.now().isoformat() + "Z"] *)
Variable verified_time : pystr.

(** [row_data[i].strip() if len(row_data) > i else None] *)
Definition cell (row_data : list pystr) (i : nat) : option pystr :=
  if (i <? length row_data)%nat then Some (strip (nth i row_data []))
  else None.

Definition truthy (s : option pystr) : bool :=
  match s with Some s' => nonempty s' | None => false end.

(** The conversion of a volume or mass string, with its warning. *)
Definition to_number (warn : pystr -> event) (s : option pystr)
  : list event * option float :=
  match s with
  | Some s' =>
      if nonempty s' then
        match py_float s' with
        | Some x => ([], Some x)
        | None => ([warn s'], None)
        end
      else ([], None)
  | None => ([], None)
  end.

Definition uom_metadata (uom : option pystr) : pyval :=
  VMeta (Metadata (match uom with Some u => u | None => [] end)
                  spreadsheet_name 3 verified_time).

(** [properties[k] = v], then the unit metadata when a unit is there. *)
Definition with_measure (properties : dict pystr pyval)
  (k meta_k : pystr) (value : option float) (uom : option pystr)
  : dict pystr pyval :=
  match value with
  | Some x =>
      let properties := dict_set str_eq_dec properties k (VFloat x) in
      if truthy uom
      then dict_set str_eq_dec properties meta_k (uom_metadata uom)
      else properties
  | None => properties
  end.

(** The body of the [try] for one row of one emission type: the
    warnings printed and the entry appended, if any. *)
Definition row_entry (well_key emission_type : pystr)
  (column_map : option columns) (row : rawrow)
  : result (list event * list date_entry) :=
  date_str <- create_date_string (year row) (month row) (day row) ;;
  let row_data := row_data row in
  i <- column column_map c_volume ;;
  let volume_str := cell row_data i in
  i <- column column_map c_volume_uom ;;
  let volume_uom := cell row_data i in
  i <- column column_map c_mass ;;
  let mass_str := cell row_data i in
  i <- column column_map c_mass_uom ;;
  let mass_uom := cell row_data i in
  let (w1, volume) := to_number WarnVolume volume_str in
  let (w2, mass) := to_number WarnMass mass_str in
  match volume, mass with
  | None, None => Ok (w1 ++ w2, [])
  | _, _ =>
      let properties := [(lit "date", VStr date_str)] in
      let properties :=
        with_measure properties (lit "volume") (lit "_volume_metadata")
                     volume volume_uom in
      let properties :=
        with_measure properties (lit "mass") (lit "_mass_metadata")
                     mass mass_uom in
      Ok (w1 ++ w2,
          [DateEntry well_key emission_type date_str properties])
  end.

(** [try: ... except Exception as e: print(...); continue] *)
Definition try_row (well_key emission_type : pystr)
  (column_map : option columns)
  (acc : list event * list date_entry) (row : rawrow)
  : list event * list date_entry :=
  match row_entry well_key emission_type column_map row with
  | Ok (w, es) => (fst acc ++ w, snd acc ++ es)
  | Raise e => (fst acc ++ [ErrorRow e], snd acc)
  end.

Definition collect_type (well_key : pystr) (well_rows : list rawrow)
  (st : collected) (emission_type : pystr) : result collected :=
  emission_type_id <-
    generate_external_id well_key (lit "emission_type_" ++ emission_type) [] ;;
  info <- dict_item str_eq_dec (well_info st) well_key ;;
  let info :=
    WellRecord (w_name info) (emissions_id info)
      (dict_set str_eq_dec (w_emission_type_ids info)
                emission_type emission_type_id) in
  let well_info := dict_set str_eq_dec (well_info st) well_key info in
  let emission_type_ids :=
    dict_set key2_eq_dec (emission_type_ids st)
             (well_key, emission_type) emission_type_id in
  let column_map := get_emission_type_columns emission_type in
  let (log, date_entries) :=
    fold_left (try_row well_key emission_type column_map) well_rows
              (log st, date_entries st) in
  Ok (Collected well_info emission_type_ids log date_entries).

Definition collect_well (st : collected) (item : pystr * list rawrow)
  : result collected :=
  let (well_key, well_rows) := item in
  let well_name :=
    match well_rows with r :: _ => name r | [] => well_key end in
  emissions_id <- generate_external_id well_key (lit "emissions") [] ;;
  let st :=
    Collected
      (dict_set str_eq_dec (well_info st) well_key
                (WellRecord well_name emissions_id []))
      (emission_type_ids st) (log st) (date_entries st) in
  foldM (collect_type well_key well_rows) emission_types st.

(** [date_entries.sort(key=..., reverse=True)]: a stable sort into
    descending key order. *)
Definition sort_key (e : date_entry) : key3 :=
  (e_well_key e, e_emission_type e, e_date e).

Fixpoint insert_desc (x : date_entry) (l : list date_entry)
  : list date_entry :=
  match l with
  | [] => [x]
  | y :: l' =>
      if key_ltb (sort_key x) (sort_key y) then y :: insert_desc x l'
      else x :: l
  end.

Definition sort_desc (l : list date_entry) : list date_entry :=
  fold_right insert_desc [] l.

Definition well_node (item : pystr * well_record) : node :=
  let (well_key, info) := item in
  Node well_key (lit "Well") None
       (convert_properties_to_array [(lit "name", VStr (w_name info))]).

Definition emissions_node (item : pystr * well_record) : node :=
  let (well_key, info) := item in
  Node (emissions_id info) (lit "Emissions") None
       (convert_properties_to_array [(lit "name", VStr (lit "Emissions"))]).

Definition emission_type_node (item : key2 * pystr) : node :=
  let '((well_key, emission_type), external_id) := item in
  Node external_id (lit "EmissionType") None
       (convert_properties_to_array [(lit "name", VStr emission_type)]).

Definition reading_node (entry : date_entry) : result node :=
  external_id <-
    generate_external_id (e_well_key entry) (e_emission_type entry)
                         (e_date entry) ;;
  Ok (Node external_id (e_emission_type entry) (Some [lit "Emission"])
           (convert_properties_to_array (e_properties entry))).

Definition has_emissions (item : pystr * well_record) : relationship :=
  let (well_key, info) := item in
  Relationship (Endpoint (lit "Well") well_key)
               (Endpoint (lit "Emissions") (emissions_id info))
               (lit "HAS_EMISSIONS").

Definition has_type (well_info : dict pystr well_record)
  (item : key2 * pystr) : result relationship :=
  let '((well_key, emission_type), emission_type_id) := item in
  info <- dict_item str_eq_dec well_info well_key ;;
  Ok (Relationship (Endpoint (lit "Emissions") (emissions_id info))
                   (Endpoint (lit "EmissionType") emission_type_id)
                   (lit "HAS_TYPE")).

(** One turn of the loop that chains the readings of each
    (well, type) group. *)
Definition link_entry (emission_type_ids : dict key2 pystr)
  (st : dict key2 pystr * list relationship) (entry : date_entry)
  : result (dict key2 pystr * list relationship) :=
  let (current_groups, rels) := st in
  let key := (e_well_key entry, e_emission_type entry) in
  date_node_id <-
    generate_external_id (e_well_key entry) (e_emission_type entry)
                         (e_date entry) ;;
  match dict_get key2_eq_dec current_groups key with
  | None =>
      emission_type_id <- dict_item key2_eq_dec emission_type_ids key ;;
      let emission_type_name := e_emission_type entry in
      Ok (dict_set key2_eq_dec current_groups key date_node_id,
          rels ++ [Relationship
                     (Endpoint (lit "EmissionType") emission_type_id)
                     (Endpoint emission_type_name date_node_id)
                     (lit "HAS_DATA")])
  | Some previous_node_id =>
      let emission_type_name := e_emission_type entry in
      Ok (dict_set key2_eq_dec current_groups key date_node_id,
          rels ++ [Relationship
                     (Endpoint emission_type_name previous_node_id)
                     (Endpoint emission_type_name date_node_id)
                     (lit "NEXT_DATE")])
  end.

Definition date_relationships (emission_type_ids : dict key2 pystr)
  (date_entries : list date_entry) : result (list relationship) :=
  st <- foldM (link_entry emission_type_ids) date_entries ([], []) ;;
  Ok (snd st).

(** Lines 299-542 of [process_emissions_data]: from the rows of the CSV
    reader to the node and relationship lists. *)
Definition build_graph (reader : list (list pystr)) : result graph :=
  csv <- read_csv_data reader ;;
  let (log0, csv_data) := csv in
  let wells_data := group_data_by_well csv_data in
  st <- foldM collect_well wells_data (Collected [] [] log0 []) ;;
  let date_entries := sort_desc (date_entries st) in
  readings <- mapM reading_node date_entries ;;
  let all_nodes :=
    map well_node (well_info st) ++ map emissions_node (well_info st)
    ++ map emission_type_node (emission_type_ids st) ++ readings in
  type_rels <- mapM (has_type (well_info st)) (emission_type_ids st) ;;
  date_rels <- date_relationships (emission_type_ids st) date_entries ;;
  Ok (Graph (log st) all_nodes
            (map has_emissions (well_info st) ++ type_rels ++ date_rels)).
End Loader.

(* ===================================================================== *)
(** * The capture API as both scripts see it *)
(* ===================================================================== *)

(** A decoded JSON document ([json.load], [response.json()]); an object
    keeps one binding per key. *)
#[local] Unset Elimination Schemes.
Inductive json : Type :=
| JNull
| JBool (b : bool)
| JInt (z : Z)
| JFloat (f : float)
| JStr (s : pystr)
| JList (l : list json)
| JDict (d : list (pystr * json)).
#[local] Set Elimination Schemes.

(** What [requests.post] comes back with: it raises (connection,
    timeout), or returns a response with a status code and a body that
    [response.json()] decodes ([Some]) or not ([None]). *)
Inductive http_outcome : Type :=
| NoResponse
| Response (status : Z) (body : option json).

(** [response.raise_for_status()] raises on a 4xx or 5xx status. *)
Definition raise_for_status (status : Z) : result unit :=
  if ((400 <=? status) && (status <? 600))%Z then Raise HTTPError
  else Ok tt.

(** The rest of a successful [requests.post]: status check, then decode. *)
Definition read_response (o : http_outcome) : result json :=
  match o with
  | NoResponse => Raise ConnectionError
  | Response status body =>
      _ <- raise_for_status status ;;
      match body with
      | Some r => Ok r
      | None => Raise JSONDecodeError
      end
  end.

(* --------------------------------------------------------------------- *)
(** ** [load_emissions.py]: batches and their dispatch *)
(* --------------------------------------------------------------------- *)

(** The POST requests of the loader, with the client key they carry. *)
Inductive request : Type :=
| PostNodes (token : pystr) (nodes : list node)
| PostRelationships (token : pystr) (relationships : list relationship).

Inductive batch : Type :=
| NodeBatch (nodes : list node)
| RelBatch (relationships : list relationship).

(** The message a batch reports. *)
Inductive message : Type :=
| Completed (batch_num total_batches size : nat) (batch_type : pystr)
| ErrorCreating (batch_type : pystr) (batch_num : nat) (e : exn).

Section Dispatch.
Variable DEBUG_MODE : bool.
(** The answer of the capture API to the request of one batch. *)
Variable post : request -> http_outcome.

(** Each call returns the requests it sent and its outcome; the
    [except] clause prints the failed payload and re-raises. *)
Definition create_nodes_batch (token : pystr) (nodes : list node)
  : list request * result json :=
  if DEBUG_MODE then
    ([], Ok (JDict [(lit "status", JStr (lit "debug"));
                    (lit "nodes_processed",
                     JInt (Z.of_nat (length nodes)))]))
  else
    ([PostNodes token nodes],
     match read_response (post (PostNodes token nodes)) with
     | Ok r => Ok r
     | Raise e => Raise e
     end).

Definition create_relationships_batch (token : pystr)
  (relationships : list relationship) : list request * result json :=
  if DEBUG_MODE then
    ([], Ok (JDict [(lit "status", JStr (lit "debug"));
                    (lit "relationships_processed",
                     JInt (Z.of_nat (length relationships)))]))
  else
    ([PostRelationships token relationships],
     match read_response (post (PostRelationships token relationships)) with
     | Ok r => Ok r
     | Raise e => Raise e
     end).

(** [process_batch]; the batch type is the constructor of the batch. *)
Definition process_batch (batch_num total_batches : nat) (b : batch)
  (token : pystr) : list request * (nat * bool * message) :=
  match b with
  | NodeBatch nodes =>
      let (sent, r) := create_nodes_batch token nodes in
      match r with
      | Ok _ =>
          (sent, (batch_num, true,
                  Completed batch_num total_batches (length nodes)
                            (lit "nodes")))
      | Raise e =>
          (sent, (batch_num, false,
                  ErrorCreating (lit "nodes") batch_num e))
      end
  | RelBatch rels =>
      let (sent, r) := create_relationships_batch token rels in
      match r with
      | Ok _ =>
          (sent, (batch_num, true,
                  Completed batch_num total_batches (length rels)
                            (lit "relationships")))
      | Raise e =>
          (sent, (batch_num, false,
                  ErrorCreating (lit "relationships") batch_num e))
      end
  end.
End Dispatch.

(** [items[i:i + batch_size] for i in range(0, len(items), batch_size)];
    [fuel] bounds the number of slices. *)
Fixpoint slices {A} (fuel batch_size : nat) (items : list A)
  : list (list A) :=
  match fuel, items with
  | S fuel', _ :: _ =>
      firstn batch_size items :: slices fuel' batch_size (skipn batch_size items)
  | _, _ => []
  end.

(** The [(batch_num, total_batches, batch)] triples of one round. *)
Definition make_batches {A} (items : list A) (batch_size : Z)
  : result (list (nat * nat * list A)) :=
  if (batch_size =? 0)%Z then Raise ValueError
  else if (batch_size <? 0)%Z then Ok []
  else
    let bs := Z.to_nat batch_size in
    let total := length items in
    let total_batches := ((total + bs - 1) / bs)%nat in
    let parts := slices total bs items in
    Ok (map (fun ib : nat * list A => (fst ib, total_batches, snd ib))
            (combine (seq 1 (length parts)) parts)).

(** The counting loop over [as_completed]: [done] holds the results in
    the order the futures complete. *)
Definition tally (done : list (nat * bool * message)) : nat * nat :=
  fold_left
    (fun (cf : nat * nat) (r : nat * bool * message) =>
       let (completed, failed) := cf in
       let '(_, success, _) := r in
       if success then (S completed, failed) else (completed, S failed))
    done (0, 0)%nat.

(** What a round leaves behind: the requests sent, and the result of each
    batch in submission order. *)
Record round : Type := Round {
  sent : list request;
  results : list (nat * bool * message)
}.

Section Round.
Variable DEBUG_MODE : bool.
(** The capture API's answer to the request of batch [batch_num]. *)
Variable net : nat -> request -> http_outcome.
Variable token : pystr.

Definition submit (wrap : list request * list (nat * bool * message))
  (job : nat * nat * batch) : list request * list (nat * bool * message) :=
  let '(batch_num, total_batches, b) := job in
  let (s, r) :=
    process_batch DEBUG_MODE (net batch_num) batch_num total_batches b token in
  (fst wrap ++ s, snd wrap ++ [r]).

(** One dispatch round: every batch is submitted to a pool of
    [min(max_threads, len(batches))] workers, which
    [ThreadPoolExecutor] refuses when it is not positive. *)
Definition dispatch_round {A} (mk : list A -> batch) (items : list A)
  (batch_size max_threads : Z) : result round :=
  batches <- make_batches items batch_size ;;
  let max_workers := Z.min max_threads (Z.of_nat (length batches)) in
  if (max_workers <=? 0)%Z then Raise ValueError
  else
    let (s, r) :=
      fold_left submit
        (map (fun j : nat * nat * list A =>
                let '(n, t, l) := j in (n, t, mk l)) batches)
        ([], []) in
    Ok (Round s r).
End Round.

(* ===================================================================== *)
(** * [post_nodes_rels.py] *)
(* ===================================================================== *)

Definition has_key (d : list (pystr * json)) (k : pystr) : bool :=
  dict_mem str_eq_dec d k.

(** [detect_type]; [None] is Python's [None]. *)
Definition detect_type (data : json) : option pystr :=
  match data with
  | JDict d =>
      if (has_key d (lit "nodes")
          && match dict_get str_eq_dec d (lit "nodes") with
             | Some (JList _) => true
             | _ => false
             end)
      then Some (lit "nodes")
      else if has_key d (lit "external_id") && has_key d (lit "type")
      then Some (lit "nodes")
      else None
  | JList (first_item :: _) =>
      match first_item with
      | JDict f =>
          if has_key f (lit "external_id") && has_key f (lit "type")
             && has_key f (lit "properties")
          then Some (lit "nodes")
          else if has_key f (lit "source") && has_key f (lit "target")
                  && has_key f (lit "type")
          then Some (lit "relationships")
          else None
      | _ => None
      end
  | _ => None
  end.

(** [while isinstance(items, dict) and "nodes" in items:
       items = items["nodes"]] *)
Fixpoint unwrap_nodes (items : json) : json :=
  match items with
  | JDict d =>
      (fix find (l : list (pystr * json)) : json :=
         match l with
         | [] => items
         | (k, v) :: l' =>
             if str_eq_dec (lit "nodes") k then unwrap_nodes v else find l'
         end) d
  | _ => items
  end.

(** Truthiness of a decoded JSON value. *)
Definition json_truthy (j : json) : bool :=
  match j with
  | JNull => false
  | JBool b => b
  | JInt z => negb (z =? 0)%Z
  | JFloat f => negb (PrimFloat.eqb f 0%float)
  | JStr s => nonempty s
  | JList l => match l with [] => false | _ => true end
  | JDict d => match d with [] => false | _ => true end
  end.

(** [len(v)] on a decoded JSON value: strings, lists and dicts have a
    length (a decoded dict has distinct keys); [None], numbers and
    booleans raise [TypeError]. *)
Definition json_len (v : json) : result nat :=
  match v with
  | JStr s => Ok (length s)
  | JList l => Ok (length l)
  | JDict d => Ok (length d)
  | JNull | JBool _ | JInt _ | JFloat _ => Raise TypeError
  end.

(** The count of relationships that [post_relationships] and [main]
    compute for their messages. *)
Definition relationships_count (payload : json) : result nat :=
  match payload with
  | JDict d =>
      if has_key d (lit "relationships") then
        match dict_get str_eq_dec d (lit "relationships") with
        | Some v => json_len v
        | None => Raise KeyError
        end
      else Ok 1%nat
  | JList l => Ok (length l)
  | _ => Ok 1%nat
  end.

(** The two POST requests of the replay tool. *)
Inductive replay_request : Type :=
| ReplayNodes (token : pystr) (nodes : list json)
| ReplayRelationships (token : pystr) (payload : json).

(** What [open] and [json.load] make of the file argument. *)
Inductive json_file : Type :=
| Missing
| Unreadable
| Invalid
| Loaded (data : json).

Section Replay.
Variable INDYKITE_TOKEN : option pystr.
Variable INDYKITE_HOST : pystr.
Variable post : replay_request -> http_outcome.

(** [post_nodes] and [post_relationships]: the requests sent and what is
    returned or raised.  The error report of a status other than 200 and
    201 ends in [raise_for_status]; then the body is decoded.
    [post_relationships] counts the relationships for its message before
    it posts, and posts nothing when the count raises. *)
Definition post_nodes (token : pystr) (nodes : list json)
  : list replay_request * result json :=
  ([ReplayNodes token nodes], read_response (post (ReplayNodes token nodes))).

Definition post_relationships (token : pystr) (payload : json)
  : list replay_request * result json :=
  match relationships_count payload with
  | Raise e => ([], Raise e)
  | Ok _ =>
      ([ReplayRelationships token payload],
       read_response (post (ReplayRelationships token payload)))
  end.

(** [main]: the requests sent and the exit code. *)
Definition main (json_file : json_file) (type : option pystr)
  : list replay_request * Z :=
  match INDYKITE_TOKEN with
  | None => ([], 1%Z)
  | Some token =>
  if negb (nonempty token) then ([], 1%Z)
  else if negb (nonempty INDYKITE_HOST) then ([], 1%Z)
  else
    match json_file with
    | Missing | Unreadable | Invalid => ([], 1%Z)
    | Loaded data =>
        let data_type :=
          match type with
          | Some t => if nonempty t then Some t else detect_type data
          | None => detect_type data
          end in
        match data_type with
        | None => ([], 1%Z)
        | Some data_type =>
            if str_eqb data_type (lit "nodes") then
              let items := unwrap_nodes data in
              let items :=
                match items with
                | JList l => l
                | _ => if json_truthy items then [items] else []
                end in
              let (sent, result) := post_nodes token items in
              (sent,
               match result with
               | Ok _ => 0%Z
               | Raise _ => 1%Z
               end)
            else if str_eqb data_type (lit "relationships") then
              let (sent, result) := post_relationships token data in
              (sent,
               match result with
               | Ok _ =>
                   match relationships_count data with
                   | Ok _ => 0%Z
                   | Raise _ => 1%Z
                   end
               | Raise _ => 1%Z
               end)
            else ([], 0%Z)
        end
    end
  end.
End Replay.

(** The whole of [process_emissions_data]: the graph, then the node round
    and the relationship round, each skipped when there is nothing to
    send.  [batch_size] and [max_threads] are the values in force. *)
Definition process_emissions_data (py_float : pystr -> option float)
  (DEBUG_MODE : bool) (net : nat -> request -> http_outcome)
  (verified_time : pystr) (token csv_file_name : pystr)
  (reader : list (list pystr)) (batch_size max_threads : Z)
  : result (graph * option round * option round) :=
  g <- build_graph py_float csv_file_name verified_time reader ;;
  nodes_round <-
    match all_nodes g with
    | [] => Ok None
    | _ => r <- dispatch_round DEBUG_MODE net token NodeBatch (all_nodes g)
                               batch_size max_threads ;;
           Ok (Some r)
    end ;;
  rels_round <-
    match all_relationships g with
    | [] => Ok None
    | _ => r <- dispatch_round DEBUG_MODE net token RelBatch
                               (all_relationships g) batch_size max_threads ;;
           Ok (Some r)
    end ;;
  Ok (g, nodes_round, rels_round).

(* ===================================================================== *)
(** * Notions the properties are stated with *)
(* ===================================================================== *)

(** The identifier [generate_external_id] returns once its argument is
    encoded: the first 24 hexadecimal digits of the SHA-256 digest. *)
Definition derive (key category date : pystr) : pystr :=
  firstn 24
    (SHA256.hexdigest
       (utf8_bytes (key ++ lit "_" ++ category ++ lit "_" ++ date))).
Arguments derive : simpl never.

Definition is_lower_hex (c : N) : bool :=
  ((48 <=? c) && (c <=? 57) || (97 <=? c) && (c <=? 102))%N.

Definition is_row_error (ev : event) : bool :=
  match ev with ErrorRow _ => true | _ => false end.

(** A CSV input as [open(..., encoding='utf-8')] and [csv.reader] hand it
    over: every cell is decoded text, free of lone surrogates. *)
Definition csv_text (reader : list (list pystr)) : bool :=
  forallb (forallb text) reader.

Definition group_of (e : date_entry) : key2 :=
  (e_well_key e, e_emission_type e).

Definition in_group (g : key2) (e : date_entry) : bool :=
  if key2_eq_dec (group_of e) g then true else false.

(** The identifiers of a well's emission types and of a reading. *)
Definition type_id (k t : pystr) : pystr :=
  derive k (lit "emission_type_" ++ t) [].

Definition reading_id (e : date_entry) : pystr :=
  derive (e_well_key e) (e_emission_type e) (e_date e).

(** The two relationships a reading can be linked by. *)
Definition has_data (g : key2) (e : date_entry) : relationship :=
  Relationship (Endpoint (lit "EmissionType") (type_id (fst g) (snd g)))
               (Endpoint (e_emission_type e) (reading_id e))
               (lit "HAS_DATA").

Definition next_date (previous_node_id : pystr) (e : date_entry)
  : relationship :=
  Relationship (Endpoint (e_emission_type e) previous_node_id)
               (Endpoint (e_emission_type e) (reading_id e))
               (lit "NEXT_DATE").

(** The chain over the readings [es] of one group, in the order given:
    the first hangs from the emission type (or from [prev], when there is
    one), each other from the reading before it. *)
Fixpoint chain_from (prev : option pystr) (g : key2) (es : list date_entry)
  : list relationship :=
  match es with
  | [] => []
  | e :: es' =>
      match prev with
      | None => has_data g e
      | Some p => next_date p e
      end :: chain_from (Some (reading_id e)) g es'
  end.

Definition chain (g : key2) (es : list date_entry) : list relationship :=
  chain_from None g es.

(** The relationship the chaining loop emits at each entry, given the
    last reading [cur] holds for each group. *)
Fixpoint link_rels (cur : dict key2 pystr) (l : list date_entry)
  : list relationship :=
  match l with
  | [] => []
  | e :: l' =>
      match dict_get key2_eq_dec cur (group_of e) with
      | None => has_data (group_of e) e
      | Some p => next_date p e
      end :: link_rels (dict_set key2_eq_dec cur (group_of e) (reading_id e)) l'
  end.

Definition reading_of (e : date_entry) : node :=
  Node (reading_id e) (e_emission_type e) (Some [lit "Emission"])
       (convert_properties_to_array (e_properties e)).

Definition has_type_of (item : key2 * pystr) : relationship :=
  Relationship
    (Endpoint (lit "Emissions") (derive (fst (fst item)) (lit "emissions") []))
    (Endpoint (lit "EmissionType") (snd item))
    (lit "HAS_TYPE").

Definition type_id_items (k : pystr) : list (key2 * pystr) :=
  map (fun t => ((k, t), type_id k t)) emission_types.

Definition type_ids_from (k : pystr) (ts : list pystr)
  (d : dict pystr pystr) : dict pystr pystr :=
  fold_left (fun d t => dict_set str_eq_dec d t (type_id k t)) ts d.

Definition well_name (item : pystr * list rawrow) : pystr :=
  match snd item with r :: _ => name r | [] => fst item end.

Definition well_record_of (item : pystr * list rawrow)
  : pystr * well_record :=
  (fst item,
   WellRecord (well_name item) (derive (fst item) (lit "emissions") [])
              (type_ids_from (fst item) emission_types [])).

Definition to_rawrow (row : list pystr) : rawrow :=
  RawRow (field 0 row) (field 1 row) (field 2 row) (field 3 row)
         (field 4 row) row.

Definition long_enough (row : list pystr) : bool :=
  negb (length row <? 21)%nat.

(** The rows the reader keeps and the wells they are grouped into. *)
Definition kept_rows (reader : list (list pystr)) : list rawrow :=
  map to_rawrow (filter long_enough (tl reader)).

Definition wells_of (reader : list (list pystr))
  : dict pystr (list rawrow) :=
  group_data_by_well (kept_rows reader).

Definition well_keys (reader : list (list pystr)) : list pystr :=
  keys (wells_of reader).

Section Expected.
Variable py_float : pystr -> option float.
Variables spreadsheet_name verified_time : pystr.

(** What one row contributes for one emission type. *)
Definition row_entries (k t : pystr) (row : rawrow) : list date_entry :=
  match row_entry py_float spreadsheet_name verified_time k t
                  (get_emission_type_columns t) row with
  | Ok (_, es) => es
  | Raise _ => []
  end.

Definition row_events (k t : pystr) (row : rawrow) : list event :=
  match row_entry py_float spreadsheet_name verified_time k t
                  (get_emission_type_columns t) row with
  | Ok (w, _) => w
  | Raise e => [ErrorRow e]
  end.

Definition well_entries_of (ts : list pystr)
  (item : pystr * list rawrow) : list date_entry :=
  flat_map (fun t => flat_map (row_entries (fst item) t) (snd item)) ts.

Definition well_events_of (ts : list pystr)
  (item : pystr * list rawrow) : list event :=
  flat_map (fun t => flat_map (row_events (fst item) t) (snd item)) ts.

(** The surviving entries, in the order the collecting loop appends
    them, and in the order the sort leaves them. *)
Definition surviving (reader : list (list pystr)) : list date_entry :=
  flat_map (well_entries_of emission_types) (wells_of reader).

Definition sorted_entries (reader : list (list pystr))
  : list date_entry :=
  sort_desc (surviving reader).

(** The graph [build_graph] returns on a CSV input of decoded text. *)
Definition expected_graph (reader : list (list pystr)) : graph :=
  let wells := map well_record_of (wells_of reader) in
  let type_items := flat_map type_id_items (well_keys reader) in
  Graph
    (map WarnShortRow (filter (fun r => negb (long_enough r)) (tl reader))
     ++ flat_map (well_events_of emission_types) (wells_of reader))
    (map well_node wells ++ map emissions_node wells
     ++ map emission_type_node type_items
     ++ map reading_of (sorted_entries reader))
    (map has_emissions wells ++ map has_type_of type_items
     ++ link_rels [] (sorted_entries reader)).
End Expected.

(** [desc a b]: the sort key of [a] is not below that of [b]. *)
Definition desc (a b : date_entry) : Prop :=
  key_ltb (sort_key a) (sort_key b) = false.

(** The date string built from a kept row. *)
Definition row_date (row : rawrow) : pystr :=
  strip (year row) ++ lit "-" ++ zfill 2 (strip (month row)) ++ lit "-"
  ++ zfill 2 (strip (day row)).

Definition row_text (row : rawrow) : Prop :=
  text (well_key row) = true /\ text (row_date row) = true.

(** An entry the chaining loop and the node loop can take: its strings
    are text and its emission type identifier is on record. *)
Definition entry_ok (eti : dict key2 pystr) (e : date_entry) : Prop :=
  text (e_well_key e) = true /\ text (e_emission_type e) = true
  /\ text (e_date e) = true
  /\ dict_get key2_eq_dec eti (group_of e)
     = Some (type_id (e_well_key e) (e_emission_type e)).

(** The nodes and relationships of one type. *)
Definition nodes_of_type (ty : pystr) (nodes : list node) : list node :=
  filter (fun n => str_eqb (node_type n) ty) nodes.

Definition rels_of_type (ty : pystr) (rels : list relationship)
  : list relationship :=
  filter (fun r => str_eqb (rel_type r) ty) rels.

(** The number a volume or mass field ends up with: null when the column
    is missing, the string empty, or the string not a number. *)
Definition parsed (py_float : pystr -> option float) (s : option pystr)
  : option float :=
  match s with
  | Some s' => if nonempty s' then py_float s' else None
  | None => None
  end.

(** A stand-in for [float] in examples: it agrees with [float] on strings
    of at most 15 ASCII digits, whose value a double holds exactly, and
    parses nothing else. *)
Definition is_digit (c : N) : bool := ((48 <=? c) && (c <=? 57))%N.

Definition digits_value (s : pystr) : N :=
  fold_left (fun a c => (10 * a + (c - 48))%N) s 0%N.

Definition float_of_digits (s : pystr) : option float :=
  if nonempty s && forallb is_digit s && (length s <=? 15)%nat
  then Some (PrimFloat.of_uint63 (Uint63.of_Z (Z.of_N (digits_value s))))
  else None.

(** The cells [csv.reader] yields for a line without quotes. *)
Fixpoint split_commas (l : pystr) (cur : pystr) : list pystr :=
  match l with
  | [] => [rev cur]
  | c :: l' =>
      if (c =? 44)%N then rev cur :: split_commas l' []
      else split_commas l' (c :: cur)
  end.

Definition csv_line (s : string) : list pystr := split_commas (lit s) [].
Arguments csv_line s%_string.

(** A header row of 21 columns. *)
Definition sample_header : list pystr :=
  csv_line "name,key,year,month,day,fv,fvu,fm,fmu,cv,cvu,cm,cmu,dv,dvu,dm,dmu,gv,gvu,gm,gmu".

(** Sample inputs: the row of the specification's end-to-end example (20
    columns), the same row with its 21st column, and a small file of two
    wells. *)
Definition example_row : list pystr :=
  csv_line "WellA,W1,2024,3,15,100,bbl,,,,,,,,,,50,scf,,".

Definition example_row_21 : list pystr :=
  csv_line "WellA,W1,2024,3,15,100,bbl,,,,,,,,,,50,scf,,,".

(** A row whose Flaring volume is not a number and whose mass is. *)
Definition unparsable_row : list pystr :=
  csv_line "WellA,W1,2024,3,14,n/a,,3,kg,,,,,,,,,,,,".

Definition sample_reader : list (list pystr) :=
  [sample_header;
   example_row_21;
   csv_line "WellA,W1,2024,3,16,7,bbl,,,,,,,,,,,,,,";
   csv_line "WellB,W2,2023,12,1,,,5,kg,,,,,,,,,x1,,12,";
   unparsable_row;
   csv_line "short,row"].

(** Two rows of one well with the same date. *)
Definition same_date_reader : list (list pystr) :=
  [sample_header;
   csv_line "WellA,W1,2024,3,15,100,bbl,,,,,,,,,,,,,,";
   csv_line "WellA,W1,2024,3,15,7,bbl,,,,,,,,,,,,,,"].

Definition sample_file : pystr := lit "emissions_data.csv".
Definition sample_time : pystr := lit "2024-06-01T12:00:00Z".

(** The Reading nodes are the labelled ones. *)
Definition reading_nodes (nodes : list node) : list node :=
  filter (fun n => match labels n with Some _ => true | None => false end)
         nodes.

(** The relationships that link readings. *)
Definition date_rels (rels : list relationship) : list relationship :=
  filter (fun r => str_eqb (rel_type r) (lit "HAS_DATA")
                   || str_eqb (rel_type r) (lit "NEXT_DATE"))
         rels.

(** The chaining loop emits one relationship per entry, in order:
    [rels_of_group g l rels] keeps those emitted at the entries of [g]. *)
Definition rels_of_group (g : key2) (l : list date_entry)
  (rels : list relationship) : list relationship :=
  map snd (filter (fun p => in_group g (fst p)) (combine l rels)).

(** Dates, as the sort compares them: as strings. *)
Definition date_ge (a b : date_entry) : Prop :=
  str_compare (e_date a) (e_date b) <> Lt.

Definition date_gt (a b : date_entry) : Prop :=
  str_compare (e_date a) (e_date b) = Gt.

(** The request a batch is sent with. *)
Definition request_of (token : pystr) (b : batch) : request :=
  match b with
  | NodeBatch nodes => PostNodes token nodes
  | RelBatch rels => PostRelationships token rels
  end.

Definition succeeded (r : nat * bool * message) : bool := snd (fst r).

(** A capture API that fails the second batch only. *)
Definition second_fails (batch_num : nat) (_ : request) : http_outcome :=
  if (batch_num =? 2)%nat then NoResponse else Response 200 (Some JNull).

Definition three_nodes : list node :=
  [Node (lit "W1") (lit "Well") None [];
   Node (lit "W2") (lit "Well") None [];
   Node (lit "W3") (lit "Well") None []].

(** What one submitted batch does, with the capture API answering. *)
Definition run_job (net : nat -> request -> http_outcome) (token : pystr)
  (job : nat * nat * batch) : list request * (nat * bool * message) :=
  let '(batch_num, total_batches, b) := job in
  process_batch false (net batch_num) batch_num total_batches b token.

Definition as_job {A} (mk : list A -> batch) (j : nat * nat * list A)
  : nat * nat * batch :=
  let '(n, t, l) := j in (n, t, mk l).

(** Whether the submission of a job fails: reading its response raises. *)
Definition job_fails {A} (net : nat -> request -> http_outcome)
  (token : pystr) (mk : list A -> batch) (j : nat * nat * list A) : bool :=
  match read_response (net (fst (fst j)) (request_of token (mk (snd j)))) with
  | Ok _ => false
  | Raise _ => true
  end.

Definition sample_token : pystr := lit "client-key".

(** The shapes the claim on classification speaks of. *)
Definition is_dict_with (ks : list pystr) (j : json) : bool :=
  match j with
  | JDict d => forallb (has_key d) ks
  | _ => false
  end.

Definition node_keys : list pystr :=
  [lit "external_id"; lit "type"; lit "properties"].

Definition relationship_keys : list pystr :=
  [lit "source"; lit "target"; lit "type"].

(** "A JSON array of dicts each having source, target and type". *)
Definition claimed_relationships (data : json) : bool :=
  match data with
  | JList l => forallb (is_dict_with relationship_keys) l
  | _ => false
  end.

(** "A dict containing a nodes list, a dict with external_id and type, or
    a list of dicts each having external_id, type and properties". *)
Definition claimed_nodes (data : json) : bool :=
  match data with
  | JDict d =>
      match dict_get str_eq_dec d (lit "nodes") with
      | Some (JList _) => true
      | _ => false
      end
      || (has_key d (lit "external_id") && has_key d (lit "type"))
  | JList l => forallb (is_dict_with node_keys) l
  | _ => false
  end.

(** An array that starts with a relationship and goes on with a number. *)
Definition mixed_array : json :=
  JList [JDict [(lit "source", JStr (lit "a")); (lit "target", JStr (lit "b"));
                (lit "type", JStr (lit "HAS_TYPE"))];
         JInt 5].

Definition accepting (_ : replay_request) : http_outcome :=
  Response 200 (Some JNull).

Definition sample_host : pystr := lit "https://api.indykite.com".

(** The property carried for a measure: its value, with the unit
    metadata exactly when the unit cell is there and not empty. *)
Definition measure_property (spreadsheet_name verified_time : pystr)
  (k : pystr) (value : option float) (uom : option pystr) : list property :=
  match value with
  | Some x =>
      [Property k (VFloat x)
         (if truthy uom
          then Some (uom_metadata spreadsheet_name verified_time uom)
          else None)]
  | None => []
  end.

(** A relationship end addresses a node of the list: same type, same
    external identifier. *)
Definition addresses (nodes : list node) (ep : endpoint) : Prop :=
  exists n, In n nodes /\ node_type n = end_type ep
            /\ external_id n = end_id ep.

(** Whether an entry has the given sort key. *)
Definition same_key (key : key3) (e : date_entry) : bool :=
  match key_compare (sort_key e) key with Eq => true | _ => false end.

(** The items a request carries. *)
Definition request_nodes (r : request) : list node :=
  match r with PostNodes _ nodes => nodes | PostRelationships _ _ => [] end.

Definition request_relationships (r : request) : list relationship :=
  match r with PostNodes _ _ => [] | PostRelationships _ rels => rels end.

Definition request_token (r : request) : pystr :=
  match r with PostNodes t _ => t | PostRelationships t _ => t end.

Definition request_size (r : request) : nat :=
  match r with
  | PostNodes _ nodes => length nodes
  | PostRelationships _ rels => length rels
  end.

(** The [--type] values [argparse] lets through. *)
Definition type_choice (type : option pystr) : Prop :=
  type = None \/ type = Some (lit "nodes")
  \/ type = Some (lit "relationships").

(** The node list the replay tool posts for a document. *)
Definition replay_items (data : json) : list json :=
  match unwrap_nodes data with
  | JList l => l
  | v => if json_truthy v then [v] else []
  end.

Definition single_node : json :=
  JDict [(lit "external_id", JStr (lit "W1")); (lit "type", JStr (lit "Well"))].

(* --------------------------------------------------------------------- *)
(** ** [load_emissions.py]: [main] *)
(* --------------------------------------------------------------------- *)

(** [os.path.basename] on a POSIX path: what follows the last slash. *)
Fixpoint basename (path : pystr) : pystr :=
  match path with
  | [] => []
  | c :: rest =>
      if existsb (N.eqb 47) rest then basename rest
      else if (c =? 47)%N then rest else path
  end.

(** [args.x if args.x else X]: an option left out, or given as 0, leaves
    the value of the environment in force. *)
Definition in_force (arg : option Z) (env : Z) : Z :=
  match arg with
  | Some z => if (z =? 0)%Z then env else z
  | None => env
  end.

Module LoadEmissions.
Section Main.
Variable py_float : pystr -> option float.
Variable DEBUG_MODE : bool.
Variable net : nat -> request -> http_outcome.
Variable verified_time : pystr.
Variable INDYKITE_TOKEN : option pystr.
Variable INDYKITE_HOST : pystr.
Variables BATCH_SIZE MAX_THREADS : Z.
(** The environment variable [CSV_FILE_PATH], when it is set. *)
Variable CSV_FILE_PATH : option pystr.
(** [os.path.exists], and the rows [csv.reader] yields for a file. *)
Variable path_exists : pystr -> bool.
Variable open_csv : pystr -> list (list pystr).

(** The path in use: the argument takes precedence over the environment. *)
Definition csv_file_path (csv_file : option pystr) : pystr :=
  let env :=
    match CSV_FILE_PATH with
    | Some p => p
    | None => lit "emissions_data.csv"
    end in
  match csv_file with
  | Some p => if nonempty p then p else env
  | None => env
  end.

(** [main]: [None] when it returns before the import starts, otherwise
    what [process_emissions_data] returns or raises; an exception is
    printed and raised again. *)
Definition main (csv_file : option pystr) (batch_size max_threads : option Z)
  : option (result (graph * option round * option round)) :=
  let batch_size := in_force batch_size BATCH_SIZE in
  let max_threads := in_force max_threads MAX_THREADS in
  let csv_file_path := csv_file_path csv_file in
  if negb (nonempty csv_file_path) then None
  else if negb (path_exists csv_file_path) then None
  else
    match INDYKITE_TOKEN with
    | None => None
    | Some token =>
        if negb (nonempty token) then None
        else if negb (nonempty INDYKITE_HOST) then None
        else
          Some (process_emissions_data py_float DEBUG_MODE net verified_time
                  token (basename csv_file_path) (open_csv csv_file_path)
                  batch_size max_threads)
    end.
End Main.
End LoadEmissions.

(** [t] is [s] without the blanks at its two ends. *)
Definition trimmed (s t : pystr) : Prop :=
  exists pre post,
    s = pre ++ t ++ post
    /\ forallb is_space pre = true /\ forallb is_space post = true
    /\ match t with [] => True | c :: _ => is_space c = false end
    /\ match rev t with [] => True | c :: _ => is_space c = false end.

(** [s] padded with zeros to two characters; a sign stays in front. *)
Definition padded2 (s : pystr) : pystr :=
  match s with
  | [] => [48; 48]%N
  | [c] => if ((c =? 43) || (c =? 45))%N then [c; 48%N] else [48%N; c]
  | _ => s
  end.

(** A cell that holds the decimal digits [digits], [lo] to [hi] of them,
    blanks around them allowed. *)
Definition digits_cell (lo hi : nat) (s digits : pystr) : Prop :=
  trimmed s digits /\ forallb is_digit digits = true
  /\ (lo <= length digits <= hi)%nat.

(** The year, month and day that three digit strings denote. *)
Definition date_number (year month day : pystr) : N * N * N :=
  (digits_value year, digits_value month, digits_value day).


Definition chronological (a b : N * N * N) : comparison :=
  let '(y1, m1, d1) := a in
  let '(y2, m2, d2) := b in
  match (y1 ?= y2)%N with
  | Eq => match (m1 ?= m2)%N with
          | Eq => (d1 ?= d2)%N
          | c => c
          end
  | c => c
  end.

(** A document whose relationships can be counted: anything but a dict
    whose "relationships" value is null, a number or a boolean. *)
Definition countable (data : json) : bool :=
  match data with
  | JDict d =>
      match dict_get str_eq_dec d (lit "relationships") with
      | Some (JNull | JBool _ | JInt _ | JFloat _) => false
      | _ => true
      end
  | _ => true
  end.

Definition null_relationships : json :=
  JDict [(lit "relationships", JNull)].

(* ===================================================================== *)
(** * Strings: stripping, padding, encoding *)
(* ===================================================================== *)

Lemma text_app a b : text (a ++ b) = text a && text b.
Proof. apply forallb_app. Qed.

Lemma text_rev s : text (rev s) = text s.
Proof.
  induction s as [|c s IH]; simpl; [reflexivity|].
  rewrite text_app, IH. simpl. rewrite andb_true_r. apply andb_comm.
Qed.

Lemma text_lstrip s : text s = true -> text (lstrip s) = true.
Proof.
  induction s as [|c s IH]; simpl; [reflexivity|].
  intros H. apply andb_prop in H as [Hc Hs].
  destruct (is_space c); [auto|]. simpl. now rewrite Hc, Hs.
Qed.

Lemma text_strip s : text s = true -> text (strip s) = true.
Proof.
  intros H. unfold strip, rstrip.
  rewrite text_rev. apply text_lstrip. rewrite text_rev.
  now apply text_lstrip.
Qed.

Lemma text_repeat_zero n : text (repeat zero n) = true.
Proof. induction n; simpl; auto. Qed.

Lemma text_zfill n s : text s = true -> text (zfill n s) = true.
Proof.
  intros H. unfold zfill. destruct (n <=? length s)%nat; [exact H|].
  destruct s as [|c s]; [apply text_repeat_zero|].
  simpl in H. apply andb_prop in H as [Hc Hs].
  destruct ((c =? 43) || (c =? 45))%N.
  - simpl. now rewrite Hc, text_app, text_repeat_zero, Hs.
  - rewrite text_app, text_repeat_zero. simpl. now rewrite Hc, Hs.
Qed.

Lemma zfill_length n s : (n <= length (zfill n s))%nat.
Proof.
  unfold zfill. destruct (Nat.leb_spec n (length s)) as [H|H]; [exact H|].
  destruct s as [|c s]; simpl in *.
  - rewrite repeat_length. lia.
  - destruct ((c =? 43) || (c =? 45))%N; simpl;
      rewrite length_app, repeat_length; simpl; lia.
Qed.

(** Without a leading sign, [zfill] puts the zeros in front. *)
Lemma zfill_unsigned n s :
  match s with c :: _ => ((c =? 43) || (c =? 45))%N = false | [] => True end ->
  zfill n s = repeat zero (n - length s) ++ s.
Proof.
  intros H. unfold zfill.
  destruct (Nat.leb_spec n (length s)) as [Hl|Hl].
  - replace (n - length s)%nat with 0%nat by lia. reflexivity.
  - destruct s as [|c s]; [now rewrite app_nil_r|]. now rewrite H.
Qed.

Example zfill_month : show (zfill 2 (strip (lit " 3 "))) = "03"%string.
Proof. reflexivity. Qed.

Example zfill_sign : show (zfill 2 (lit "-")) = "-0"%string.
Proof. reflexivity. Qed.

(** [strip] removes the Unicode white space of [str.isspace], here a
    file separator, a next-line and an ideographic space. *)
Example strip_unicode_space :
  strip ([0x1C; 0x85] ++ lit "a b" ++ [0x3000])%N = lit "a b".
Proof. reflexivity. Qed.

(** [zfill] counts code points, not bytes. *)
Example zfill_code_points : zfill 2 [0xE9%N] = [48; 0xE9]%N.
Proof. reflexivity. Qed.

(* ===================================================================== *)
(** * Identity derivation *)
(* ===================================================================== *)

Lemma hexdigit_lower_hex d : (d < 16)%N -> is_lower_hex (SHA256.hexdigit d) = true.
Proof.
  intros H. unfold SHA256.hexdigit, is_lower_hex.
  destruct (N.ltb_spec d 10).
  - replace (48 <=? 48 + d)%N with true by (symmetry; apply N.leb_le; lia).
    replace (48 + d <=? 57)%N with true by (symmetry; apply N.leb_le; lia).
    reflexivity.
  - replace (97 <=? 87 + d)%N with true by (symmetry; apply N.leb_le; lia).
    replace (87 + d <=? 102)%N with true by (symmetry; apply N.leb_le; lia).
    apply orb_true_r.
Qed.

Lemma hex_word_lower_hex x : forallb is_lower_hex (SHA256.hex_word x) = true.
Proof.
  unfold SHA256.hex_word. simpl map. simpl forallb.
  rewrite !hexdigit_lower_hex; try reflexivity;
    apply N.mod_upper_bound; discriminate.
Qed.

Lemma hex_word_length x : length (SHA256.hex_word x) = 8%nat.
Proof. reflexivity. Qed.

Lemma hexdigest_length msg : length (SHA256.hexdigest msg) = 64%nat.
Proof.
  unfold SHA256.hexdigest. rewrite !length_app, !hex_word_length.
  reflexivity.
Qed.

Lemma hexdigest_lower_hex msg :
  forallb is_lower_hex (SHA256.hexdigest msg) = true.
Proof.
  unfold SHA256.hexdigest. rewrite !forallb_app, !hex_word_lower_hex.
  reflexivity.
Qed.

Lemma forallb_firstn {A} (p : A -> bool) n l :
  forallb p l = true -> forallb p (firstn n l) = true.
Proof.
  intros H. rewrite <- (firstn_skipn n l), forallb_app in H.
  now apply andb_prop in H.
Qed.

Lemma derive_length key category date :
  length (derive key category date) = 24%nat.
Proof.
  unfold derive. rewrite length_firstn, hexdigest_length. reflexivity.
Qed.

Lemma derive_lower_hex key category date :
  forallb is_lower_hex (derive key category date) = true.
Proof. apply forallb_firstn, hexdigest_lower_hex. Qed.

Lemma text_lower_hex s : forallb is_lower_hex s = true -> text s = true.
Proof.
  unfold text. rewrite !forallb_forall. intros H c Hc.
  specialize (H c Hc). unfold is_lower_hex, is_scalar in *.
  apply orb_true_iff. left. apply N.ltb_lt.
  apply orb_prop in H as [H|H]; apply andb_prop in H as [_ H];
    apply N.leb_le in H; lia.
Qed.

(** On text free of lone surrogates the encoding succeeds. *)
Lemma generate_external_id_text key category date :
  text key = true -> text category = true -> text date = true ->
  generate_external_id key category date = Ok (derive key category date).
Proof.
  intros Hk Hc Hd. unfold generate_external_id, encode_utf8.
  rewrite !text_app, Hk, Hc, Hd. reflexivity.
Qed.

Example utf8_two_bytes : utf8_bytes [0xE9%N] = [0xC3; 0xA9]%N.
Proof. reflexivity. Qed.

Example utf8_three_bytes : utf8_bytes [0x20AC%N] = [0xE2; 0x82; 0xAC]%N.
Proof. reflexivity. Qed.

Example utf8_four_bytes : utf8_bytes [0x1F600%N] = [0xF0; 0x9F; 0x98; 0x80]%N.
Proof. reflexivity. Qed.

(** The FIPS 180-4 test vectors for the empty message and for "abc". *)
Example sha256_empty :
  show (SHA256.hexdigest [])
  = "e3b0c44298fc1c149afbf4c8996fb92427ae41e4649b934ca495991b7852b855"%string.
Proof. vm_compute. reflexivity. Qed.

Example sha256_abc :
  show (SHA256.hexdigest (utf8_bytes (lit "abc")))
  = "ba7816bf8f01cfea414140de5dae2223b00361a396177a9cb410ff61f20015ad"%string.
Proof. vm_compute. reflexivity. Qed.

(** A message of 56 bytes needs a second block. *)
Example sha256_two_blocks :
  show (SHA256.hexdigest
          (utf8_bytes
             (lit "abcdbcdecdefdefgefghfghighijhijkijkljklmklmnlmnomnopnopq")))
  = "248d6a61d20638b8e5c026930c3e6039a33ce45964ff2167f6ecedd419db06c1"%string.
Proof. vm_compute. reflexivity. Qed.

(** C1, as the claim states it, fails: a string holding a lone surrogate
    (here U+D800) is a string, and on it the UTF-8 encoding step of
    [generate_external_id] raises [UnicodeEncodeError]; so the function
    is not total over all string triples. *)
Lemma generate_external_id_surrogate :
  generate_external_id [0xD800%N] [] [] = Raise UnicodeEncodeError
  /\ ~ (forall key category date,
          exists id, generate_external_id key category date = Ok id).
Proof.
  split; [reflexivity|].
  intros H. destruct (H [0xD800%N] [] []) as [id Hid]. discriminate Hid.
Qed.

(** C1, amended: for all triples of strings made of Unicode scalar values
    (no lone surrogate), [generate_external_id] returns, and what it
    returns is the first 24 characters of the hexadecimal SHA-256 digest
    of the UTF-8 encoding of "{key}_{category}_{date}": 24 characters,
    each a lowercase hexadecimal digit.  Being a function of its three
    arguments, two calls on the same triple give the same identifier. *)
Theorem generate_external_id_scalar key category date :
  text key = true -> text category = true -> text date = true ->
  exists id,
    generate_external_id key category date = Ok id
    /\ id = firstn 24
              (SHA256.hexdigest
                 (utf8_bytes
                    (key ++ lit "_" ++ category ++ lit "_" ++ date)))
    /\ length id = 24%nat
    /\ forallb is_lower_hex id = true.
Proof.
  intros Hk Hc Hd. exists (derive key category date).
  split; [now apply generate_external_id_text|].
  split; [reflexivity|].
  split; [apply derive_length | apply derive_lower_hex].
Qed.

Lemma generate_external_id_scalar_witness :
  text (lit "W1") = true /\ text (lit "Flaring") = true
  /\ text (lit "2024-03-15") = true
  /\ exists id,
       generate_external_id (lit "W1") (lit "Flaring") (lit "2024-03-15")
       = Ok id
       /\ id = firstn 24
                 (SHA256.hexdigest
                    (utf8_bytes
                       (lit "W1" ++ lit "_" ++ lit "Flaring" ++ lit "_"
                        ++ lit "2024-03-15")))
       /\ length id = 24%nat
       /\ forallb is_lower_hex id = true.
Proof.
  split; [reflexivity|]. split; [reflexivity|]. split; [reflexivity|].
  apply (generate_external_id_scalar (lit "W1") (lit "Flaring")
           (lit "2024-03-15")); reflexivity.
Defined.

Example derive_w1_flaring :
  show (derive (lit "W1") (lit "Flaring") (lit "2024-03-15"))
  = "b9ac75a90c641a5283e06678"%string.
Proof. vm_compute. reflexivity. Qed.

(* ===================================================================== *)
(** * Rows: dates, numbers, entries *)
(* ===================================================================== *)

Lemma create_date_string_ok year month day :
  create_date_string year month day
  = Ok (strip year ++ lit "-" ++ zfill 2 (strip month) ++ lit "-"
        ++ zfill 2 (strip day)).
Proof. reflexivity. Qed.

Lemma get_emission_type_columns_known t :
  In t emission_types -> exists cm, get_emission_type_columns t = Some cm.
Proof.
  intros [<-|[<-|[<-|[<-|[]]]]]; eexists; vm_compute; reflexivity.
Qed.

Section RowEntry.
Variable py_float : pystr -> option float.
Variables spreadsheet_name verified_time : pystr.

Lemma to_number_events warn s :
  (forall x, is_row_error (warn x) = false) ->
  forallb (fun ev => negb (is_row_error ev))
          (fst (to_number py_float warn s)) = true.
Proof.
  intros Hw. unfold to_number. destruct s as [s|]; [|reflexivity].
  destruct (nonempty s); [|reflexivity].
  destruct (py_float s); [reflexivity|]. simpl. now rewrite Hw.
Qed.

(** With a column map, the body of the [try] returns. *)
Lemma row_entry_columns k t cm row :
  row_entry py_float spreadsheet_name verified_time k t (Some cm) row
  = let date_str :=
      strip (year row) ++ lit "-" ++ zfill 2 (strip (month row))
      ++ lit "-" ++ zfill 2 (strip (day row)) in
    let v := to_number py_float WarnVolume (cell (row_data row) (c_volume cm)) in
    let m := to_number py_float WarnMass (cell (row_data row) (c_mass cm)) in
    Ok (fst v ++ fst m,
        match snd v, snd m with
        | None, None => []
        | _, _ =>
            [DateEntry k t date_str
               (with_measure spreadsheet_name verified_time
                  (with_measure spreadsheet_name verified_time
                     [(lit "date", VStr date_str)]
                     (lit "volume") (lit "_volume_metadata") (snd v)
                     (cell (row_data row) (c_volume_uom cm)))
                  (lit "mass") (lit "_mass_metadata") (snd m)
                  (cell (row_data row) (c_mass_uom cm)))]
        end).
Proof.
  unfold row_entry. rewrite create_date_string_ok. cbn [bind column].
  destruct (to_number py_float WarnVolume _) as [w1 [v|]];
    destruct (to_number py_float WarnMass _) as [w2 [m|]]; reflexivity.
Qed.

Lemma row_entry_returns k t row :
  In t emission_types ->
  exists w es,
    row_entry py_float spreadsheet_name verified_time k t
              (get_emission_type_columns t) row = Ok (w, es)
    /\ forallb (fun ev => negb (is_row_error ev)) w = true.
Proof.
  intros Ht. destruct (get_emission_type_columns_known Ht) as [cm ->].
  rewrite row_entry_columns. cbv zeta. do 2 eexists. split; [reflexivity|].
  rewrite forallb_app, !to_number_events; reflexivity.
Qed.
End RowEntry.

(** What [strip] removes and what it leaves. *)
Lemma lstrip_split s :
  exists pre,
    s = pre ++ lstrip s /\ forallb is_space pre = true
    /\ match lstrip s with [] => True | c :: _ => is_space c = false end.
Proof.
  induction s as [|c s (pre & E & Hp & Hh)].
  - now exists [].
  - cbn [lstrip]. destruct (is_space c) eqn:Hc.
    + exists (c :: pre). cbn [app forallb]. rewrite Hc, Hp.
      split; [now f_equal|]. now split.
    + exists []. cbn [app]. now split.
Qed.

Lemma lstrip_blank_app pre s :
  forallb is_space pre = true -> lstrip (pre ++ s) = lstrip s.
Proof.
  induction pre as [|c pre IH]; [reflexivity|]. cbn [forallb app lstrip].
  intros H. apply andb_true_iff in H as [-> H]. now apply IH.
Qed.

Lemma lstrip_blank s : forallb is_space s = true -> lstrip s = [].
Proof.
  intros H. rewrite <- (app_nil_r s). now rewrite lstrip_blank_app.
Qed.

Lemma lstrip_head s :
  match s with [] => True | c :: _ => is_space c = false end ->
  lstrip s = s.
Proof. destruct s as [|c s]; [reflexivity|]. cbn [lstrip]. now intros ->. Qed.

Lemma forallb_rev {A} (f : A -> bool) l : forallb f (rev l) = forallb f l.
Proof.
  induction l as [|x l IH]; [reflexivity|]. cbn [rev forallb].
  rewrite forallb_app, IH. cbn [forallb]. rewrite andb_true_r.
  apply andb_comm.
Qed.

Lemma trimmed_strip s t : trimmed s t -> strip s = t.
Proof.
  intros (pre & post & -> & Hpre & Hpost & Hh & Hl).
  unfold strip, rstrip. rewrite lstrip_blank_app by exact Hpre.
  destruct t as [|c t].
  - cbn [app]. rewrite (lstrip_blank _ Hpost). reflexivity.
  - rewrite (lstrip_head ((c :: t) ++ post)) by exact Hh.
    rewrite rev_app_distr, lstrip_blank_app
      by (now rewrite forallb_rev).
    rewrite lstrip_head by exact Hl. apply rev_involutive.
Qed.

Lemma strip_trimmed s : trimmed s (strip s).
Proof.
  destruct (lstrip_split s) as (pre & E & Hpre & Hh).
  destruct (lstrip_split (rev (lstrip s))) as (tsop & E' & Hpost & Hl).
  unfold trimmed, strip, rstrip. exists pre, (rev tsop).
  rewrite rev_involutive.
  assert (El : lstrip s = rev (lstrip (rev (lstrip s))) ++ rev tsop).
  { rewrite <- rev_app_distr, <- E'. symmetry. apply rev_involutive. }
  split; [now rewrite <- El|]. split; [exact Hpre|].
  split; [now rewrite forallb_rev|]. split; [|exact Hl].
  destruct (rev (lstrip (rev (lstrip s)))) as [|c r] eqn:Er; [exact I|].
  rewrite El in Hh. exact Hh.
Qed.

Lemma zfill_padded2 s : zfill 2 s = padded2 s.
Proof.
  destruct s as [|c [|c' s]]; reflexivity.
Qed.

(** C10: date construction is total.  For all strings year, month and
    day, [create_date_string] returns (it never raises) the stripped year,
    a dash, the stripped month padded by [zfill] to at least two
    characters, a dash, and the day treated likewise.  What is returned is
    fixed without reference to [strip] and [zfill]: each part is the one
    string left when the blanks at both ends of the cell are taken away,
    and the month and the day are then padded with zeros to two
    characters, a lone sign staying in front.  So the [except] clause
    that skips a row is never taken: for each of the four emission types
    the body of the [try] returns for every row, and what it prints holds
    no row error. *)
Theorem create_date_string_total :
  (forall year month day,
     create_date_string year month day
     = Ok (strip year ++ lit "-" ++ zfill 2 (strip month) ++ lit "-"
           ++ zfill 2 (strip day))
     /\ (2 <= length (zfill 2 (strip month)))%nat
     /\ (2 <= length (zfill 2 (strip day)))%nat)
  /\ (forall year month day,
        exists y m d,
          trimmed year y /\ trimmed month m /\ trimmed day d
          /\ create_date_string year month day
             = Ok (y ++ [45%N] ++ padded2 m ++ [45%N] ++ padded2 d))
  /\ (forall s t t', trimmed s t -> trimmed s t' -> t = t')
  /\ Forall
       (fun t =>
          forall py_float spreadsheet_name verified_time k row acc,
          exists w es,
            row_entry py_float spreadsheet_name verified_time k t
                      (get_emission_type_columns t) row = Ok (w, es)
            /\ forallb (fun ev => negb (is_row_error ev)) w = true
            /\ try_row py_float spreadsheet_name verified_time k t
                       (get_emission_type_columns t) acc row
               = (fst acc ++ w, snd acc ++ es))
       emission_types.
Proof.
  split; [|split; [|split]].
  - intros year month day. split; [apply create_date_string_ok|].
    split; apply zfill_length.
  - intros year month day.
    exists (strip year), (strip month), (strip day).
    split; [apply strip_trimmed|]. split; [apply strip_trimmed|].
    split; [apply strip_trimmed|].
    rewrite create_date_string_ok, !zfill_padded2. reflexivity.
  - intros s t t' H H'. apply trimmed_strip in H, H'. congruence.
  - apply Forall_forall. intros t Ht py_float sn vt k row acc.
    destruct (row_entry_returns py_float sn vt k row Ht) as (w & es & H & Hw).
    exists w, es. split; [exact H|]. split; [exact Hw|].
    unfold try_row. now rewrite H.
Qed.

Lemma create_date_string_total_witness :
  trimmed (lit " 2024") (lit "2024") /\ trimmed (lit "3 ") (lit "3")
  /\ trimmed (lit "-") (lit "-")
  /\ create_date_string (lit " 2024") (lit "3 ") (lit "-")
     = Ok (lit "2024-03--0").
Proof.
  assert (Hy : trimmed (lit " 2024") (lit "2024"))
    by (exists [32%N], []; repeat split).
  assert (Hm : trimmed (lit "3 ") (lit "3"))
    by (exists [], [32%N]; repeat split).
  assert (Hd : trimmed (lit "-") (lit "-"))
    by (exists [], []; repeat split).
  split; [exact Hy|]. split; [exact Hm|]. split; [exact Hd|].
  destruct create_date_string_total as (_ & H & U & _).
  destruct (H (lit " 2024") (lit "3 ") (lit "-"))
    as (y & m & d & Hy' & Hm' & Hd' & E).
  rewrite E, (U _ _ _ Hy' Hy), (U _ _ _ Hm' Hm), (U _ _ _ Hd' Hd).
  reflexivity.
Defined.

(* ===================================================================== *)
(** * Dictionaries *)
(* ===================================================================== *)

Section DictFacts.
Variables K V : Type.
Variable eq_dec : forall a b : K, {a = b} + {a <> b}.
Implicit Types (d : dict K V) (k : K) (v : V).

Lemma dict_get_none d k : dict_get eq_dec d k = None <-> ~ In k (keys d).
Proof.
  induction d as [|[k' v'] d IH]; simpl; [tauto|].
  destruct (eq_dec k k') as [->|Hne].
  - split; [discriminate | intros H; exfalso; apply H; now left].
  - rewrite IH. split; intros H; [intros [E|I]; [now subst|auto] | tauto].
Qed.

Lemma dict_get_in d k v : dict_get eq_dec d k = Some v -> In (k, v) d.
Proof.
  induction d as [|[k' v'] d IH]; simpl; [discriminate|].
  destruct (eq_dec k k') as [->|Hne]; [intros [= ->]; now left | auto].
Qed.

Lemma dict_get_nodup d k v :
  NoDup (keys d) -> In (k, v) d -> dict_get eq_dec d k = Some v.
Proof.
  induction d as [|[k' v'] d IH]; simpl; [tauto|].
  intros Hnd [[= -> ->]|Hin].
  - destruct (eq_dec k k); congruence.
  - inversion_clear Hnd as [|? ? Hk Hd].
    destruct (eq_dec k k') as [->|_]; [|auto].
    exfalso. apply Hk. change k' with (fst (k', v)). now apply in_map.
Qed.

Lemma dict_set_fresh d k v :
  ~ In k (keys d) -> dict_set eq_dec d k v = d ++ [(k, v)].
Proof.
  induction d as [|[k' v'] d IH]; simpl; [reflexivity|].
  intros H. destruct (eq_dec k k') as [->|_]; [tauto|].
  f_equal. apply IH. tauto.
Qed.

Lemma dict_get_last d k v :
  ~ In k (keys d) -> dict_get eq_dec (d ++ [(k, v)]) k = Some v.
Proof.
  induction d as [|[k' v'] d IH]; simpl.
  - destruct (eq_dec k k); congruence.
  - intros H. destruct (eq_dec k k') as [->|_]; [tauto|]. apply IH. tauto.
Qed.

Lemma dict_set_last d k v v' :
  ~ In k (keys d) -> dict_set eq_dec (d ++ [(k, v)]) k v' = d ++ [(k, v')].
Proof.
  induction d as [|[k' w] d IH]; simpl.
  - destruct (eq_dec k k); congruence.
  - intros H. destruct (eq_dec k k') as [->|_]; [tauto|].
    f_equal. apply IH. tauto.
Qed.

Lemma dict_get_set_same d k v :
  dict_get eq_dec (dict_set eq_dec d k v) k = Some v.
Proof.
  induction d as [|[k' w] d IH]; simpl.
  - destruct (eq_dec k k); congruence.
  - destruct (eq_dec k k') as [->|Hne]; simpl.
    + destruct (eq_dec k' k'); congruence.
    + destruct (eq_dec k k'); [contradiction | exact IH].
Qed.

Lemma dict_get_set_other d k k' v :
  k' <> k -> dict_get eq_dec (dict_set eq_dec d k v) k' = dict_get eq_dec d k'.
Proof.
  intros Hne. induction d as [|[k0 w] d IH]; simpl.
  - destruct (eq_dec k' k); [contradiction | reflexivity].
  - destruct (eq_dec k k0) as [->|Hk]; simpl.
    + destruct (eq_dec k' k0); [contradiction | reflexivity].
    + destruct (eq_dec k' k0); [reflexivity | exact IH].
Qed.

Lemma keys_dict_set d k v :
  keys (dict_set eq_dec d k v)
  = if dict_mem eq_dec d k then keys d else keys d ++ [k].
Proof.
  unfold dict_mem. induction d as [|[k' w] d IH]; simpl; [reflexivity|].
  destruct (eq_dec k k') as [->|Hne]; simpl; [reflexivity|].
  rewrite IH. now destruct (dict_get eq_dec d k).
Qed.

Lemma keys_dict_set_nodup d k v :
  NoDup (keys d) -> NoDup (keys (dict_set eq_dec d k v)).
Proof.
  intros H. rewrite keys_dict_set. unfold dict_mem.
  destruct (dict_get eq_dec d k) eqn:E; [exact H|].
  apply dict_get_none in E.
  apply NoDup_rev in H. rewrite <- (rev_involutive (keys d ++ [k])).
  apply NoDup_rev. rewrite rev_app_distr. simpl.
  constructor; [now rewrite <- in_rev | exact H].
Qed.
End DictFacts.

Lemma read_csv_data_fold rows : forall log data,
  fold_left
    (fun (acc : list event * list rawrow) row =>
       let (log, data) := acc in
       if (length row <? 21)%nat
       then (log ++ [WarnShortRow row], data)
       else (log,
             data ++ [RawRow (field 0 row) (field 1 row) (field 2 row)
                             (field 3 row) (field 4 row) row]))
    rows (log, data)
  = (log ++ map WarnShortRow (filter (fun r => negb (long_enough r)) rows),
     data ++ map to_rawrow (filter long_enough rows)).
Proof.
  induction rows as [|row rows IH]; intros log data.
  - simpl. now rewrite !app_nil_r.
  - cbn [fold_left filter].
    assert (Hl : long_enough row = negb (length row <? 21)%nat) by reflexivity.
    rewrite Hl. destruct (length row <? 21)%nat; cbn [negb map];
      rewrite IH, <- app_assoc; reflexivity.
Qed.

(** With a header row, reading returns the kept rows and a warning for
    each short one. *)
Lemma read_csv_data_header headers rows :
  read_csv_data (headers :: rows)
  = Ok (map WarnShortRow (filter (fun r => negb (long_enough r)) rows),
        kept_rows (headers :: rows)).
Proof. unfold read_csv_data. now rewrite read_csv_data_fold. Qed.

Lemma nonempty_true s : nonempty s = true <-> s <> [].
Proof. destruct s; simpl; split; congruence. Qed.

Lemma text_field i row : forallb text row = true -> text (field i row) = true.
Proof.
  intros H. unfold field. destruct (i <? length row)%nat eqn:E; [|reflexivity].
  apply text_strip. rewrite forallb_forall in H. apply H, nth_In.
  now apply Nat.ltb_lt.
Qed.

Lemma dict_append_keys grouped k row :
  keys (dict_append grouped k row)
  = if dict_mem str_eq_dec grouped k then keys grouped
    else keys grouped ++ [k].
Proof.
  unfold dict_append.
  destruct (dict_get str_eq_dec grouped k) eqn:E;
    rewrite keys_dict_set; unfold dict_mem; now rewrite E.
Qed.

Lemma dict_set_in_inv {K V} (eq_dec : forall a b : K, {a = b} + {a <> b})
  (d : dict K V) k v k' v' :
  In (k', v') (dict_set eq_dec d k v) -> In (k', v') d \/ (k' = k /\ v' = v).
Proof.
  induction d as [|[k0 w] d IH]; simpl.
  - intros [[= <- <-]|[]]. now right.
  - destruct (eq_dec k k0) as [->|Hne]; simpl.
    + intros [[= <- <-]|H]; [now right | left; now right].
    + intros [E|H]; [left; now left|].
      destruct (IH H) as [H'|H']; [left; now right | now right].
Qed.

Section Grouping.
Let step (grouped : dict pystr (list rawrow)) (row : rawrow) :=
  if nonempty (well_key row)
  then dict_append grouped (well_key row) row
  else grouped.

Lemma group_fold_nodup data : forall grouped,
  NoDup (keys grouped) -> NoDup (keys (fold_left step data grouped)).
Proof.
  induction data as [|row data IH]; intros grouped H; simpl; [exact H|].
  apply IH. unfold step. destruct (nonempty (well_key row)); [|exact H].
  unfold dict_append.
  destruct (dict_get str_eq_dec grouped (well_key row));
    now apply keys_dict_set_nodup.
Qed.

Lemma group_fold_keys data : forall grouped k,
  In k (keys (fold_left step data grouped))
  <-> In k (keys grouped)
      \/ (k <> [] /\ exists r, In r data /\ well_key r = k).
Proof.
  induction data as [|row data IH]; intros grouped k; simpl.
  - split; [tauto | intros [H|(_ & r & [] & _)]; exact H].
  - rewrite IH. unfold step at 1.
    destruct (nonempty (well_key row)) eqn:Hn.
    + apply nonempty_true in Hn. rewrite dict_append_keys.
      split.
      * intros [H|(Hk & r & Hr & E)].
        -- destruct (dict_mem str_eq_dec grouped (well_key row)); [now left|].
           apply in_app_or in H as [H|[<-|[]]]; [now left|].
           right. split; [exact Hn|]. exists row. split; [now left|reflexivity].
        -- right. split; [exact Hk|]. exists r. split; [now right|exact E].
      * intros [H|(Hk & r & [<-|Hr] & E)].
        -- left. destruct (dict_mem str_eq_dec grouped (well_key row));
             [exact H | apply in_or_app; now left].
        -- left. subst k.
           destruct (dict_mem str_eq_dec grouped (well_key row)) eqn:Hm.
           ++ unfold dict_mem in Hm.
              destruct (dict_get str_eq_dec grouped (well_key row)) eqn:Hg;
                [|discriminate].
              apply dict_get_in in Hg.
              change (well_key row) with (fst (well_key row, l)).
              now apply in_map.
           ++ apply in_or_app. right. now left.
        -- right. split; [exact Hk|]. now exists r.
    + split.
      * intros [H|(Hk & r & Hr & E)]; [now left|].
        right. split; [exact Hk|]. exists r. split; [now right|exact E].
      * intros [H|(Hk & r & [<-|Hr] & E)]; [now left| |].
        -- subst k. destruct (well_key row); [now elim Hk | discriminate].
        -- right. split; [exact Hk|]. now exists r.
Qed.

Lemma group_fold_rows (Q : rawrow -> Prop) data : forall grouped,
  Forall Q data ->
  (forall k rows, In (k, rows) grouped ->
     forall r, In r rows -> well_key r = k /\ Q r) ->
  forall k rows, In (k, rows) (fold_left step data grouped) ->
  forall r, In r rows -> well_key r = k /\ Q r.
Proof.
  induction data as [|row data IH]; intros grouped HQ Hg; simpl; [exact Hg|].
  inversion_clear HQ as [|? ? Hrow Hdata].
  apply IH; [exact Hdata|]. unfold step.
  destruct (nonempty (well_key row)); [|exact Hg].
  intros k rows Hin r Hr. unfold dict_append in Hin.
  destruct (dict_get str_eq_dec grouped (well_key row)) as [old|] eqn:E;
    apply dict_set_in_inv in Hin as [Hin|[-> ->]];
    try (now apply (Hg k rows)).
  - apply dict_get_in in E. apply in_app_or in Hr as [Hr|[<-|[]]];
      [now apply (Hg _ _ E) | now split].
  - destruct Hr as [<-|[]]. now split.
Qed.
End Grouping.

(** Each well key is grouped once. *)
Lemma group_data_by_well_nodup data : NoDup (keys (group_data_by_well data)).
Proof. apply group_fold_nodup. constructor. Qed.

(** The well keys are the non-empty keys of the data rows. *)
Lemma group_data_by_well_keys data k :
  In k (keys (group_data_by_well data))
  <-> k <> [] /\ exists r, In r data /\ well_key r = k.
Proof.
  unfold group_data_by_well. rewrite group_fold_keys. simpl. tauto.
Qed.

Lemma group_data_by_well_rows (Q : rawrow -> Prop) data k rows :
  Forall Q data -> In (k, rows) (group_data_by_well data) ->
  forall r, In r rows -> well_key r = k /\ Q r.
Proof.
  intros HQ. apply group_fold_rows; [exact HQ|]. intros ? ? [].
Qed.

(* ===================================================================== *)
(** * The collecting loop *)
(* ===================================================================== *)

Lemma emission_types_text : forallb text emission_types = true.
Proof. reflexivity. Qed.

Lemma emission_types_nodup : NoDup emission_types.
Proof.
  unfold emission_types.
  repeat (constructor; [simpl; intuition discriminate|]). constructor.
Qed.

Lemma keys_well_records wells : keys (map well_record_of wells) = keys wells.
Proof. unfold keys. rewrite map_map. reflexivity. Qed.

Lemma keys_type_id_items ks k t :
  In (k, t) (keys (flat_map type_id_items ks)) -> In k ks.
Proof.
  unfold keys. rewrite in_map_iff. intros ([[k' t'] id] & [= -> ->] & H).
  apply in_flat_map in H as (k0 & Hk & H). unfold type_id_items in H.
  apply in_map_iff in H as (t0 & [= -> -> _] & _). exact Hk.
Qed.

Section Collect.
Variable py_float : pystr -> option float.
Variables spreadsheet_name verified_time : pystr.

Local Abbreviation rents :=
  (row_entries py_float spreadsheet_name verified_time).
Local Abbreviation revts :=
  (row_events py_float spreadsheet_name verified_time).
Local Abbreviation wents :=
  (well_entries_of py_float spreadsheet_name verified_time).
Local Abbreviation wevts :=
  (well_events_of py_float spreadsheet_name verified_time).
Local Abbreviation ctype :=
  (collect_type py_float spreadsheet_name verified_time).
Local Abbreviation cwell :=
  (collect_well py_float spreadsheet_name verified_time).

Lemma try_row_spec k t acc row :
  try_row py_float spreadsheet_name verified_time k t
          (get_emission_type_columns t) acc row
  = (fst acc ++ revts k t row, snd acc ++ rents k t row).
Proof.
  unfold try_row, row_events, row_entries.
  destruct (row_entry _ _ _ _ _ _ _) as [[w es]|e]; simpl;
    rewrite ?app_nil_r; reflexivity.
Qed.

Lemma try_row_fold k t rows : forall acc,
  fold_left (try_row py_float spreadsheet_name verified_time k t
                     (get_emission_type_columns t)) rows acc
  = (fst acc ++ flat_map (revts k t) rows,
     snd acc ++ flat_map (rents k t) rows).
Proof.
  induction rows as [|row rows IH]; intros [l es]; simpl.
  - now rewrite !app_nil_r.
  - rewrite try_row_spec, IH. simpl. now rewrite <- !app_assoc.
Qed.

Lemma collect_type_ok k rows wi n e tids eti l es t :
  text k = true -> text t = true ->
  ~ In k (keys wi) -> ~ In (k, t) (keys eti) ->
  ctype k rows
    (Collected (wi ++ [(k, WellRecord n e tids)]) eti l es) t
  = Ok (Collected
          (wi ++ [(k, WellRecord n e
                        (dict_set str_eq_dec tids t (type_id k t)))])
          (eti ++ [((k, t), type_id k t)])
          (l ++ flat_map (revts k t) rows)
          (es ++ flat_map (rents k t) rows)).
Proof.
  intros Hk Ht Hwi Heti. unfold collect_type.
  rewrite generate_external_id_text;
    [|exact Hk | now rewrite text_app, Ht | reflexivity].
  cbn [bind well_info emission_type_ids log date_entries].
  unfold dict_item. rewrite (dict_get_last str_eq_dec) by exact Hwi.
  cbn [bind w_name emissions_id w_emission_type_ids].
  rewrite (dict_set_last str_eq_dec) by exact Hwi.
  rewrite (dict_set_fresh key2_eq_dec) by exact Heti.
  rewrite try_row_fold. reflexivity.
Qed.

Lemma collect_types_ok k rows ts : forall wi n e tids eti l es,
  text k = true -> forallb text ts = true -> NoDup ts ->
  ~ In k (keys wi) -> (forall t, In t ts -> ~ In (k, t) (keys eti)) ->
  foldM (ctype k rows) ts
        (Collected (wi ++ [(k, WellRecord n e tids)]) eti l es)
  = Ok (Collected
          (wi ++ [(k, WellRecord n e (type_ids_from k ts tids))])
          (eti ++ map (fun t => ((k, t), type_id k t)) ts)
          (l ++ wevts ts (k, rows))
          (es ++ wents ts (k, rows))).
Proof.
  induction ts as [|t ts IH]; intros wi n e tids eti l es Hk Hts Hnd Hwi Heti.
  - simpl. now rewrite !app_nil_r.
  - simpl in Hts. apply andb_prop in Hts as [Ht Hts].
    inversion_clear Hnd as [|? ? Hnt Hnd'].
    cbn [foldM]. rewrite collect_type_ok; try assumption;
      [|apply Heti; now left].
    cbn [bind]. rewrite IH; try assumption.
    + unfold well_events_of, well_entries_of.
      cbn [flat_map map fst snd type_ids_from fold_left].
      now rewrite <- !app_assoc.
    + intros t' Ht' Hin. unfold keys in Hin. rewrite map_app in Hin.
      apply in_app_or in Hin as [Hin|[[= ->]|[]]].
      * now apply (Heti t' (or_intror Ht')).
      * contradiction.
Qed.

Lemma collect_well_ok st k rows :
  text k = true -> ~ In k (keys (well_info st)) ->
  (forall t, ~ In (k, t) (keys (emission_type_ids st))) ->
  cwell st (k, rows)
  = Ok (Collected
          (well_info st ++ [well_record_of (k, rows)])
          (emission_type_ids st ++ type_id_items k)
          (log st ++ wevts emission_types (k, rows))
          (date_entries st ++ wents emission_types (k, rows))).
Proof.
  intros Hk Hwi Heti. unfold collect_well.
  rewrite generate_external_id_text; [|exact Hk|reflexivity|reflexivity].
  cbn [bind]. rewrite (dict_set_fresh str_eq_dec) by exact Hwi.
  rewrite collect_types_ok; try assumption.
  - reflexivity.
  - apply emission_types_text.
  - apply emission_types_nodup.
  - intros t _. apply Heti.
Qed.

Lemma collect_wells_ok wells : forall done log0,
  NoDup (keys (done ++ wells)) ->
  Forall (fun k => text k = true) (keys wells) ->
  foldM cwell wells
    (Collected (map well_record_of done)
               (flat_map type_id_items (keys done))
               (log0 ++ flat_map (wevts emission_types) done)
               (flat_map (wents emission_types) done))
  = Ok (Collected
          (map well_record_of (done ++ wells))
          (flat_map type_id_items (keys (done ++ wells)))
          (log0 ++ flat_map (wevts emission_types) (done ++ wells))
          (flat_map (wents emission_types) (done ++ wells))).
Proof.
  induction wells as [|[k rows] wells IH]; intros done log0 Hnd Htext.
  - now rewrite !app_nil_r.
  - inversion_clear Htext as [|? ? Hk Hrest].
    assert (Hfresh : ~ In k (keys done)).
    { unfold keys in Hnd. rewrite map_app in Hnd. simpl in Hnd.
      apply NoDup_remove_2 in Hnd. intros H. apply Hnd, in_or_app. now left. }
    cbn [foldM]. rewrite collect_well_ok; cbn [well_info emission_type_ids];
      [|exact Hk | now rewrite keys_well_records
        | intros t H; apply keys_type_id_items in H; contradiction].
    cbn [bind log date_entries].
    replace (done ++ (k, rows) :: wells) with ((done ++ [(k, rows)]) ++ wells)
      in * by now rewrite <- app_assoc.
    rewrite <- IH; [|exact Hnd|exact Hrest].
    unfold keys. rewrite !map_app, !flat_map_app. simpl.
    rewrite !app_nil_r, <- !app_assoc. reflexivity.
Qed.
End Collect.

(* ===================================================================== *)
(** * Ordering of the sort keys *)
(* ===================================================================== *)

Lemma N_compare_eq x y : (x ?= y)%N = Eq <-> x = y.
Proof. apply N.compare_eq_iff. Qed.

Lemma str_compare_eq a b : str_compare a b = Eq <-> a = b.
Proof. apply list_compare_refl, N_compare_eq. Qed.

Lemma str_compare_antisym a b : str_compare b a = CompOpp (str_compare a b).
Proof. apply list_compare_antisym; [apply N_compare_eq | apply N.compare_antisym]. Qed.

Lemma N_compare_trans x y z c :
  (x ?= y)%N = c -> (y ?= z)%N = c -> (x ?= z)%N = c.
Proof.
  destruct c; rewrite ?N.compare_eq_iff, ?N.compare_lt_iff, ?N.compare_gt_iff;
    lia.
Qed.

Lemma str_compare_trans a b c o :
  str_compare a b = o -> str_compare b c = o -> str_compare a c = o.
Proof.
  apply list_compare_trans;
    [apply N_compare_eq | apply N_compare_trans | apply N.compare_antisym].
Qed.

Lemma key_compare_eq a b : key_compare a b = Eq <-> a = b.
Proof.
  destruct a as [[a1 a2] a3], b as [[b1 b2] b3]. simpl.
  destruct (str_compare a1 b1) eqn:E1; try (split; [discriminate|]);
    try (intros [= -> -> ->];
         rewrite (proj2 (str_compare_eq b1 b1) eq_refl) in E1; discriminate).
  apply str_compare_eq in E1 as ->.
  destruct (str_compare a2 b2) eqn:E2; try (split; [discriminate|]);
    try (intros [= -> ->];
         rewrite (proj2 (str_compare_eq b2 b2) eq_refl) in E2; discriminate).
  apply str_compare_eq in E2 as ->.
  rewrite str_compare_eq. split; [now intros ->|now intros [= ->]].
Qed.

Lemma key_compare_antisym a b : key_compare b a = CompOpp (key_compare a b).
Proof.
  destruct a as [[a1 a2] a3], b as [[b1 b2] b3]. simpl.
  rewrite (str_compare_antisym a1 b1), (str_compare_antisym a2 b2),
    (str_compare_antisym a3 b3).
  destruct (str_compare a1 b1), (str_compare a2 b2); reflexivity.
Qed.

Lemma key_compare_lt_trans a b c :
  key_compare a b = Lt -> key_compare b c = Lt -> key_compare a c = Lt.
Proof.
  destruct a as [[a1 a2] a3], b as [[b1 b2] b3], c as [[c1 c2] c3]. simpl.
  destruct (str_compare a1 b1) eqn:E1; try discriminate.
  - apply str_compare_eq in E1 as ->.
    destruct (str_compare b1 c1) eqn:F1; try discriminate.
    + destruct (str_compare a2 b2) eqn:E2; try discriminate.
      * apply str_compare_eq in E2 as ->.
        destruct (str_compare b2 c2) eqn:F2; try discriminate; auto.
        apply str_compare_trans.
      * destruct (str_compare b2 c2) eqn:F2; try discriminate.
        -- apply str_compare_eq in F2 as <-. now rewrite E2.
        -- now rewrite (str_compare_trans _ _ _ E2 F2).
    + destruct (str_compare a2 b2); intros; try discriminate; reflexivity.
  - destruct (str_compare b1 c1) eqn:F1; try discriminate.
    + apply str_compare_eq in F1 as <-. now rewrite E1.
    + now rewrite (str_compare_trans _ _ _ E1 F1).
Qed.

(** [a >= b] on sort keys: [a] is not below [b]. *)
Lemma key_geb_trans a b c :
  key_ltb a b = false -> key_ltb b c = false -> key_ltb a c = false.
Proof.
  unfold key_ltb. intros Hab Hbc.
  destruct (key_compare a c) eqn:Hac; try reflexivity. exfalso.
  destruct (key_compare a b) eqn:E1; try discriminate.
  - apply key_compare_eq in E1 as ->. now rewrite Hac in Hbc.
  - destruct (key_compare b c) eqn:E2; try discriminate.
    + apply key_compare_eq in E2 as ->. now rewrite Hac in E1.
    + rewrite key_compare_antisym in E1, E2.
      assert (Hba : key_compare b a = Lt) by (now destruct (key_compare b a)).
      assert (Hcb : key_compare c b = Lt) by (now destruct (key_compare c b)).
      pose proof (key_compare_lt_trans _ _ _ Hcb Hba) as Hca.
      rewrite key_compare_antisym, Hac in Hca. discriminate.
Qed.

Lemma key_ltb_asym a b : key_ltb a b = true -> key_ltb b a = false.
Proof.
  unfold key_ltb. rewrite (key_compare_antisym a b).
  now destruct (key_compare a b).
Qed.

(* ===================================================================== *)
(** * The descending sort *)
(* ===================================================================== *)

Lemma insert_desc_perm x l : Permutation (insert_desc x l) (x :: l).
Proof.
  induction l as [|y l IH]; simpl; [reflexivity|].
  destruct (key_ltb (sort_key x) (sort_key y)); [|reflexivity].
  rewrite IH. apply perm_swap.
Qed.

Lemma sort_desc_perm l : Permutation (sort_desc l) l.
Proof.
  induction l as [|x l IH]; simpl; [reflexivity|].
  rewrite insert_desc_perm. now constructor.
Qed.

Lemma insert_desc_sorted x l :
  StronglySorted desc l -> StronglySorted desc (insert_desc x l).
Proof.
  induction l as [|y l IH]; intros H; simpl.
  - repeat constructor.
  - inversion_clear H as [|? ? Hl Hy].
    destruct (key_ltb (sort_key x) (sort_key y)) eqn:E.
    + constructor; [now apply IH|].
      rewrite Forall_forall in *. intros z Hz.
      apply (Permutation_in _ (insert_desc_perm x l)) in Hz as [<-|Hz].
      * now apply key_ltb_asym.
      * now apply Hy.
    + constructor; [now constructor|].
      constructor; [exact E|].
      rewrite Forall_forall in *. intros z Hz.
      apply key_geb_trans with (sort_key y); [exact E | now apply Hy].
Qed.

(** The sort leaves the entries in descending key order. *)
Lemma sort_desc_sorted l : StronglySorted desc (sort_desc l).
Proof.
  induction l as [|x l IH]; simpl; [constructor | now apply insert_desc_sorted].
Qed.

(** Entries of equal key keep the order of the file, as a stable sort
    with [reverse=True] leaves them. *)
Example sort_desc_stable :
  map (fun e => dict_get str_eq_dec (e_properties e) (lit "volume"))
      (sorted_entries float_of_digits sample_file sample_time
                      same_date_reader)
  = [Some (VFloat 100%float); Some (VFloat 7%float)].
Proof. vm_compute. reflexivity. Qed.

(** Dates are ordered as strings: a three-digit year sorts above 2024. *)
Example date_strings_order :
  str_compare (lit "999-01-01") (lit "2024-01-01") = Gt.
Proof. reflexivity. Qed.

(* ===================================================================== *)
(** * Loops that cannot raise on decoded text *)
(* ===================================================================== *)

Lemma mapM_ok {A B} (f : A -> result B) (g : A -> B) l :
  (forall x, In x l -> f x = Ok (g x)) -> mapM f l = Ok (map g l).
Proof.
  induction l as [|x l IH]; intros H; simpl; [reflexivity|].
  rewrite (H x (or_introl eq_refl)). simpl.
  rewrite IH; [reflexivity|]. intros y Hy. apply H. now right.
Qed.

Lemma dict_get_app {K V} (eq_dec : forall a b : K, {a = b} + {a <> b})
  (d1 d2 : dict K V) k :
  dict_get eq_dec (d1 ++ d2) k
  = match dict_get eq_dec d1 k with
    | Some v => Some v
    | None => dict_get eq_dec d2 k
    end.
Proof.
  induction d1 as [|[k' v'] d1 IH]; simpl; [reflexivity|].
  now destruct (eq_dec k k').
Qed.

Lemma dict_get_pairs (f : pystr -> pystr) k ts t :
  In t ts ->
  dict_get key2_eq_dec (map (fun t => ((k, t), f t)) ts) (k, t) = Some (f t).
Proof.
  induction ts as [|t0 ts IH]; [intros []|]. intros Ht. simpl.
  destruct (key2_eq_dec (k, t) (k, t0)) as [[= ->]|Hn]; [reflexivity|].
  destruct Ht as [->|Ht]; [congruence | now apply IH].
Qed.

Lemma dict_get_type_id_items ks k t :
  In k ks -> In t emission_types ->
  dict_get key2_eq_dec (flat_map type_id_items ks) (k, t)
  = Some (type_id k t).
Proof.
  intros Hk Ht. induction ks as [|k0 ks IH]; [destruct Hk|].
  cbn [flat_map]. rewrite dict_get_app.
  destruct (str_eq_dec k0 k) as [->|Hne].
  - unfold type_id_items. now rewrite (dict_get_pairs (type_id k)).
  - destruct Hk as [E|Hk]; [contradiction|].
    replace (dict_get key2_eq_dec (type_id_items k0) (k, t)) with (@None pystr);
      [now apply IH|].
    symmetry. apply dict_get_none. unfold keys, type_id_items.
    rewrite map_map. cbn [fst]. rewrite in_map_iff. intros (t' & [= E _] & _).
    contradiction.
Qed.

Lemma dict_get_well_records wells k :
  In k (keys wells) ->
  exists r, dict_get str_eq_dec (map well_record_of wells) k = Some r
            /\ emissions_id r = derive k (lit "emissions") [].
Proof.
  induction wells as [|[k0 rows] wells IH]; simpl; [intros []|].
  intros H. destruct (str_eq_dec k k0) as [->|Hne].
  - eexists. split; reflexivity.
  - destruct H as [E|H]; [congruence | now apply IH].
Qed.

Lemma has_type_ok wells item :
  In item (flat_map type_id_items (keys wells)) ->
  has_type (map well_record_of wells) item = Ok (has_type_of item).
Proof.
  intros H. apply in_flat_map in H as (k & Hk & H).
  unfold type_id_items in H. apply in_map_iff in H as (t & <- & Ht).
  unfold has_type, dict_item.
  destruct (dict_get_well_records wells k Hk) as (r & -> & Hr).
  simpl. unfold has_type_of. simpl. now rewrite Hr.
Qed.

Lemma reading_node_ok eti e :
  entry_ok eti e -> reading_node e = Ok (reading_of e).
Proof.
  intros (Hk & Ht & Hd & _). unfold reading_node.
  now rewrite generate_external_id_text.
Qed.

Lemma link_entries_ok eti l : forall cur rels,
  (forall e, In e l -> entry_ok eti e) ->
  exists cur',
    foldM (link_entry eti) l (cur, rels) = Ok (cur', rels ++ link_rels cur l).
Proof.
  induction l as [|e l IH]; intros cur rels H.
  - exists cur. simpl. now rewrite app_nil_r.
  - destruct (H e (or_introl eq_refl)) as (Hk & Ht & Hd & Hg).
    cbn [foldM link_rels]. unfold link_entry at 1.
    rewrite generate_external_id_text by assumption. cbn [bind].
    fold (group_of e). fold (reading_id e).
    destruct (dict_get key2_eq_dec cur (group_of e)) as [p|] eqn:E.
    + cbn [bind].
      destruct (IH (dict_set key2_eq_dec cur (group_of e) (reading_id e))
                   (rels ++ [next_date p e])) as [cur' Hc];
        [intros; apply H; now right|].
      exists cur'. etransitivity; [exact Hc|]. now rewrite <- app_assoc.
    + unfold dict_item. rewrite Hg. cbn [bind].
      destruct (IH (dict_set key2_eq_dec cur (group_of e) (reading_id e))
                   (rels ++ [has_data (group_of e) e])) as [cur' Hc];
        [intros; apply H; now right|].
      exists cur'. etransitivity; [exact Hc|]. now rewrite <- app_assoc.
Qed.

Lemma date_relationships_ok eti l :
  (forall e, In e l -> entry_ok eti e) ->
  date_relationships eti l = Ok (link_rels [] l).
Proof.
  intros H. unfold date_relationships.
  destruct (@link_entries_ok eti l [] [] H) as [cur' Hc].
  unfold dict in *. rewrite Hc. reflexivity.
Qed.

(* ===================================================================== *)
(** * The graph of a CSV input *)
(* ===================================================================== *)

Lemma to_rawrow_text row : forallb text row = true -> row_text (to_rawrow row).
Proof.
  intros H.
  assert (F : forall i, text (field i row) = true)
    by (intros i; now apply text_field).
  unfold row_text, row_date, to_rawrow. cbn [well_key year month day].
  split; [apply F|]. rewrite !text_app.
  rewrite (text_strip _ (F 2%nat)), (text_zfill 2 _ (text_strip _ (F 3%nat))),
    (text_zfill 2 _ (text_strip _ (F 4%nat))).
  reflexivity.
Qed.

Lemma kept_rows_text reader :
  csv_text reader = true -> Forall row_text (kept_rows reader).
Proof.
  intros H. unfold kept_rows. apply Forall_forall. intros r Hr.
  apply in_map_iff in Hr as (row & <- & Hrow). apply to_rawrow_text.
  apply filter_In in Hrow as [Hrow _].
  unfold csv_text in H. rewrite forallb_forall in H. apply H.
  destruct reader; [destruct Hrow | now right].
Qed.

Lemma well_keys_text reader :
  csv_text reader = true -> Forall (fun k => text k = true) (well_keys reader).
Proof.
  intros H. apply Forall_forall. intros k Hk.
  apply group_data_by_well_keys in Hk as (_ & r & Hr & <-).
  pose proof (kept_rows_text reader H) as HF. rewrite Forall_forall in HF.
  now apply HF.
Qed.

Section Graph.
Variable py_float : pystr -> option float.
Variables spreadsheet_name verified_time : pystr.

Local Abbreviation rents :=
  (row_entries py_float spreadsheet_name verified_time).
Local Abbreviation surv := (surviving py_float spreadsheet_name verified_time).
Local Abbreviation sorted :=
  (sorted_entries py_float spreadsheet_name verified_time).

(** An entry carries the well key and type it was made for, and the date
    of its row. *)
Lemma row_entries_inv k t row e :
  In t emission_types -> In e (rents k t row) ->
  e_well_key e = k /\ e_emission_type e = t /\ e_date e = row_date row.
Proof.
  intros Ht. unfold row_entries.
  destruct (get_emission_type_columns_known Ht) as [cm ->].
  rewrite row_entry_columns. cbv zeta.
  destruct (snd (to_number py_float WarnVolume _)),
    (snd (to_number py_float WarnMass _));
    simpl; intros [<-|[]] || intros []; repeat split.
Qed.

(** Where a surviving entry comes from. *)
Lemma surviving_inv reader e :
  In e (surv reader) ->
  exists k rows t row,
    In (k, rows) (wells_of reader) /\ In t emission_types /\ In row rows
    /\ In e (rents k t row).
Proof.
  unfold surviving. intros H.
  apply in_flat_map in H as ([k rows] & Hw & H).
  unfold well_entries_of in H. apply in_flat_map in H as (t & Ht & H).
  apply in_flat_map in H as (row & Hrow & H). simpl in *.
  now exists k, rows, t, row.
Qed.

Lemma surviving_ok reader e :
  csv_text reader = true -> In e (surv reader) ->
  entry_ok (flat_map type_id_items (well_keys reader)) e.
Proof.
  intros Htext H.
  destruct (@surviving_inv reader e H)
    as (k & rows & t & row & Hw & Ht & Hrow & He).
  destruct (@row_entries_inv k t row e Ht He) as (Ek & Et & Ed).
  destruct (@group_data_by_well_rows row_text _ k rows
              (kept_rows_text reader Htext) Hw row Hrow) as (Hkey & Hk & Hd).
  unfold entry_ok, group_of. rewrite Ek, Et, Ed, <- Hkey.
  repeat split; try assumption.
  - pose proof emission_types_text as HT. rewrite forallb_forall in HT.
    now apply HT.
  - apply dict_get_type_id_items; [|exact Ht].
    rewrite Hkey. change k with (fst (k, rows)). now apply in_map.
Qed.

(** On a CSV input of decoded text with its header row, building the graph
    returns, and returns the expected graph. *)
Theorem build_graph_expected headers rows :
  csv_text (headers :: rows) = true ->
  build_graph py_float spreadsheet_name verified_time (headers :: rows)
  = Ok (expected_graph py_float spreadsheet_name verified_time
                       (headers :: rows)).
Proof.
  intros Htext. set (reader := headers :: rows) in *.
  unfold build_graph. unfold reader at 1. rewrite read_csv_data_header.
  fold reader. cbn [bind]. fold (wells_of reader).
  pose proof (collect_wells_ok py_float spreadsheet_name verified_time
                (wells_of reader) []
                (map WarnShortRow
                   (filter (fun r => negb (long_enough r)) rows))) as Hc.
  cbn [app map flat_map keys] in Hc. rewrite app_nil_r in Hc.
  rewrite Hc;
    [|apply group_data_by_well_nodup | now apply well_keys_text].
  clear Hc. cbn [bind well_info emission_type_ids log date_entries].
  fold (surv reader). fold (sorted reader). fold (well_keys reader).
  assert (Hok : forall e, In e (sorted reader) ->
                  entry_ok (flat_map type_id_items (well_keys reader)) e).
  { intros e He. apply surviving_ok; [exact Htext|].
    apply (Permutation_in _ (sort_desc_perm _)). exact He. }
  rewrite (mapM_ok _ reading_of);
    [|intros e He; apply (reading_node_ok (Hok e He))].
  cbn [bind].
  rewrite (mapM_ok _ has_type_of); [|intros item; apply has_type_ok].
  cbn [bind]. rewrite date_relationships_ok by exact Hok.
  reflexivity.
Qed.
End Graph.

(* ===================================================================== *)
(** * Nodes and relationships by type *)
(* ===================================================================== *)

Lemma str_eqb_eq a b : str_eqb a b = true <-> a = b.
Proof. unfold str_eqb. destruct (str_eq_dec a b); split; congruence. Qed.

Lemma filter_all {A} (p : A -> bool) l :
  (forall x, In x l -> p x = true) -> filter p l = l.
Proof.
  induction l as [|x l IH]; intros H; simpl; [reflexivity|].
  rewrite (H x (or_introl eq_refl)), IH; [reflexivity|].
  intros y Hy. apply H. now right.
Qed.

Lemma filter_none {A} (p : A -> bool) l :
  (forall x, In x l -> p x = false) -> filter p l = [].
Proof.
  induction l as [|x l IH]; intros H; simpl; [reflexivity|].
  rewrite (H x (or_introl eq_refl)). apply IH.
  intros y Hy. apply H. now right.
Qed.

Lemma nodes_of_type_all ty l :
  (forall n, In n l -> node_type n = ty) -> nodes_of_type ty l = l.
Proof. intros H. apply filter_all. intros n Hn. now apply str_eqb_eq, H. Qed.

Lemma nodes_of_type_none ty l :
  (forall n, In n l -> node_type n <> ty) -> nodes_of_type ty l = [].
Proof.
  intros H. apply filter_none. intros n Hn.
  destruct (str_eqb (node_type n) ty) eqn:E; [|reflexivity].
  apply str_eqb_eq in E. now elim (H n Hn).
Qed.

Lemma nodes_of_type_app ty a b :
  nodes_of_type ty (a ++ b) = nodes_of_type ty a ++ nodes_of_type ty b.
Proof. apply filter_app. Qed.

Lemma rels_of_type_app ty a b :
  rels_of_type ty (a ++ b) = rels_of_type ty a ++ rels_of_type ty b.
Proof. apply filter_app. Qed.

Lemma rels_of_type_all ty l :
  (forall r, In r l -> rel_type r = ty) -> rels_of_type ty l = l.
Proof. intros H. apply filter_all. intros r Hr. now apply str_eqb_eq, H. Qed.

Lemma rels_of_type_none ty l :
  (forall r, In r l -> rel_type r <> ty) -> rels_of_type ty l = [].
Proof.
  intros H. apply filter_none. intros r Hr.
  destruct (str_eqb (rel_type r) ty) eqn:E; [|reflexivity].
  apply str_eqb_eq in E. now elim (H r Hr).
Qed.

Lemma map_flat_map {A B C} (f : B -> C) (g : A -> list B) l :
  map f (flat_map g l) = flat_map (fun x => map f (g x)) l.
Proof.
  induction l as [|x l IH]; simpl; [reflexivity|]. now rewrite map_app, IH.
Qed.

Lemma length_flat_map_const {A B} (g : A -> list B) n l :
  (forall x, length (g x) = n) -> length (flat_map g l) = (n * length l)%nat.
Proof.
  intros H. induction l as [|x l IH]; simpl; [lia|].
  rewrite length_app, H, IH. lia.
Qed.

(** The emission types share no name with the three fixed node types. *)
Lemma emission_type_names t :
  In t emission_types ->
  nonempty t = true /\ t <> lit "Well" /\ t <> lit "Emissions"
  /\ t <> lit "EmissionType".
Proof.
  intros [<-|[<-|[<-|[<-|[]]]]]; repeat split; intros H; discriminate H.
Qed.

Lemma name_property t :
  nonempty t = true ->
  convert_properties_to_array [(lit "name", VStr t)]
  = [Property (lit "name") (VStr t) None].
Proof. destruct t; [discriminate|]. reflexivity. Qed.

Lemma link_rels_types l : forall cur r,
  In r (link_rels cur l) ->
  rel_type r = lit "HAS_DATA" \/ rel_type r = lit "NEXT_DATE".
Proof.
  induction l as [|e l IH]; intros cur r; simpl; [intros []|].
  intros [<-|H]; [|now apply IH in H].
  destruct (dict_get key2_eq_dec cur (group_of e)); [now right | now left].
Qed.

Section ByType.
Variable py_float : pystr -> option float.
Variables spreadsheet_name verified_time : pystr.

Local Abbreviation sorted :=
  (sorted_entries py_float spreadsheet_name verified_time).

(** Every reading is of one of the four emission types. *)
Lemma sorted_entries_types reader e :
  In e (sorted reader) -> In (e_emission_type e) emission_types.
Proof.
  intros H. apply (Permutation_in _ (sort_desc_perm _)) in H.
  destruct (@surviving_inv py_float spreadsheet_name verified_time reader e H)
    as (k & rows & t & row & _ & Ht & _ & He).
  destruct (@row_entries_inv py_float spreadsheet_name verified_time
              k t row e Ht He) as (_ & -> & _).
  exact Ht.
Qed.

Lemma expected_emissions_nodes reader :
  nodes_of_type (lit "Emissions")
    (all_nodes (expected_graph py_float spreadsheet_name verified_time reader))
  = map (fun k =>
           Node (derive k (lit "emissions") []) (lit "Emissions") None
                [Property (lit "name") (VStr (lit "Emissions")) None])
        (well_keys reader).
Proof.
  unfold expected_graph. cbn [all_nodes]. rewrite !nodes_of_type_app.
  rewrite (@nodes_of_type_none _ (map well_node _)),
    (@nodes_of_type_all _ (map emissions_node _)),
    (@nodes_of_type_none _ (map emission_type_node _)),
    (@nodes_of_type_none _ (map reading_of _)).
  - rewrite app_nil_r. unfold well_keys, keys. rewrite !map_map.
    apply map_ext. intros [k rows]. reflexivity.
  - intros n Hn. apply in_map_iff in Hn as (e & <- & He).
    apply sorted_entries_types, emission_type_names in He. apply He.
  - intros n Hn. apply in_map_iff in Hn as ([[k t] id] & <- & _). discriminate.
  - intros n Hn. apply in_map_iff in Hn as ([k r] & <- & _). reflexivity.
  - intros n Hn. apply in_map_iff in Hn as ([k r] & <- & _). discriminate.
Qed.

Lemma expected_type_nodes reader :
  nodes_of_type (lit "EmissionType")
    (all_nodes (expected_graph py_float spreadsheet_name verified_time reader))
  = flat_map
      (fun k =>
         map (fun t =>
                Node (type_id k t) (lit "EmissionType") None
                     [Property (lit "name") (VStr t) None])
             emission_types)
      (well_keys reader).
Proof.
  unfold expected_graph. cbn [all_nodes]. rewrite !nodes_of_type_app.
  rewrite (@nodes_of_type_none _ (map well_node _)),
    (@nodes_of_type_none _ (map emissions_node _)),
    (@nodes_of_type_all _ (map emission_type_node _)),
    (@nodes_of_type_none _ (map reading_of _)).
  - rewrite app_nil_r. cbn [app]. rewrite map_flat_map.
    apply flat_map_ext. intros k. unfold type_id_items. rewrite map_map.
    apply map_ext_in. intros t Ht. unfold emission_type_node.
    rewrite name_property; [reflexivity|].
    now apply emission_type_names.
  - intros n Hn. apply in_map_iff in Hn as (e & <- & He).
    apply sorted_entries_types, emission_type_names in He. apply He.
  - intros n Hn. apply in_map_iff in Hn as ([[k t] id] & <- & _). reflexivity.
  - intros n Hn. apply in_map_iff in Hn as ([k r] & <- & _). discriminate.
  - intros n Hn. apply in_map_iff in Hn as ([k r] & <- & _). discriminate.
Qed.

Lemma expected_has_emissions reader :
  rels_of_type (lit "HAS_EMISSIONS")
    (all_relationships
       (expected_graph py_float spreadsheet_name verified_time reader))
  = map (fun k =>
           Relationship (Endpoint (lit "Well") k)
             (Endpoint (lit "Emissions") (derive k (lit "emissions") []))
             (lit "HAS_EMISSIONS"))
        (well_keys reader).
Proof.
  unfold expected_graph. cbn [all_relationships]. rewrite !rels_of_type_app.
  rewrite (@rels_of_type_all _ (map has_emissions _)),
    (@rels_of_type_none _ (map has_type_of _)),
    (@rels_of_type_none _ (link_rels _ _)).
  - rewrite app_nil_r. unfold well_keys, keys. rewrite !map_map.
    apply map_ext. intros [k rows]. reflexivity.
  - intros r Hr. apply link_rels_types in Hr as [-> | ->]; discriminate.
  - intros r Hr. apply in_map_iff in Hr as (item & <- & _). discriminate.
  - intros r Hr. apply in_map_iff in Hr as ([k w] & <- & _). reflexivity.
Qed.

Lemma expected_has_type reader :
  rels_of_type (lit "HAS_TYPE")
    (all_relationships
       (expected_graph py_float spreadsheet_name verified_time reader))
  = flat_map
      (fun k =>
         map (fun t =>
                Relationship
                  (Endpoint (lit "Emissions") (derive k (lit "emissions") []))
                  (Endpoint (lit "EmissionType") (type_id k t))
                  (lit "HAS_TYPE"))
             emission_types)
      (well_keys reader).
Proof.
  unfold expected_graph. cbn [all_relationships]. rewrite !rels_of_type_app.
  rewrite (@rels_of_type_none _ (map has_emissions _)),
    (@rels_of_type_all _ (map has_type_of _)),
    (@rels_of_type_none _ (link_rels _ _)).
  - rewrite app_nil_r. cbn [app]. rewrite map_flat_map.
    apply flat_map_ext. intros k.
    unfold type_id_items. rewrite map_map. reflexivity.
  - intros r Hr. apply link_rels_types in Hr as [-> | ->]; discriminate.
  - intros r Hr. apply in_map_iff in Hr as (item & <- & _). reflexivity.
  - intros r Hr. apply in_map_iff in Hr as ([k w] & <- & _). discriminate.
Qed.
End ByType.

Lemma well_keys_rows headers rows k :
  In k (well_keys (headers :: rows))
  <-> k <> []
      /\ exists row, In row rows /\ (21 <= length row)%nat /\ field 1 row = k.
Proof.
  unfold well_keys, wells_of. rewrite group_data_by_well_keys.
  unfold kept_rows. cbn [tl]. split; intros (Hk & x & H).
  - destruct H as (Hx & <-). apply in_map_iff in Hx as (row & <- & Hrow).
    apply filter_In in Hrow as [Hrow Hl]. split; [exact Hk|].
    exists row. split; [exact Hrow|]. split; [|reflexivity].
    unfold long_enough in Hl. apply negb_true_iff, Nat.ltb_ge in Hl. exact Hl.
  - destruct H as (Hx & Hl & <-). split; [exact Hk|].
    exists (to_rawrow x). split; [|reflexivity].
    apply in_map, filter_In. split; [exact Hx|].
    unfold long_enough. now apply negb_true_iff, Nat.ltb_ge.
Qed.

(** C3: for every CSV input (a header row and data rows of decoded text),
    the builder returns a graph in which the Emissions nodes and the
    HAS_EMISSIONS relationships are one per distinct well key, in the
    order the keys are first met, and the EmissionType nodes and the
    HAS_TYPE relationships are, for each well key, one per fixed type
    (Flaring, ColdVentilation, DieselFuel, FuelGas): 4 x (number of
    distinct well keys) of each, whatever readings the rows hold.  The
    distinct well keys are the non-empty stripped keys of the rows of at
    least 21 columns. *)
Theorem four_types_per_well py_float spreadsheet_name verified_time
  headers rows :
  csv_text (headers :: rows) = true ->
  exists g,
    build_graph py_float spreadsheet_name verified_time (headers :: rows)
    = Ok g
    /\ let ks := well_keys (headers :: rows) in
       NoDup ks
       /\ (forall k,
             In k ks
             <-> k <> []
                 /\ exists row,
                      In row rows /\ (21 <= length row)%nat
                      /\ field 1 row = k)
       /\ nodes_of_type (lit "Emissions") (all_nodes g)
          = map (fun k =>
                   Node (derive k (lit "emissions") []) (lit "Emissions") None
                        [Property (lit "name") (VStr (lit "Emissions")) None])
                ks
       /\ rels_of_type (lit "HAS_EMISSIONS") (all_relationships g)
          = map (fun k =>
                   Relationship
                     (Endpoint (lit "Well") k)
                     (Endpoint (lit "Emissions")
                               (derive k (lit "emissions") []))
                     (lit "HAS_EMISSIONS"))
                ks
       /\ nodes_of_type (lit "EmissionType") (all_nodes g)
          = flat_map
              (fun k =>
                 map (fun t =>
                        Node (type_id k t) (lit "EmissionType") None
                             [Property (lit "name") (VStr t) None])
                     emission_types)
              ks
       /\ rels_of_type (lit "HAS_TYPE") (all_relationships g)
          = flat_map
              (fun k =>
                 map (fun t =>
                        Relationship
                          (Endpoint (lit "Emissions")
                                    (derive k (lit "emissions") []))
                          (Endpoint (lit "EmissionType") (type_id k t))
                          (lit "HAS_TYPE"))
                     emission_types)
              ks
       /\ length (nodes_of_type (lit "Emissions") (all_nodes g)) = length ks
       /\ length (rels_of_type (lit "HAS_EMISSIONS") (all_relationships g))
          = length ks
       /\ length (nodes_of_type (lit "EmissionType") (all_nodes g))
          = (4 * length ks)%nat
       /\ length (rels_of_type (lit "HAS_TYPE") (all_relationships g))
          = (4 * length ks)%nat.
Proof.
  intros Htext. eexists. split; [now apply build_graph_expected|].
  cbv zeta.
  rewrite expected_emissions_nodes, expected_type_nodes,
    expected_has_emissions, expected_has_type.
  split; [apply group_data_by_well_nodup|].
  split; [apply well_keys_rows|].
  do 4 (split; [reflexivity|]).
  rewrite !length_map.
  rewrite !(@length_flat_map_const _ _ _ 4%nat)
    by (intros; now rewrite length_map).
  repeat split.
Qed.

Lemma four_types_per_well_witness :
  csv_text sample_reader = true
  /\ exists g,
       build_graph float_of_digits sample_file sample_time sample_reader
       = Ok g
       /\ length (nodes_of_type (lit "Emissions") (all_nodes g)) = 2%nat
       /\ length (nodes_of_type (lit "EmissionType") (all_nodes g)) = 8%nat
       /\ length (rels_of_type (lit "HAS_TYPE") (all_relationships g))
          = 8%nat.
Proof.
  split; [reflexivity|].
  destruct (@four_types_per_well float_of_digits sample_file sample_time
              sample_header (tl sample_reader) eq_refl)
    as (g & Hg & _ & _ & _ & _ & _ & _ & H1 & _ & H2 & H3).
  exists g. split; [exact Hg|]. split; [exact H1|]. split; [exact H2|exact H3].
Defined.

(* ===================================================================== *)
(** * How nodes are addressed *)
(* ===================================================================== *)

Lemma generate_external_id_length key category date id :
  generate_external_id key category date = Ok id -> length id = 24%nat.
Proof.
  unfold generate_external_id, encode_utf8.
  destruct (text _); [|discriminate]. cbn [bind]. intros H.
  injection H as <-. exact (derive_length key category date).
Qed.

(** C9, as the claim states it, fails: the Well node of well key "W1"
    has the raw key "W1" as its external identifier, which no call of
    [generate_external_id] returns. *)
Lemma well_node_raw_key :
  exists g n,
    build_graph float_of_digits sample_file sample_time sample_reader = Ok g
    /\ In n (all_nodes g)
    /\ node_type n = lit "Well"
    /\ external_id n = lit "W1"
    /\ forall key category date,
         generate_external_id key category date <> Ok (external_id n).
Proof.
  eexists.
  exists (Node (lit "W1") (lit "Well") None
               [Property (lit "name") (VStr (lit "WellA")) None]).
  split; [now apply build_graph_expected|].
  split; [|split; [reflexivity|split; [reflexivity|]]].
  - unfold expected_graph. cbn [all_nodes]. apply in_or_app. left.
    vm_compute. left. reflexivity.
  - intros key category date H. apply generate_external_id_length in H.
    discriminate H.
Qed.

(* ===================================================================== *)
(** * The end-to-end example *)
(* ===================================================================== *)

(** C8, as the claim states it, fails: the row it gives has 20 columns,
    so the reader skips it with a warning and the graph has no node. *)
Lemma example_row_skipped :
  length example_row = 20%nat
  /\ build_graph float_of_digits sample_file sample_time
                 [sample_header; example_row]
     = Ok (Graph [WarnShortRow example_row] [] []).
Proof. split; [reflexivity|]. vm_compute. reflexivity. Qed.

Section Example.
Variable py_float : pystr -> option float.
Variables spreadsheet_name verified_time : pystr.

Lemma example_row_entry :
  py_float (lit "100") = Some 100%float ->
  row_entries py_float spreadsheet_name verified_time (lit "W1")
              (lit "Flaring") (to_rawrow example_row_21)
  = [DateEntry (lit "W1") (lit "Flaring") (lit "2024-03-15")
       [(lit "date", VStr (lit "2024-03-15"));
        (lit "volume", VFloat 100%float);
        (lit "_volume_metadata",
         VMeta (Metadata (lit "bbl") spreadsheet_name 3 verified_time))]].
Proof.
  intros Hfloat. unfold row_entries.
  change (get_emission_type_columns (lit "Flaring"))
    with (Some (Columns 5 6 7 8)).
  rewrite row_entry_columns. cbv zeta. cbn [c_volume c_mass c_volume_uom c_mass_uom].
  change (cell (row_data (to_rawrow example_row_21)) 5) with (Some (lit "100")).
  change (cell (row_data (to_rawrow example_row_21)) 6) with (Some (lit "bbl")).
  change (cell (row_data (to_rawrow example_row_21)) 7) with (Some (@nil N)).
  change (cell (row_data (to_rawrow example_row_21)) 8) with (Some (@nil N)).
  unfold to_number. change (nonempty (lit "100")) with true.
  change (nonempty (@nil N)) with false. cbv iota.
  rewrite Hfloat. reflexivity.
Qed.
End Example.

(** C8, amended: the row of the example completed to 21 columns,
    [WellA,W1,2024,3,15,100,bbl,,,,,,,,,,50,scf,,,], yields a Reading node
    with external identifier derive("W1", "Flaring", "2024-03-15"), type
    Flaring, the label Emission, the date 2024-03-15 and a volume of 100.0
    whose metadata carries the unit bbl. *)
Theorem example_row_reading py_float spreadsheet_name verified_time headers :
  forallb text headers = true ->
  py_float (lit "100") = Some 100%float ->
  exists g,
    build_graph py_float spreadsheet_name verified_time
                [headers; example_row_21] = Ok g
    /\ In (Node (derive (lit "W1") (lit "Flaring") (lit "2024-03-15"))
                (lit "Flaring") (Some [lit "Emission"])
                [Property (lit "date") (VStr (lit "2024-03-15")) None;
                 Property (lit "volume") (VFloat 100%float)
                   (Some (VMeta (Metadata (lit "bbl") spreadsheet_name 3
                                          verified_time)))])
          (all_nodes g)
    /\ show (derive (lit "W1") (lit "Flaring") (lit "2024-03-15"))
       = "b9ac75a90c641a5283e06678"%string.
Proof.
  intros Hh Hfloat. eexists. split.
  - apply build_graph_expected. unfold csv_text. cbn [forallb].
    rewrite Hh. reflexivity.
  - split; [|vm_compute; reflexivity].
    unfold expected_graph. cbn [all_nodes].
    apply in_or_app. right. apply in_or_app. right. apply in_or_app. right.
    set (e := DateEntry (lit "W1") (lit "Flaring") (lit "2024-03-15")
       [(lit "date", VStr (lit "2024-03-15"));
        (lit "volume", VFloat 100%float);
        (lit "_volume_metadata",
         VMeta (Metadata (lit "bbl") spreadsheet_name 3 verified_time))]).
    change (In (reading_of e)
               (map reading_of
                    (sorted_entries py_float spreadsheet_name verified_time
                                    [headers; example_row_21]))).
    apply in_map. unfold sorted_entries.
    apply (Permutation_in _ (Permutation_sym (sort_desc_perm _))).
    unfold surviving.
    change (wells_of [headers; example_row_21])
      with [(lit "W1", [to_rawrow example_row_21])].
    cbn [flat_map]. apply in_or_app. left.
    unfold well_entries_of, emission_types. cbn [flat_map fst snd].
    apply in_or_app. left. apply in_or_app. left.
    rewrite example_row_entry by exact Hfloat. now left.
Qed.

Lemma example_row_reading_witness :
  forallb text sample_header = true
  /\ float_of_digits (lit "100") = Some 100%float
  /\ exists g,
       build_graph float_of_digits sample_file sample_time
                   [sample_header; example_row_21] = Ok g
       /\ In (Node (derive (lit "W1") (lit "Flaring") (lit "2024-03-15"))
                   (lit "Flaring") (Some [lit "Emission"])
                   [Property (lit "date") (VStr (lit "2024-03-15")) None;
                    Property (lit "volume") (VFloat 100%float)
                      (Some (VMeta (Metadata (lit "bbl") sample_file 3
                                             sample_time)))])
             (all_nodes g).
Proof.
  split; [reflexivity|]. split; [reflexivity|].
  destruct (@example_row_reading float_of_digits sample_file sample_time
              sample_header eq_refl eq_refl) as (g & Hg & Hn & _).
  exists g. split; [exact Hg | exact Hn].
Defined.

(* ===================================================================== *)
(** * Unparsable numbers *)
(* ===================================================================== *)

Lemma to_number_parsed py_float warn s :
  snd (to_number py_float warn s) = parsed py_float s.
Proof.
  unfold to_number, parsed. destruct s as [s|]; [|reflexivity].
  destruct (nonempty s); [|reflexivity]. now destruct (py_float s).
Qed.

Lemma to_number_warning py_float warn s :
  s <> [] -> py_float s = None ->
  to_number py_float warn (Some s) = ([warn s], None).
Proof.
  intros Hs Hf. unfold to_number. apply nonempty_true in Hs.
  now rewrite Hs, Hf.
Qed.

Lemma reading_nodes_app a b :
  reading_nodes (a ++ b) = reading_nodes a ++ reading_nodes b.
Proof. apply filter_app. Qed.

Lemma expected_reading_nodes py_float spreadsheet_name verified_time reader :
  reading_nodes
    (all_nodes (expected_graph py_float spreadsheet_name verified_time reader))
  = map reading_of
        (sorted_entries py_float spreadsheet_name verified_time reader).
Proof.
  unfold expected_graph. cbn [all_nodes]. rewrite !reading_nodes_app.
  unfold reading_nodes.
  rewrite (filter_none _ (map well_node _)),
    (filter_none _ (map emissions_node _)),
    (filter_none _ (map emission_type_node _)),
    (filter_all _ (map reading_of _)).
  - reflexivity.
  - intros n Hn. apply in_map_iff in Hn as (e & <- & _). reflexivity.
  - intros n Hn. apply in_map_iff in Hn as ([[k t] id] & <- & _). reflexivity.
  - intros n Hn. apply in_map_iff in Hn as ([k r] & <- & _). reflexivity.
  - intros n Hn. apply in_map_iff in Hn as ([k r] & <- & _). reflexivity.
Qed.

(** The first serialized property of an entry is its date. *)
Lemma entry_date_first py_float spreadsheet_name verified_time k t row e :
  In t emission_types ->
  In e (row_entries py_float spreadsheet_name verified_time k t row) ->
  hd_error (convert_properties_to_array (e_properties e))
  = Some (Property (lit "date") (VStr (e_date e)) None).
Proof.
  intros Ht. unfold row_entries.
  destruct (get_emission_type_columns_known Ht) as [cm ->].
  rewrite row_entry_columns. cbv zeta.
  destruct (snd (to_number py_float WarnVolume _)),
    (snd (to_number py_float WarnMass _));
    cbn [In]; try contradiction; intros [<-|[]];
    unfold with_measure; cbn [e_properties e_date];
    destruct (truthy (cell (row_data row) (c_volume_uom cm)));
    destruct (truthy (cell (row_data row) (c_mass_uom cm)));
    destruct (strip (year row)); reflexivity.
Qed.

(** Where a sorted entry comes from: a kept row of its well, whose date
    it carries. *)
Lemma sorted_entry_origin py_float spreadsheet_name verified_time reader e :
  In e (sorted_entries py_float spreadsheet_name verified_time reader) ->
  In (e_well_key e) (well_keys reader)
  /\ In (e_emission_type e) emission_types
  /\ hd_error (convert_properties_to_array (e_properties e))
     = Some (Property (lit "date") (VStr (e_date e)) None)
  /\ exists row,
       In row (kept_rows reader) /\ well_key row = e_well_key e
       /\ create_date_string (year row) (month row) (day row)
          = Ok (e_date e)
       /\ In e (row_entries py_float spreadsheet_name verified_time
                            (e_well_key e) (e_emission_type e) row).
Proof.
  intros He. apply (Permutation_in _ (sort_desc_perm _)) in He.
  destruct (@surviving_inv py_float spreadsheet_name verified_time
              reader e He) as (k & rws & t & row & Hw & Ht & Hrow & Hin).
  destruct (@row_entries_inv py_float spreadsheet_name verified_time
              k t row e Ht Hin) as (Ek & Et & Ed).
  assert (HQ : Forall (fun r => In r (kept_rows reader)) (kept_rows reader))
    by (apply Forall_forall; auto).
  destruct (@group_data_by_well_rows (fun r => In r (kept_rows reader)) _ k
              rws HQ Hw row Hrow) as (Hkey & Hkept).
  rewrite Ek, Et. split; [change k with (fst (k, rws)); now apply in_map|].
  split; [exact Ht|].
  split; [exact (@entry_date_first py_float spreadsheet_name verified_time
                   k t row e Ht Hin)|].
  exists row. split; [exact Hkept|]. split; [exact Hkey|].
  split; [rewrite Ed; apply create_date_string_ok | exact Hin].
Qed.

(** C9, amended: the Emissions, EmissionType and Reading nodes are
    addressed by identifiers derived from their business keys: (well key,
    "emissions", ""), (well key, "emission_type_<type>", "") and (well
    key, type, date); each Well node is addressed by its raw well key.
    For a Reading the key is the reading's own: the Reading nodes are, in
    order, the nodes of the sorted entries, each with the identifier
    derived from the entry's well key, type and date, the entry's type
    and the entry's properties, the first of which is that date; and the
    entry comes from a kept row of that well, whose date
    [create_date_string] gives it. *)
Theorem node_identities py_float spreadsheet_name verified_time
  headers rows :
  csv_text (headers :: rows) = true ->
  exists g,
    build_graph py_float spreadsheet_name verified_time (headers :: rows)
    = Ok g
    /\ let ks := well_keys (headers :: rows) in
       let entries :=
         sorted_entries py_float spreadsheet_name verified_time
                        (headers :: rows) in
       nodes_of_type (lit "Well") (all_nodes g)
       = map (fun item =>
                Node (fst item) (lit "Well") None
                     (convert_properties_to_array
                        [(lit "name", VStr (well_name item))]))
             (wells_of (headers :: rows))
       /\ Forall
            (fun n =>
               (node_type n = lit "Well" /\ In (external_id n) ks)
               \/ exists k,
                    In k ks
                    /\ ((node_type n = lit "Emissions"
                         /\ external_id n = derive k (lit "emissions") [])
                        \/ exists t,
                             In t emission_types
                             /\ ((node_type n = lit "EmissionType"
                                  /\ external_id n
                                     = derive k (lit "emission_type_" ++ t) [])
                                 \/ exists e,
                                      In e entries
                                      /\ e_well_key e = k
                                      /\ e_emission_type e = t
                                      /\ n = Node
                                               (derive k t (e_date e)) t
                                               (Some [lit "Emission"])
                                               (convert_properties_to_array
                                                  (e_properties e)))))
            (all_nodes g)
       /\ reading_nodes (all_nodes g)
          = map (fun e =>
                   Node (derive (e_well_key e) (e_emission_type e) (e_date e))
                        (e_emission_type e) (Some [lit "Emission"])
                        (convert_properties_to_array (e_properties e)))
                entries
       /\ Forall
            (fun e =>
               In (e_well_key e) ks
               /\ In (e_emission_type e) emission_types
               /\ hd_error (convert_properties_to_array (e_properties e))
                  = Some (Property (lit "date") (VStr (e_date e)) None)
               /\ exists row,
                    In row (kept_rows (headers :: rows))
                    /\ well_key row = e_well_key e
                    /\ create_date_string (year row) (month row) (day row)
                       = Ok (e_date e)
                    /\ In e (row_entries py_float spreadsheet_name
                                         verified_time (e_well_key e)
                                         (e_emission_type e) row))
            entries.
Proof.
  intros Htext. eexists. split; [now apply build_graph_expected|].
  cbv zeta. set (reader := headers :: rows) in *.
  split; [|split; [|split]].
  - unfold expected_graph. cbn [all_nodes]. rewrite !nodes_of_type_app.
    rewrite (@nodes_of_type_all _ (map well_node _)),
      (@nodes_of_type_none _ (map emissions_node _)),
      (@nodes_of_type_none _ (map emission_type_node _)),
      (@nodes_of_type_none _ (map reading_of _)).
    + rewrite !app_nil_r, map_map. apply map_ext. intros [k r]. reflexivity.
    + intros n Hn. apply in_map_iff in Hn as (e & <- & He).
      apply sorted_entries_types, emission_type_names in He. apply He.
    + intros n Hn. apply in_map_iff in Hn as ([[k t] id] & <- & _).
      discriminate.
    + intros n Hn. apply in_map_iff in Hn as ([k r] & <- & _). discriminate.
    + intros n Hn. apply in_map_iff in Hn as ([k r] & <- & _). reflexivity.
  - unfold expected_graph. cbn [all_nodes]. rewrite !Forall_app.
    repeat split; apply Forall_forall; intros n Hn.
    + apply in_map_iff in Hn as ([k r] & <- & Hk). left. split; [reflexivity|].
      apply in_map_iff in Hk as ([k' rows'] & [= <- _] & Hk).
      cbn [external_id well_node]. change k' with (fst (k', rows')).
      now apply in_map.
    + apply in_map_iff in Hn as ([k r] & <- & Hk). right.
      apply in_map_iff in Hk as ([k' rows'] & [= <- <-] & Hk).
      exists k'. split; [change k' with (fst (k', rows')); now apply in_map|].
      left. split; reflexivity.
    + apply in_map_iff in Hn as ([[k t] id] & <- & Hk). right.
      apply in_flat_map in Hk as (k' & Hk' & Hk).
      unfold type_id_items in Hk.
      apply in_map_iff in Hk as (t' & [= <- <- <-] & Ht).
      exists k'. split; [exact Hk'|]. right. exists t'. split; [exact Ht|].
      left. split; reflexivity.
    + apply in_map_iff in Hn as (e & <- & He). right.
      destruct (sorted_entry_origin _ _ _ _ _ He) as (Hk & Ht & _).
      exists (e_well_key e). split; [exact Hk|].
      right. exists (e_emission_type e). split; [exact Ht|]. right.
      exists e. split; [exact He|]. split; [reflexivity|].
      split; reflexivity.
  - rewrite expected_reading_nodes. reflexivity.
  - apply Forall_forall. intros e He.
    exact (sorted_entry_origin _ _ _ _ _ He).
Qed.

Lemma node_identities_witness :
  csv_text sample_reader = true
  /\ exists g,
       build_graph float_of_digits sample_file sample_time sample_reader
       = Ok g
       /\ nodes_of_type (lit "Well") (all_nodes g)
          = [Node (lit "W1") (lit "Well") None
                  [Property (lit "name") (VStr (lit "WellA")) None];
             Node (lit "W2") (lit "Well") None
                  [Property (lit "name") (VStr (lit "WellB")) None]]
       /\ map (fun n => (show (node_type n), show (external_id n)))
              (reading_nodes (all_nodes g))
          = map (fun e =>
                   (show (e_emission_type e),
                    show (derive (e_well_key e) (e_emission_type e)
                                 (e_date e))))
                (sorted_entries float_of_digits sample_file sample_time
                                sample_reader).
Proof.
  split; [reflexivity|].
  destruct (@node_identities float_of_digits sample_file sample_time
              sample_header (tl sample_reader) eq_refl)
    as (g & Hg & Hw & _ & Hr & _).
  exists g. split; [exact Hg|]. split; [exact Hw|].
  change (sample_header :: tl sample_reader) with sample_reader in Hr.
  rewrite Hr, map_map. reflexivity.
Defined.

(** C7: for each (well, type, row), a non-empty volume or mass string
    that [float] cannot parse leaves that field null and prints a warning;
    the row itself is kept: the entry is appended whenever the other field
    has a number, and carries exactly the fields that are not null.  The
    entry is skipped exactly when both volume and mass are null.  The
    Reading nodes of the graph are one per appended entry, so a skipped
    entry produces none. *)
Theorem unparsable_field_is_null py_float spreadsheet_name verified_time
  headers rows :
  csv_text (headers :: rows) = true ->
  (forall k t row,
     In t emission_types ->
     exists cm w es,
       get_emission_type_columns t = Some cm
       /\ row_entry py_float spreadsheet_name verified_time k t (Some cm) row
          = Ok (w, es)
       /\ row_entries py_float spreadsheet_name verified_time k t row = es
       /\ let volume_str := cell (row_data row) (c_volume cm) in
          let mass_str := cell (row_data row) (c_mass cm) in
          let volume := parsed py_float volume_str in
          let mass := parsed py_float mass_str in
          (forall s, volume_str = Some s -> s <> [] -> py_float s = None ->
                     volume = None /\ In (WarnVolume s) w)
          /\ (forall s, mass_str = Some s -> s <> [] -> py_float s = None ->
                        mass = None /\ In (WarnMass s) w)
          /\ (es = [] <-> volume = None /\ mass = None)
          /\ (forall e, In e es ->
                es = [e] /\ e_well_key e = k /\ e_emission_type e = t
                /\ e_date e = row_date row
                /\ dict_get str_eq_dec (e_properties e) (lit "volume")
                   = option_map VFloat volume
                /\ dict_get str_eq_dec (e_properties e) (lit "mass")
                   = option_map VFloat mass))
  /\ exists g,
       build_graph py_float spreadsheet_name verified_time (headers :: rows)
       = Ok g
       /\ Permutation
            (reading_nodes (all_nodes g))
            (map reading_of
                 (flat_map
                    (fun item =>
                       flat_map
                         (fun t =>
                            flat_map
                              (row_entries py_float spreadsheet_name
                                           verified_time (fst item) t)
                              (snd item))
                         emission_types)
                    (wells_of (headers :: rows)))).
Proof.
  intros Htext. split.
  - intros k t row Ht.
    destruct (get_emission_type_columns_known Ht) as [cm Hcm].
    exists cm. do 2 eexists. split; [exact Hcm|].
    split; [apply row_entry_columns|].
    split; [unfold row_entries; rewrite Hcm, row_entry_columns; reflexivity|].
    cbv zeta. rewrite !to_number_parsed.
    split; [|split; [|split]].
    + intros s Hs Hne Hf. rewrite Hs. split.
      * unfold parsed. apply nonempty_true in Hne. now rewrite Hne.
      * rewrite (to_number_warning _ _ Hne Hf). now left.
    + intros s Hs Hne Hf. rewrite Hs. split.
      * unfold parsed. apply nonempty_true in Hne. now rewrite Hne.
      * rewrite (to_number_warning _ _ Hne Hf). apply in_or_app. right.
        now left.
    + destruct (parsed py_float (cell (row_data row) (c_volume cm))),
        (parsed py_float (cell (row_data row) (c_mass cm)));
        (split; [intros H | intros H; destruct H as [H1 H2]]);
        first [discriminate | reflexivity | now split].
    + intros e He.
      destruct (parsed py_float (cell (row_data row) (c_volume cm))),
        (parsed py_float (cell (row_data row) (c_mass cm)));
        cbn [In] in He; try contradiction;
        destruct He as [<-|[]];
        unfold with_measure;
        destruct (truthy (cell (row_data row) (c_volume_uom cm)));
        destruct (truthy (cell (row_data row) (c_mass_uom cm)));
        repeat split.
  - eexists. split; [now apply build_graph_expected|].
    rewrite expected_reading_nodes. apply Permutation_map.
    apply sort_desc_perm.
Qed.

Lemma unparsable_field_is_null_witness :
  csv_text sample_reader = true
  /\ (exists w es,
        row_entry float_of_digits sample_file sample_time (lit "W1")
                  (lit "Flaring") (Some (Columns 5 6 7 8))
                  (to_rawrow unparsable_row) = Ok (w, es)
        /\ In (WarnVolume (lit "n/a")) w /\ length es = 1%nat)
  /\ exists g,
       build_graph float_of_digits sample_file sample_time sample_reader
       = Ok g
       /\ length (reading_nodes (all_nodes g)) = 5%nat.
Proof.
  split; [reflexivity|].
  destruct (@unparsable_field_is_null float_of_digits sample_file sample_time
              sample_header (tl sample_reader) eq_refl)
    as [Hrow (g & Hg & Hp)].
  split.
  - destruct (Hrow (lit "W1") (lit "Flaring") (to_rawrow unparsable_row)
                   (or_introl eq_refl))
      as (cm & w & es & Hcm & Hre & Hes & Hv & _ & _ & _).
    vm_compute in Hcm. injection Hcm as <-.
    exists w, es. split; [exact Hre|]. split.
    + apply (Hv (lit "n/a")); [reflexivity | discriminate | reflexivity].
    + rewrite <- Hes. vm_compute. reflexivity.
  - exists g. split; [exact Hg|].
    rewrite (Permutation_length Hp). vm_compute. reflexivity.
Defined.

(* ===================================================================== *)
(** * The chain of readings of a well and type *)
(* ===================================================================== *)

Lemma in_group_eq g e : in_group g e = true <-> group_of e = g.
Proof. unfold in_group. destruct (key2_eq_dec (group_of e) g); split; congruence. Qed.

Lemma link_rels_length l : forall cur, length (link_rels cur l) = length l.
Proof. induction l as [|e l IH]; intros cur; simpl; [reflexivity|]. now rewrite IH. Qed.

(** The relationships emitted at the entries of one group form the chain
    of these entries, whatever lies between them. *)
Lemma link_rels_group g l : forall cur,
  rels_of_group g l (link_rels cur l)
  = chain_from (dict_get key2_eq_dec cur g) g (filter (in_group g) l).
Proof.
  unfold rels_of_group.
  induction l as [|e l IH]; intros cur; [reflexivity|].
  cbn [link_rels combine filter fst].
  destruct (in_group g e) eqn:E.
  - apply in_group_eq in E. cbn [map snd chain_from]. rewrite IH, E.
    rewrite dict_get_set_same. subst g. reflexivity.
  - rewrite IH. rewrite dict_get_set_other; [reflexivity|].
    intros ->. unfold in_group in E.
    destruct (key2_eq_dec (group_of e) (group_of e)); congruence.
Qed.

Lemma Permutation_filter {A} (p : A -> bool) l l' :
  Permutation l l' -> Permutation (filter p l) (filter p l').
Proof.
  induction 1 as [|x l l' _ IH|x y l|l l' l'' _ IH1 _ IH2]; simpl.
  - constructor.
  - destruct (p x); [now constructor | exact IH].
  - destruct (p x), (p y); try reflexivity. apply perm_swap.
  - now transitivity (filter p l').
Qed.

Lemma StronglySorted_filter {A} (R : A -> A -> Prop) (p : A -> bool) l :
  StronglySorted R l -> StronglySorted R (filter p l).
Proof.
  induction 1 as [|x l _ IH Hx]; simpl; [constructor|].
  destruct (p x); [|exact IH]. constructor; [exact IH|].
  rewrite Forall_forall in *. intros y Hy. apply filter_In in Hy as [Hy _].
  now apply Hx.
Qed.

Lemma StronglySorted_weaken {A} (R R' : A -> A -> Prop) (P : A -> Prop) l :
  (forall a b, P a -> P b -> R a b -> R' a b) ->
  Forall P l -> StronglySorted R l -> StronglySorted R' l.
Proof.
  intros HR HP H. induction H as [|x l _ IH Hx]; [constructor|].
  inversion_clear HP as [|? ? Px Pl]. constructor; [now apply IH|].
  rewrite Forall_forall in *. intros y Hy. apply HR; auto.
Qed.

(** Within a group the sort key orders by date. *)
Lemma desc_date_ge a b : group_of a = group_of b -> desc a b -> date_ge a b.
Proof.
  unfold group_of, desc, date_ge, key_ltb, sort_key, key_compare.
  intros [= -> ->].
  rewrite (proj2 (str_compare_eq (e_well_key b) _) eq_refl),
    (proj2 (str_compare_eq (e_emission_type b) _) eq_refl).
  intros H E. now rewrite E in H.
Qed.

Lemma date_ge_strict l :
  NoDup (map e_date l) -> StronglySorted date_ge l -> StronglySorted date_gt l.
Proof.
  intros Hnd H. induction H as [|x l _ IH Hx]; [constructor|].
  simpl in Hnd. inversion_clear Hnd as [|? ? Hnx Hnl].
  constructor; [now apply IH|].
  rewrite Forall_forall in *. intros y Hy. specialize (Hx y Hy).
  unfold date_ge, date_gt in *.
  destruct (str_compare (e_date x) (e_date y)) eqn:E; try congruence.
  apply str_compare_eq in E. elim Hnx. rewrite E. now apply in_map.
Qed.

(** A chain over n >= 1 readings: one HAS_DATA, n - 1 NEXT_DATE. *)
Lemma chain_from_next_dates g es : forall p,
  rels_of_type (lit "HAS_DATA") (chain_from (Some p) g es) = []
  /\ length (rels_of_type (lit "NEXT_DATE") (chain_from (Some p) g es))
     = length es.
Proof.
  induction es as [|e es IH]; intros p; [split; reflexivity|].
  destruct (IH (reading_id e)) as [H1 H2]. split.
  - exact H1.
  - cbn [chain_from]. unfold rels_of_type in *. cbn [filter next_date rel_type].
    change (str_eqb (lit "NEXT_DATE") (lit "NEXT_DATE")) with true.
    cbn [length]. now rewrite H2.
Qed.

Lemma chain_counts g e es :
  length (rels_of_type (lit "HAS_DATA") (chain g (e :: es))) = 1%nat
  /\ length (rels_of_type (lit "NEXT_DATE") (chain g (e :: es)))
     = length es.
Proof.
  destruct (chain_from_next_dates g es (reading_id e)) as [H1 H2].
  unfold chain. cbn [chain_from]. unfold rels_of_type in *.
  cbn [filter has_data rel_type].
  change (str_eqb (lit "HAS_DATA") (lit "HAS_DATA")) with true.
  change (str_eqb (lit "HAS_DATA") (lit "NEXT_DATE")) with false.
  rewrite H1, H2. split; reflexivity.
Qed.

Lemma expected_date_rels py_float spreadsheet_name verified_time reader :
  date_rels
    (all_relationships
       (expected_graph py_float spreadsheet_name verified_time reader))
  = link_rels [] (sorted_entries py_float spreadsheet_name verified_time reader).
Proof.
  unfold expected_graph. cbn [all_relationships]. unfold date_rels.
  rewrite !filter_app.
  rewrite (filter_none _ (map has_emissions _)),
    (filter_none _ (map has_type_of _)), (filter_all _ (link_rels _ _)).
  - reflexivity.
  - intros r Hr. apply link_rels_types in Hr as [-> | ->]; reflexivity.
  - intros r Hr. apply in_map_iff in Hr as (item & <- & _). reflexivity.
  - intros r Hr. apply in_map_iff in Hr as ([k w] & <- & _). reflexivity.
Qed.

(** C2, as the claim states it, fails: two rows of well W1 with the same
    date give the pair (W1, Flaring) two surviving readings of equal date,
    so the chain is not strictly descending, and its NEXT_DATE
    relationship runs from a reading identifier to itself. *)
Lemma same_date_self_loop :
  exists g id,
    build_graph float_of_digits sample_file sample_time same_date_reader
    = Ok g
    /\ map e_date
           (filter (in_group (lit "W1", lit "Flaring"))
                   (sorted_entries float_of_digits sample_file sample_time
                                   same_date_reader))
       = [lit "2024-03-15"; lit "2024-03-15"]
    /\ In (Relationship (Endpoint (lit "Flaring") id)
                        (Endpoint (lit "Flaring") id) (lit "NEXT_DATE"))
          (all_relationships g).
Proof.
  eexists. exists (lit "b9ac75a90c641a5283e06678").
  split; [now apply build_graph_expected|].
  split; [vm_compute; reflexivity|].
  vm_compute. do 6 right. left. reflexivity.
Qed.

(** C2, amended: the chaining loop emits one relationship per surviving
    reading, in sorted order, and for every (well key, emission type) pair
    the relationships emitted at its n >= 1 readings are exactly one
    HAS_DATA, from the pair's EmissionType node to the first reading, and
    n - 1 NEXT_DATE, each from a reading to the next one: a single path
    over the pair's surviving readings, ordered by descending date string
    (equal dates in file order), and strictly descending when the dates of
    the pair's readings are pairwise distinct. *)
Theorem readings_chain py_float spreadsheet_name verified_time headers rows :
  csv_text (headers :: rows) = true ->
  exists g,
    build_graph py_float spreadsheet_name verified_time (headers :: rows)
    = Ok g
    /\ let entries :=
         surviving py_float spreadsheet_name verified_time (headers :: rows) in
       let sorted :=
         sorted_entries py_float spreadsheet_name verified_time
                        (headers :: rows) in
       let links := date_rels (all_relationships g) in
       Permutation sorted entries
       /\ length links = length sorted
       /\ forall pair : key2,
            let es := filter (in_group pair) sorted in
            let rs := rels_of_group pair sorted links in
            Permutation es (filter (in_group pair) entries)
            /\ rs = chain pair es
            /\ StronglySorted date_ge es
            /\ (NoDup (map e_date es) -> StronglySorted date_gt es)
            /\ (es <> [] ->
                length (rels_of_type (lit "HAS_DATA") rs) = 1%nat
                /\ length (rels_of_type (lit "NEXT_DATE") rs)
                   = (length es - 1)%nat).
Proof.
  intros Htext. eexists. split; [now apply build_graph_expected|].
  cbv zeta. rewrite expected_date_rels.
  split; [apply sort_desc_perm|]. split; [apply link_rels_length|].
  intros pair. rewrite link_rels_group. cbn [dict_get]. fold (chain pair).
  assert (Hs : StronglySorted date_ge
                 (filter (in_group pair)
                    (sorted_entries py_float spreadsheet_name verified_time
                                    (headers :: rows)))).
  { apply StronglySorted_weaken
      with (R := desc) (P := fun e => group_of e = pair).
    - intros a b Ha Hb. apply desc_date_ge. congruence.
    - apply Forall_forall. intros e He. apply filter_In in He as [_ He].
      now apply in_group_eq.
    - apply StronglySorted_filter, sort_desc_sorted. }
  split; [apply Permutation_filter, sort_desc_perm|].
  split; [reflexivity|]. split; [exact Hs|].
  split; [intros Hnd; now apply date_ge_strict|].
  destruct (filter (in_group pair) _) as [|e es]; [congruence|].
  intros _. destruct (chain_counts pair e es) as [H1 H2].
  split; [exact H1|]. etransitivity; [exact H2|]. cbn [length]. lia.
Qed.

Lemma readings_chain_witness :
  csv_text sample_reader = true
  /\ exists g,
       build_graph float_of_digits sample_file sample_time sample_reader
       = Ok g
       /\ map e_date
              (filter (in_group (lit "W1", lit "Flaring"))
                      (sorted_entries float_of_digits sample_file sample_time
                                      sample_reader))
          = [lit "2024-03-16"; lit "2024-03-15"; lit "2024-03-14"]
       /\ map rel_type
              (rels_of_group (lit "W1", lit "Flaring")
                 (sorted_entries float_of_digits sample_file sample_time
                                 sample_reader)
                 (date_rels (all_relationships g)))
          = [lit "HAS_DATA"; lit "NEXT_DATE"; lit "NEXT_DATE"].
Proof.
  split; [reflexivity|].
  destruct (@readings_chain float_of_digits sample_file sample_time
              sample_header (tl sample_reader) eq_refl)
    as (g & Hg & _ & _ & H).
  destruct (H (lit "W1", lit "Flaring")) as (_ & Hrs & _).
  exists g. split; [exact Hg|]. split; [vm_compute; reflexivity|].
  etransitivity; [apply f_equal; exact Hrs|]. vm_compute. reflexivity.
Defined.

(* ===================================================================== *)
(** * Dispatch *)
(* ===================================================================== *)

Lemma raise_for_status_raises status :
  raise_for_status status = Raise HTTPError <-> (400 <= status < 600)%Z.
Proof.
  unfold raise_for_status.
  destruct (Z.leb_spec 400 status), (Z.ltb_spec status 600); simpl;
    split; (discriminate || lia || reflexivity).
Qed.

(** When reading a response fails. *)
Lemma read_response_fails o :
  (exists e, read_response o = Raise e)
  <-> o = NoResponse
      \/ exists status body,
           o = Response status body
           /\ ((400 <= status < 600)%Z \/ body = None).
Proof.
  destruct o as [|status body]; simpl.
  - split; [now left | intros _; now eexists].
  - unfold raise_for_status.
    destruct ((400 <=? status) && (status <? 600))%Z eqn:E; simpl.
    + apply andb_prop in E as [E1 E2].
      apply Z.leb_le in E1. apply Z.ltb_lt in E2.
      split; [|intros _; now eexists]. intros _. right.
      exists status, body. split; [reflexivity|]. left. lia.
    + assert (Hs : ~ (400 <= status < 600)%Z).
      { intros [H1 H2]. apply Z.leb_le in H1. apply Z.ltb_lt in H2.
        now rewrite H1, H2 in E. }
      destruct body as [j|].
      * split; [intros [e He]; discriminate|].
        intros [H|(s & b & Heq & [Hr|Hb])]; [discriminate| |].
        -- injection Heq as <- _. contradiction.
        -- injection Heq as _ <-. discriminate.
      * split; [|intros _; now eexists]. intros _. right.
        exists status, None. split; [reflexivity | now right].
Qed.

(** A batch always reports: success exactly when reading the response
    succeeds. *)
Lemma process_batch_result post n total b token :
  exists msg,
    process_batch false post n total b token
    = ([request_of token b],
       (n, match read_response (post (request_of token b)) with
           | Ok _ => true
           | Raise _ => false
           end, msg)).
Proof.
  destruct b as [nodes|rels]; cbn [process_batch request_of];
    unfold create_nodes_batch, create_relationships_batch;
    destruct (read_response _); eexists; reflexivity.
Qed.

Lemma tally_fold done : forall c f,
  fold_left
    (fun (cf : nat * nat) (r : nat * bool * message) =>
       let (completed, failed) := cf in
       let '(_, success, _) := r in
       if success then (S completed, failed) else (completed, S failed))
    done (c, f)
  = ((c + length (filter succeeded done))%nat,
     (f + length (filter (fun r => negb (succeeded r)) done))%nat).
Proof.
  induction done as [|[[n s] m] done IH]; intros c f; simpl.
  - f_equal; lia.
  - unfold succeeded at 1 3. simpl. destruct s; simpl; rewrite IH; f_equal; lia.
Qed.

(** The tallies count the successes and the failures. *)
Lemma tally_counts done :
  tally done
  = (length (filter succeeded done),
     length (filter (fun r => negb (succeeded r)) done)).
Proof. unfold tally. now rewrite tally_fold. Qed.

(** The tallies do not depend on the order of completion. *)
Lemma tally_permutation done done' :
  Permutation done done' -> tally done = tally done'.
Proof.
  intros H. rewrite !tally_counts.
  now rewrite (Permutation_length (Permutation_filter _ H)),
    (Permutation_length (Permutation_filter _ H)).
Qed.

Lemma tally_total done :
  (fst (tally done) + snd (tally done))%nat = length done.
Proof.
  rewrite tally_counts. simpl. induction done as [|r done IH]; simpl; [reflexivity|].
  destruct (succeeded r); simpl; lia.
Qed.

Section RoundFacts.
Variable net : nat -> request -> http_outcome.
Variable token : pystr.

Lemma submit_fold jobs : forall s r,
  fold_left (submit false net token) jobs (s, r)
  = (s ++ flat_map (fun j => fst (run_job net token j)) jobs,
     r ++ map (fun j => snd (run_job net token j)) jobs).
Proof.
  induction jobs as [|[[n t] b] jobs IH]; intros s r; simpl.
  - now rewrite !app_nil_r.
  - unfold run_job at 1 2.
    destruct (process_batch false (net n) n t b token) as [s' r'] eqn:E.
    simpl. rewrite IH, <- !app_assoc. reflexivity.
Qed.
End RoundFacts.

Lemma run_job_result net token n t b :
  exists msg,
    run_job net token (n, t, b)
    = ([request_of token b],
       (n, match read_response (net n (request_of token b)) with
           | Ok _ => true
           | Raise _ => false
           end, msg)).
Proof. apply process_batch_result. Qed.

Lemma slices_nonempty {A} fuel bs (x : A) l : slices (S fuel) bs (x :: l) <> [].
Proof. discriminate. Qed.

(** The batches are numbered from 1. *)
Lemma make_batches_numbers {A} (items : list A) bs jobs :
  make_batches items bs = Ok jobs ->
  map (fun j => fst (fst j)) jobs = seq 1 (length jobs).
Proof.
  unfold make_batches. destruct (bs =? 0)%Z; [discriminate|].
  destruct (bs <? 0)%Z; [intros [= <-]; reflexivity|].
  intros [= <-]. rewrite map_map. cbn [fst].
  set (parts := slices _ _ _). rewrite length_map, length_combine, length_seq.
  rewrite Nat.min_id. generalize 1%nat.
  induction parts as [|p parts IH]; intros n; simpl; [reflexivity|].
  now rewrite IH.
Qed.

Lemma make_batches_nonempty {A} (items : list A) bs :
  (0 < bs)%Z -> items <> [] ->
  exists jobs, make_batches items bs = Ok jobs /\ jobs <> [].
Proof.
  intros Hbs Hi. unfold make_batches.
  destruct (Z.eqb_spec bs 0); [lia|]. destruct (Z.ltb_spec bs 0); [lia|].
  eexists. split; [reflexivity|].
  destruct items as [|x items]; [congruence|]. discriminate.
Qed.

Section RoundResults.
Variable net : nat -> request -> http_outcome.
Variable token : pystr.
Variable A : Type.
Variable mk : list A -> batch.

Lemma sent_requests (jobs : list (nat * nat * list A)) :
  flat_map (fun j => fst (run_job net token (as_job mk j))) jobs
  = map (fun j => request_of token (mk (snd j))) jobs.
Proof.
  induction jobs as [|[[n t] l] jobs IH]; [reflexivity|].
  cbn [flat_map map as_job snd].
  destruct (run_job_result net token n t (mk l)) as [msg ->].
  cbn [fst app]. now rewrite IH.
Qed.

(** A round over at least one batch with a positive pool submits every
    batch and collects a result for each, whatever the API answers. *)
Lemma dispatch_round_jobs items bs mt jobs :
  make_batches items bs = Ok jobs -> jobs <> [] -> (0 < mt)%Z ->
  dispatch_round false net token mk items bs mt
  = Ok (Round
          (map (fun j => request_of token (mk (snd j))) jobs)
          (map (fun j => snd (run_job net token (as_job mk j))) jobs)).
Proof.
  intros Hj Hne Hmt. unfold dispatch_round. rewrite Hj. cbn [bind].
  destruct (Z.leb_spec (Z.min mt (Z.of_nat (length jobs))) 0) as [H|_].
  - destruct jobs; [congruence|]. simpl length in H. lia.
  - fold (@as_job A mk). rewrite submit_fold. cbn [app].
    rewrite flat_map_concat_map, !map_map, <- flat_map_concat_map.
    now rewrite sent_requests.
Qed.
End RoundResults.

(** C5: in a round of three batches where the sink call of batch 2 raises
    and those of batches 1 and 3 return, all three batches are submitted,
    batches 1 and 3 report success and batch 2 failure, and whatever the
    order in which the batches complete the round counts completed = 2
    and failed = 1. *)
Theorem partial_failure {A} (mk : list A -> batch) net token items
  batch_size max_threads j1 j2 j3 :
  make_batches items batch_size = Ok [j1; j2; j3] ->
  (0 < max_threads)%Z ->
  (exists r, read_response (net 1%nat (request_of token (mk (snd j1)))) = Ok r) ->
  (exists e, read_response (net 2%nat (request_of token (mk (snd j2)))) = Raise e) ->
  (exists r, read_response (net 3%nat (request_of token (mk (snd j3)))) = Ok r) ->
  exists r,
    dispatch_round false net token mk items batch_size max_threads = Ok r
    /\ sent r = [request_of token (mk (snd j1));
                 request_of token (mk (snd j2));
                 request_of token (mk (snd j3))]
    /\ map (fun x => (fst (fst x), succeeded x)) (results r)
       = [(1%nat, true); (2%nat, false); (3%nat, true)]
    /\ forall done,
         Permutation (results r) done -> tally done = (2%nat, 1%nat).
Proof.
  intros Hj Hmt [r1 H1] [e2 H2] [r3 H3].
  pose proof (make_batches_numbers _ _ Hj) as Hn.
  destruct j1 as [[n1 t1] l1], j2 as [[n2 t2] l2], j3 as [[n3 t3] l3].
  cbn in Hn. injection Hn as -> -> ->. cbn [snd] in *.
  eexists. split; [apply (dispatch_round_jobs net token mk _ _ Hj);
                   [discriminate | exact Hmt]|].
  cbn [sent results map as_job snd].
  destruct (run_job_result net token 1 t1 (mk l1)) as [m1 ->].
  destruct (run_job_result net token 2 t2 (mk l2)) as [m2 ->].
  destruct (run_job_result net token 3 t3 (mk l3)) as [m3 ->].
  rewrite H1, H2, H3. cbn [snd fst].
  split; [reflexivity|]. split; [reflexivity|].
  intros done Hp. now rewrite <- (tally_permutation Hp).
Qed.

Lemma partial_failure_witness :
  make_batches three_nodes 1
  = Ok [(1%nat, 3%nat, [Node (lit "W1") (lit "Well") None []]);
        (2%nat, 3%nat, [Node (lit "W2") (lit "Well") None []]);
        (3%nat, 3%nat, [Node (lit "W3") (lit "Well") None []])]
  /\ exists r,
       dispatch_round false second_fails sample_token NodeBatch three_nodes
                      1 6 = Ok r
       /\ length (sent r) = 3%nat
       /\ tally (results r) = (2%nat, 1%nat)
       /\ tally (rev (results r)) = (2%nat, 1%nat).
Proof.
  split; [reflexivity|].
  destruct (@partial_failure node NodeBatch second_fails sample_token
              three_nodes 1%Z 6%Z _ _ _ eq_refl eq_refl
              (ex_intro _ JNull eq_refl)
              (ex_intro _ ConnectionError eq_refl)
              (ex_intro _ JNull eq_refl))
    as (r & Hr & Hs & _ & Ht).
  exists r. split; [exact Hr|]. split; [now rewrite Hs|].
  split; [apply Ht; reflexivity | apply Ht, Permutation_rev].
Defined.

Lemma failed_count {A} net token (mk : list A -> batch) jobs :
  length
    (filter (fun r => negb (succeeded r))
            (map (fun j => snd (run_job net token (as_job mk j))) jobs))
  = length (filter (job_fails net token mk) jobs).
Proof.
  induction jobs as [|[[n t] l] jobs IH]; [reflexivity|].
  cbn [map as_job filter].
  destruct (run_job_result net token n t (mk l)) as [msg ->].
  unfold succeeded at 1, job_fails at 1. cbn [fst snd].
  destruct (read_response _); cbn [negb length]; now rewrite IH.
Qed.

(** C6, as the claim states it, fails: a response with status 300 and a
    body that decodes is not a 2xx response, yet the batch reports success
    and is counted completed. *)
Lemma redirect_counts_completed :
  exists msg,
    process_batch false (fun _ => Response 300 (Some JNull)) 1 1
                  (NodeBatch three_nodes) sample_token
    = ([PostNodes sample_token three_nodes], (1%nat, true, msg))
    /\ tally [(1%nat, true, msg)] = (1%nat, 0%nat).
Proof. eexists. split; reflexivity. Qed.

(** C6, amended: a chunk submission is reported as a chunk-level failure
    exactly when the transport fails, or the response has a 4xx or 5xx
    status, or its body does not decode; a response with any other status
    and a body that decodes counts as completed.  No such failure aborts
    the dispatch: with a positive batch size and pool size, every chunk of
    a non-empty item list is submitted and counted, the failed tally being
    the number of failing chunks, in whatever order they complete. *)
Theorem chunk_failure_taxonomy {A} (mk : list A -> batch) net token items
  batch_size max_threads :
  (0 < batch_size)%Z -> (0 < max_threads)%Z -> items <> [] ->
  (forall post n total b,
     exists msg success,
       process_batch false post n total b token
       = ([request_of token b], (n, success, msg))
       /\ (success = false
           <-> post (request_of token b) = NoResponse
               \/ exists status body,
                    post (request_of token b) = Response status body
                    /\ ((400 <= status < 600)%Z \/ body = None)))
  /\ exists jobs r,
       make_batches items batch_size = Ok jobs
       /\ dispatch_round false net token mk items batch_size max_threads
          = Ok r
       /\ sent r = map (fun j => request_of token (mk (snd j))) jobs
       /\ length (results r) = length jobs
       /\ forall done,
            Permutation (results r) done ->
            snd (tally done) = length (filter (job_fails net token mk) jobs)
            /\ (fst (tally done) + snd (tally done))%nat = length jobs.
Proof.
  intros Hbs Hmt Hi. split.
  - intros post n total b.
    destruct (process_batch_result post n total b token) as [msg H].
    do 2 eexists. split; [exact H|].
    rewrite <- read_response_fails.
    destruct (read_response _); split;
      [discriminate | intros [e He]; discriminate
       | intros _; now eexists | reflexivity].
  - destruct (@make_batches_nonempty A items batch_size Hbs Hi)
      as (jobs & Hj & Hne).
    exists jobs. eexists. split; [exact Hj|].
    split; [apply (dispatch_round_jobs net token mk _ _ Hj Hne Hmt)|].
    cbn [sent results]. split; [reflexivity|].
    split; [now rewrite length_map|].
    intros done Hp. rewrite <- (tally_permutation Hp). split.
    + rewrite tally_counts. cbn [snd]. apply failed_count.
    + now rewrite tally_total, length_map.
Qed.

Lemma chunk_failure_taxonomy_witness :
  (0 < 1)%Z /\ (0 < 6)%Z /\ three_nodes <> []
  /\ exists jobs r,
       make_batches three_nodes 1 = Ok jobs
       /\ dispatch_round false second_fails sample_token NodeBatch
                         three_nodes 1 6 = Ok r
       /\ length jobs = 3%nat
       /\ snd (tally (results r)) = 1%nat.
Proof.
  split; [reflexivity|]. split; [reflexivity|]. split; [discriminate|].
  destruct (@chunk_failure_taxonomy node NodeBatch second_fails sample_token
              three_nodes 1%Z 6%Z eq_refl eq_refl
              (fun H => eq_ind three_nodes
                          (fun l => match l with [] => False | _ => True end)
                          I [] H))
    as (_ & jobs & r & Hj & Hr & _ & Hl & Ht).
  exists jobs, r. split; [exact Hj|]. split; [exact Hr|].
  rewrite (proj1 (Ht (results r) (Permutation_refl _))).
  vm_compute in Hj. injection Hj as <-. split; reflexivity.
Defined.

(* ===================================================================== *)
(** * Replay: classification *)
(* ===================================================================== *)

(** C4, as the claim states it, fails: an array whose first element is a
    relationship and whose second is a number matches none of the shapes
    of the claim, yet it is classified as relationships and posted, and
    the tool exits with code 0. *)
Lemma mixed_array_posted :
  claimed_relationships mixed_array = false
  /\ claimed_nodes mixed_array = false
  /\ detect_type mixed_array = Some (lit "relationships")
  /\ main (Some sample_token) sample_host accepting (Loaded mixed_array) None
     = ([ReplayRelationships sample_token mixed_array], 0%Z).
Proof. repeat split. Qed.

Lemma detect_type_dict d :
  detect_type (JDict d)
  = if claimed_nodes (JDict d) then Some (lit "nodes") else None.
Proof.
  cbn [detect_type claimed_nodes]. unfold has_key, dict_mem.
  destruct (dict_get str_eq_dec d (lit "nodes")) as [[| | | | |l|]|];
    cbn [andb orb];
    destruct (dict_get str_eq_dec d (lit "external_id")),
      (dict_get str_eq_dec d (lit "type")); reflexivity.
Qed.

Lemma detect_type_list x l :
  detect_type (JList (x :: l))
  = if is_dict_with node_keys x then Some (lit "nodes")
    else if is_dict_with relationship_keys x then Some (lit "relationships")
    else None.
Proof.
  cbn [detect_type]. destruct x; try reflexivity.
  cbn [is_dict_with node_keys relationship_keys forallb].
  rewrite !andb_true_r, !andb_assoc. reflexivity.
Qed.

Lemma main_unclassified INDYKITE_TOKEN INDYKITE_HOST post data :
  detect_type data = None ->
  main INDYKITE_TOKEN INDYKITE_HOST post (Loaded data) None = ([], 1%Z).
Proof.
  intros H. unfold main. destruct INDYKITE_TOKEN as [token|]; [|reflexivity].
  destruct (nonempty token); [|reflexivity].
  destruct (nonempty INDYKITE_HOST); [|reflexivity].
  cbn [negb]. now rewrite H.
Qed.

Lemma detect_type_names data t :
  detect_type data = Some t -> t = lit "nodes" \/ t = lit "relationships".
Proof.
  destruct data as [| | | | |[|x l]|d]; try discriminate.
  - rewrite detect_type_list.
    destruct (is_dict_with node_keys x); [intros [= <-]; now left|].
    destruct (is_dict_with relationship_keys x); [|discriminate].
    intros [= <-]. now right.
  - rewrite detect_type_dict. destruct (claimed_nodes (JDict d)); [|discriminate].
    intros [= <-]. now left.
Qed.

(** Only an array is detected as relationships, and an array has a
    length. *)
Lemma detect_type_relationships data :
  detect_type data = Some (lit "relationships") ->
  exists x l, data = JList (x :: l).
Proof.
  destruct data as [| | | | |[|x l]|d]; try discriminate.
  - intros _. now exists x, l.
  - rewrite detect_type_dict. destruct (claimed_nodes (JDict d));
      [|discriminate].
    intros H. apply (f_equal (option_map (@length N))) in H.
    vm_compute in H. discriminate H.
Qed.

(** C4, amended: when no explicit type is given, the replay tool looks at
    the first element of an array only.  An array whose first element is a
    dict having external_id, type and properties is classified as nodes;
    otherwise an array whose first element is a dict having source, target
    and type is classified as relationships; a dict containing a nodes
    list, or having external_id and type, is classified as nodes.  Every
    other document, the empty array included, is unclassified: the tool
    posts nothing and exits with code 1.  A classified document is posted
    in one request. *)
Theorem classification_by_first_item :
  (forall d,
     detect_type (JDict d)
     = if claimed_nodes (JDict d) then Some (lit "nodes") else None)
  /\ (forall x l,
        detect_type (JList (x :: l))
        = if is_dict_with node_keys x then Some (lit "nodes")
          else if is_dict_with relationship_keys x
          then Some (lit "relationships")
          else None)
  /\ (forall x l, detect_type (JList (x :: l)) = detect_type (JList [x]))
  /\ detect_type (JList []) = None
  /\ detect_type JNull = None
  /\ (forall b, detect_type (JBool b) = None)
  /\ (forall z, detect_type (JInt z) = None)
  /\ (forall f, detect_type (JFloat f) = None)
  /\ (forall s, detect_type (JStr s) = None)
  /\ (forall INDYKITE_TOKEN INDYKITE_HOST post data,
        detect_type data = None ->
        main INDYKITE_TOKEN INDYKITE_HOST post (Loaded data) None
        = ([], 1%Z))
  /\ forall token INDYKITE_HOST post data t,
       nonempty token = true -> nonempty INDYKITE_HOST = true ->
       detect_type data = Some t ->
       exists req,
         main (Some token) INDYKITE_HOST post (Loaded data) None
         = ([req],
            match read_response (post req) with
            | Ok _ => 0%Z
            | Raise _ => 1%Z
            end).
Proof.
  split; [apply detect_type_dict|]. split; [apply detect_type_list|].
  split; [intros x l; now rewrite !detect_type_list|].
  do 6 (split; [reflexivity|]).
  split; [intros tok host post data; apply main_unclassified|].
  intros token host post data t Ht Hh E.
  unfold main. rewrite Ht, Hh. cbn [negb]. rewrite E.
  destruct (detect_type_names _ E) as [-> | ->].
  - change (str_eqb (lit "nodes") (lit "nodes")) with true. cbv iota.
    eexists. unfold post_nodes. reflexivity.
  - change (str_eqb (lit "relationships") (lit "nodes")) with false.
    change (str_eqb (lit "relationships") (lit "relationships")) with true.
    cbv iota. apply detect_type_relationships in E as (x & l & ->).
    exists (ReplayRelationships token (JList (x :: l))).
    unfold post_relationships. cbn [relationships_count].
    destruct (read_response _); reflexivity.
Qed.

Lemma classification_by_first_item_witness :
  detect_type (JList []) = None
  /\ main (Some sample_token) sample_host accepting (Loaded (JList [])) None
     = ([], 1%Z)
  /\ exists req,
       main (Some sample_token) sample_host accepting (Loaded mixed_array)
            None
       = ([req], 0%Z).
Proof.
  destruct classification_by_first_item
    as (_ & _ & _ & Hnil & _ & _ & _ & _ & _ & Hnone & Hsome).
  split; [exact Hnil|].
  split; [apply (Hnone (Some sample_token) sample_host accepting _ Hnil)|].
  destruct (Hsome sample_token sample_host accepting mixed_array
                  (lit "relationships") eq_refl eq_refl eq_refl)
    as [req Hreq].
  exists req. exact Hreq.
Defined.

(* ===================================================================== *)
(** * Reading the file: what is kept *)
(* ===================================================================== *)

(** [read_csv_data]: a reader without a header row raises; otherwise the
    rows of at least 21 columns are kept in file order, each with its
    five leading cells stripped, and every other row is reported once. *)
Theorem read_csv_data_partition :
  read_csv_data [] = Raise StopIteration
  /\ forall headers rows,
       exists log data,
         read_csv_data (headers :: rows) = Ok (log, data)
         /\ map row_data data = filter long_enough rows
         /\ log = map WarnShortRow
                      (filter (fun r => negb (long_enough r)) rows)
         /\ (length log + length data)%nat = length rows
         /\ Forall
              (fun r =>
                 (21 <= length (row_data r))%nat
                 /\ name r = strip (nth 0 (row_data r) [])
                 /\ well_key r = strip (nth 1 (row_data r) [])
                 /\ year r = strip (nth 2 (row_data r) [])
                 /\ month r = strip (nth 3 (row_data r) [])
                 /\ day r = strip (nth 4 (row_data r) []))
              data.
Proof.
  split; [reflexivity|]. intros headers rows.
  do 2 eexists. split; [apply read_csv_data_header|].
  unfold kept_rows. cbn [tl].
  split; [rewrite map_map; apply map_id|]. split; [reflexivity|]. split.
  - rewrite !length_map. induction rows as [|row rows IH]; [reflexivity|].
    cbn [filter]. destruct (long_enough row); cbn [negb length]; lia.
  - apply Forall_forall. intros r Hr.
    apply in_map_iff in Hr as (row & <- & Hrow).
    apply filter_In in Hrow as [_ Hl].
    unfold long_enough in Hl. apply negb_true_iff, Nat.ltb_ge in Hl.
    unfold to_rawrow, field. cbn [row_data name well_key year month day].
    split; [exact Hl|].
    repeat split;
      match goal with
      | |- (if (?i <? ?n)%nat then _ else _) = _ =>
          destruct (Nat.ltb_spec i n); [reflexivity | lia]
      end.
Qed.

(* ===================================================================== *)
(** * Grouping: what a group holds *)
(* ===================================================================== *)

Lemma dict_append_get_same grouped k row :
  dict_get str_eq_dec (dict_append grouped k row) k
  = Some (match dict_get str_eq_dec grouped k with
          | Some rows => rows ++ [row]
          | None => [row]
          end).
Proof.
  unfold dict_append.
  destruct (dict_get str_eq_dec grouped k); apply dict_get_set_same.
Qed.

Lemma dict_append_get_other grouped k k' row :
  k' <> k ->
  dict_get str_eq_dec (dict_append grouped k row) k'
  = dict_get str_eq_dec grouped k'.
Proof.
  intros H. unfold dict_append.
  destruct (dict_get str_eq_dec grouped k); now apply dict_get_set_other.
Qed.

Lemma group_fold_get k data : forall grouped,
  dict_get str_eq_dec
    (fold_left
       (fun grouped row =>
          if nonempty (well_key row)
          then dict_append grouped (well_key row) row
          else grouped)
       data grouped) k
  = let found :=
      filter (fun r => nonempty (well_key r) && str_eqb (well_key r) k) data in
    match dict_get str_eq_dec grouped k with
    | Some rows => Some (rows ++ found)
    | None => match found with [] => None | _ => Some found end
    end.
Proof.
  induction data as [|row data IH]; intros grouped; cbn [fold_left filter].
  - cbv zeta. destruct (dict_get str_eq_dec grouped k); [|reflexivity].
    now rewrite app_nil_r.
  - rewrite IH. cbv zeta. destruct (nonempty (well_key row)) eqn:Hn;
      cbn [andb]; [|reflexivity].
    destruct (str_eqb (well_key row) k) eqn:E.
    + apply str_eqb_eq in E. subst k. rewrite dict_append_get_same.
      destruct (dict_get str_eq_dec grouped (well_key row));
        [now rewrite <- app_assoc | reflexivity].
    + rewrite dict_append_get_other; [reflexivity|].
      intros H. subst k.
      rewrite (proj2 (str_eqb_eq _ _) eq_refl) in E. discriminate.
Qed.

(** [group_data_by_well]: each well key is grouped once, and looking a
    key up gives exactly the rows of that key, in file order; the empty
    key and keys no row has are not in the mapping. *)
Theorem group_data_by_well_lookup data k :
  NoDup (keys (group_data_by_well data))
  /\ dict_get str_eq_dec (group_data_by_well data) k
     = match filter (fun r => str_eqb (well_key r) k) data with
       | [] => None
       | rows => if nonempty k then Some rows else None
       end.
Proof.
  split; [apply group_data_by_well_nodup|].
  unfold group_data_by_well. rewrite group_fold_get. cbn [dict_get]. cbv zeta.
  replace (filter (fun r => nonempty (well_key r) && str_eqb (well_key r) k) data)
    with (if nonempty k then filter (fun r => str_eqb (well_key r) k) data
          else []).
  - destruct (nonempty k);
      destruct (filter (fun r => str_eqb (well_key r) k) data); reflexivity.
  - induction data as [|row data IH]; [now destruct (nonempty k)|].
    cbn [filter]. destruct (str_eqb (well_key row) k) eqn:E.
    + apply str_eqb_eq in E. rewrite E, andb_true_r.
      destruct (nonempty k); [now rewrite IH | exact IH].
    + rewrite andb_false_r. exact IH.
Qed.

(* ===================================================================== *)
(** * Column maps *)
(* ===================================================================== *)

Lemma get_emission_type_columns_cases t :
  (In t emission_types /\
   exists v, (5 <= v <= 17)%nat
             /\ get_emission_type_columns t
                = Some (Columns v (v + 1) (v + 2) (v + 3)))
  \/ (~ In t emission_types /\ get_emission_type_columns t = None).
Proof.
  unfold get_emission_type_columns, emission_types.
  destruct (str_eqb t (lit "Flaring")) eqn:E1;
    [apply str_eqb_eq in E1; left; split; [now left|];
     exists 5%nat; split; [lia | reflexivity]|].
  destruct (str_eqb t (lit "ColdVentilation")) eqn:E2;
    [apply str_eqb_eq in E2; left; split; [right; now left|];
     exists 9%nat; split; [lia | reflexivity]|].
  destruct (str_eqb t (lit "DieselFuel")) eqn:E3;
    [apply str_eqb_eq in E3; left; split; [do 2 right; now left|];
     exists 13%nat; split; [lia | reflexivity]|].
  destruct (str_eqb t (lit "FuelGas")) eqn:E4;
    [apply str_eqb_eq in E4; left; split; [do 3 right; now left|];
     exists 17%nat; split; [lia | reflexivity]|].
  right. split; [|reflexivity].
  intros [H|[H|[H|[H|[]]]]]; symmetry in H; apply str_eqb_eq in H; congruence.
Qed.

(** On a row the reader keeps (21 columns or more), the four cells of an
    emission type are always there: the bounds tests of the cell lookups
    never fail, and each cell is the stripped column of the type's map,
    which lies in columns 5 to 20. *)
Theorem kept_row_cells t cm row_data :
  get_emission_type_columns t = Some cm ->
  (21 <= length row_data)%nat ->
  (5 <= c_volume cm)%nat /\ (c_mass_uom cm <= 20)%nat
  /\ c_volume_uom cm = (c_volume cm + 1)%nat
  /\ c_mass cm = (c_volume cm + 2)%nat
  /\ c_mass_uom cm = (c_volume cm + 3)%nat
  /\ cell row_data (c_volume cm) = Some (strip (nth (c_volume cm) row_data []))
  /\ cell row_data (c_volume_uom cm)
     = Some (strip (nth (c_volume_uom cm) row_data []))
  /\ cell row_data (c_mass cm) = Some (strip (nth (c_mass cm) row_data []))
  /\ cell row_data (c_mass_uom cm)
     = Some (strip (nth (c_mass_uom cm) row_data [])).
Proof.
  intros Hcm Hlen.
  destruct (get_emission_type_columns_cases t) as [(_ & v & Hv & E)|(_ & E)];
    rewrite E in Hcm; [|discriminate].
  injection Hcm as <-. cbn [c_volume c_volume_uom c_mass c_mass_uom].
  unfold cell.
  repeat split; try lia;
    match goal with
    | |- (if (?i <? ?n)%nat then _ else _) = _ =>
        destruct (Nat.ltb_spec i n); [reflexivity | lia]
    end.
Qed.

Lemma kept_row_cells_witness :
  get_emission_type_columns (lit "FuelGas") = Some (Columns 17 18 19 20)
  /\ (21 <= length example_row_21)%nat
  /\ cell example_row_21 17 = Some (lit "scf")
  /\ cell example_row_21 20 = Some [].
Proof.
  split; [reflexivity|]. split; [vm_compute; lia|].
  destruct (@kept_row_cells (lit "FuelGas") (Columns 17 18 19 20)
              example_row_21 eq_refl)
    as (_ & _ & _ & _ & _ & H1 & _ & _ & H4); [vm_compute; lia|].
  split; [exact H1 | exact H4].
Defined.

(** An emission type outside the four fixed ones has no column map: the
    body of the [try] raises [KeyError] at the first column lookup (the
    date is built first), the row is reported and skipped for that type,
    and the loop goes on with what it had. *)
Theorem unknown_type_row_skipped py_float spreadsheet_name verified_time
  k t row acc :
  ~ In t emission_types ->
  get_emission_type_columns t = None
  /\ row_entry py_float spreadsheet_name verified_time k t
               (get_emission_type_columns t) row = Raise KeyError
  /\ try_row py_float spreadsheet_name verified_time k t
             (get_emission_type_columns t) acc row
     = (fst acc ++ [ErrorRow KeyError], snd acc).
Proof.
  intros Ht.
  destruct (get_emission_type_columns_cases t) as [(H & _)|(_ & E)];
    [contradiction|].
  split; [exact E|]. unfold try_row. rewrite E.
  unfold row_entry. rewrite create_date_string_ok. cbn [bind column].
  split; reflexivity.
Qed.

Lemma unknown_type_row_skipped_witness :
  ~ In (lit "Venting") emission_types
  /\ try_row float_of_digits sample_file sample_time (lit "W1")
             (lit "Venting") (get_emission_type_columns (lit "Venting"))
             ([], []) (to_rawrow example_row_21)
     = ([ErrorRow KeyError], []).
Proof.
  assert (H : ~ In (lit "Venting") emission_types)
    by (intros [H|[H|[H|[H|[]]]]]; discriminate H).
  split; [exact H|].
  exact (proj2 (proj2 (@unknown_type_row_skipped float_of_digits sample_file
                         sample_time (lit "W1") (lit "Venting")
                         (to_rawrow example_row_21) ([], []) H))).
Defined.

(* ===================================================================== *)
(** * The properties of a reading *)
(* ===================================================================== *)

Lemma row_date_nonempty row : nonempty (row_date row) = true.
Proof. unfold row_date. now destruct (strip (year row)). Qed.

(** The serialized properties of a reading: the date, then the volume and
    the mass that are not null, each with metadata tagged with the file
    name, assurance level 3 and the run's timestamp exactly when its unit
    string is present; the metadata placeholders themselves are never
    emitted as properties. *)
Theorem reading_properties py_float spreadsheet_name verified_time
  k t cm row e :
  get_emission_type_columns t = Some cm ->
  In e (row_entries py_float spreadsheet_name verified_time k t row) ->
  convert_properties_to_array (e_properties e)
  = Property (lit "date") (VStr (row_date row)) None
    :: measure_property spreadsheet_name verified_time (lit "volume")
         (parsed py_float (cell (row_data row) (c_volume cm)))
         (cell (row_data row) (c_volume_uom cm))
    ++ measure_property spreadsheet_name verified_time (lit "mass")
         (parsed py_float (cell (row_data row) (c_mass cm)))
         (cell (row_data row) (c_mass_uom cm)).
Proof.
  intros Hcm. unfold row_entries. rewrite Hcm.
  rewrite row_entry_columns. cbv zeta. rewrite !to_number_parsed.
  fold (row_date row).
  pose proof (row_date_nonempty row) as Hd.
  destruct (parsed py_float (cell (row_data row) (c_volume cm))),
    (parsed py_float (cell (row_data row) (c_mass cm)));
    cbn [In]; try contradiction; intros [<-|[]];
    unfold with_measure, measure_property; cbn [e_properties];
    destruct (truthy (cell (row_data row) (c_volume_uom cm)));
    destruct (truthy (cell (row_data row) (c_mass_uom cm)));
    destruct (row_date row); try discriminate; reflexivity.
Qed.

Lemma reading_properties_witness :
  get_emission_type_columns (lit "Flaring") = Some (Columns 5 6 7 8)
  /\ exists e,
       In e (row_entries float_of_digits sample_file sample_time (lit "W1")
                         (lit "Flaring") (to_rawrow example_row_21))
       /\ convert_properties_to_array (e_properties e)
          = [Property (lit "date") (VStr (lit "2024-03-15")) None;
             Property (lit "volume") (VFloat 100%float)
               (Some (VMeta (Metadata (lit "bbl") sample_file 3
                                      sample_time)))].
Proof.
  split; [reflexivity|].
  pose proof (@example_row_entry float_of_digits sample_file sample_time
                eq_refl) as He.
  eexists. split; [rewrite He; now left|].
  rewrite (@reading_properties float_of_digits sample_file sample_time
             (lit "W1") (lit "Flaring") (Columns 5 6 7 8)
             (to_rawrow example_row_21) _ eq_refl);
    [reflexivity | rewrite He; now left].
Defined.

(* ===================================================================== *)
(** * The layout of the graph *)
(* ===================================================================== *)

Lemma expected_well_nodes py_float spreadsheet_name verified_time reader :
  nodes_of_type (lit "Well")
    (all_nodes (expected_graph py_float spreadsheet_name verified_time reader))
  = map well_node (map well_record_of (wells_of reader)).
Proof.
  unfold expected_graph. cbn [all_nodes]. rewrite !nodes_of_type_app.
  rewrite (@nodes_of_type_all _ (map well_node _)),
    (@nodes_of_type_none _ (map emissions_node _)),
    (@nodes_of_type_none _ (map emission_type_node _)),
    (@nodes_of_type_none _ (map reading_of _)).
  - now rewrite !app_nil_r.
  - intros n Hn. apply in_map_iff in Hn as (e & <- & He).
    apply sorted_entries_types, emission_type_names in He. apply He.
  - intros n Hn. apply in_map_iff in Hn as ([[k t] id] & <- & _). discriminate.
  - intros n Hn. apply in_map_iff in Hn as ([k r] & <- & _). discriminate.
  - intros n Hn. apply in_map_iff in Hn as ([k r] & <- & _). reflexivity.
Qed.

(** The node list is laid out by kind: all Well nodes, then all Emissions
    nodes, then all EmissionType nodes, then all Reading nodes; the
    relationship list likewise: HAS_EMISSIONS, HAS_TYPE, then the links of
    the readings.  With w distinct well keys and m surviving readings
    there are 6 w + m nodes and 5 w + m relationships. *)
Theorem graph_layout py_float spreadsheet_name verified_time headers rows :
  csv_text (headers :: rows) = true ->
  exists g,
    build_graph py_float spreadsheet_name verified_time (headers :: rows)
    = Ok g
    /\ let w := length (well_keys (headers :: rows)) in
       let m := length (surviving py_float spreadsheet_name verified_time
                                  (headers :: rows)) in
       all_nodes g
       = nodes_of_type (lit "Well") (all_nodes g)
         ++ nodes_of_type (lit "Emissions") (all_nodes g)
         ++ nodes_of_type (lit "EmissionType") (all_nodes g)
         ++ reading_nodes (all_nodes g)
       /\ all_relationships g
          = rels_of_type (lit "HAS_EMISSIONS") (all_relationships g)
            ++ rels_of_type (lit "HAS_TYPE") (all_relationships g)
            ++ date_rels (all_relationships g)
       /\ length (nodes_of_type (lit "Well") (all_nodes g)) = w
       /\ length (reading_nodes (all_nodes g)) = m
       /\ length (date_rels (all_relationships g)) = m
       /\ length (all_nodes g) = (6 * w + m)%nat
       /\ length (all_relationships g) = (5 * w + m)%nat.
Proof.
  intros Htext. eexists. split; [now apply build_graph_expected|].
  cbv zeta. set (reader := headers :: rows).
  rewrite expected_well_nodes, expected_emissions_nodes, expected_type_nodes,
    expected_reading_nodes, expected_has_emissions, expected_has_type,
    expected_date_rels.
  assert (Hm : length (sorted_entries py_float spreadsheet_name verified_time
                                      reader)
               = length (surviving py_float spreadsheet_name verified_time
                                   reader))
    by (apply Permutation_length, sort_desc_perm).
  assert (Hw : length (wells_of reader) = length (well_keys reader))
    by (unfold well_keys, keys; now rewrite length_map).
  unfold expected_graph. cbn [all_nodes all_relationships].
  split; [|split].
  - f_equal. f_equal.
    + unfold well_keys, keys. rewrite !map_map. apply map_ext.
      intros [k r]. reflexivity.
    + f_equal. rewrite map_flat_map. apply flat_map_ext. intros k.
      unfold type_id_items. rewrite map_map. apply map_ext_in.
      intros t Ht. unfold emission_type_node.
      rewrite name_property; [reflexivity | now apply emission_type_names].
  - f_equal.
    + unfold well_keys, keys. rewrite !map_map. apply map_ext.
      intros [k r]. reflexivity.
    + f_equal. rewrite map_flat_map. apply flat_map_ext. intros k.
      unfold type_id_items. rewrite map_map. reflexivity.
  - rewrite !length_app, !length_map, link_rels_length.
    rewrite (@length_flat_map_const _ _ _ 4%nat)
      by (intros; unfold type_id_items; now rewrite length_map).
    rewrite Hm, Hw. repeat split; lia.
Qed.

Lemma graph_layout_witness :
  csv_text sample_reader = true
  /\ exists g,
       build_graph float_of_digits sample_file sample_time sample_reader
       = Ok g
       /\ length (all_nodes g) = 17%nat
       /\ length (all_relationships g) = 15%nat.
Proof.
  split; [reflexivity|].
  destruct (@graph_layout float_of_digits sample_file sample_time
              sample_header (tl sample_reader) eq_refl)
    as (g & Hg & _ & _ & _ & _ & _ & Hn & Hr).
  exists g. split; [exact Hg|]. split.
  - etransitivity; [exact Hn|]. vm_compute. reflexivity.
  - etransitivity; [exact Hr|]. vm_compute. reflexivity.
Defined.

(* ===================================================================== *)
(** * Relationships address nodes of the graph *)
(* ===================================================================== *)

(** The chaining loop links entries of the list it walks: the first of a
    group to its emission type, any other to an earlier entry of the same
    group. *)
Lemma link_rels_shape (all : list date_entry) l : forall cur r,
  incl l all ->
  (forall g p, dict_get key2_eq_dec cur g = Some p ->
     exists e', In e' all /\ group_of e' = g /\ reading_id e' = p) ->
  In r (link_rels cur l) ->
  exists e, In e all
    /\ (r = has_data (group_of e) e
        \/ exists e', In e' all /\ group_of e' = group_of e
                      /\ r = next_date (reading_id e') e).
Proof.
  induction l as [|e l IH]; intros cur r Hl Hcur; [intros []|].
  cbn [link_rels]. intros [<-|Hr].
  - exists e. split; [apply Hl; now left|].
    destruct (dict_get key2_eq_dec cur (group_of e)) as [p|] eqn:E;
      [|now left].
    right. destruct (Hcur _ _ E) as (e' & He' & Hg & <-). now exists e'.
  - apply (IH (dict_set key2_eq_dec cur (group_of e) (reading_id e)) r);
      [intros x Hx; apply Hl; now right | | exact Hr].
    intros g p Hg. destruct (key2_eq_dec g (group_of e)) as [->|Hne].
    + rewrite dict_get_set_same in Hg. injection Hg as <-.
      exists e. split; [apply Hl; now left | split; reflexivity].
    + rewrite dict_get_set_other in Hg by exact Hne. now apply Hcur.
Qed.

(** Every relationship of the graph runs between two nodes of the graph:
    its source and its target each carry the type and the external
    identifier of a node that is emitted. *)
Theorem relationships_address_nodes py_float spreadsheet_name verified_time
  headers rows :
  csv_text (headers :: rows) = true ->
  exists g,
    build_graph py_float spreadsheet_name verified_time (headers :: rows)
    = Ok g
    /\ Forall (fun r => addresses (all_nodes g) (rel_source r)
                        /\ addresses (all_nodes g) (rel_target r))
              (all_relationships g).
Proof.
  intros Htext. eexists. split; [now apply build_graph_expected|].
  set (reader := headers :: rows).
  unfold expected_graph. cbn [all_nodes all_relationships].
  set (wells := map well_record_of (wells_of reader)).
  set (items := flat_map type_id_items (well_keys reader)).
  set (sorted := sorted_entries py_float spreadsheet_name verified_time reader).
  assert (Hwell : forall item, In item wells ->
            addresses (map well_node wells ++ map emissions_node wells
                       ++ map emission_type_node items
                       ++ map reading_of sorted)
                      (Endpoint (lit "Well") (fst item))).
  { intros [k w] Hi. exists (well_node (k, w)).
    split; [apply in_or_app; left; now apply in_map|]. split; reflexivity. }
  assert (Hem : forall k, In k (well_keys reader) ->
            addresses (map well_node wells ++ map emissions_node wells
                       ++ map emission_type_node items
                       ++ map reading_of sorted)
                      (Endpoint (lit "Emissions")
                                (derive k (lit "emissions") []))).
  { intros k Hk. apply in_map_iff in Hk as ([k' rs] & <- & Hi).
    exists (emissions_node (well_record_of (k', rs))).
    split; [|split; reflexivity].
    apply in_or_app; right; apply in_or_app; left.
    apply in_map. unfold wells. now apply in_map. }
  assert (Hty : forall item, In item items ->
            addresses (map well_node wells ++ map emissions_node wells
                       ++ map emission_type_node items
                       ++ map reading_of sorted)
                      (Endpoint (lit "EmissionType") (snd item))).
  { intros [[k t] id] Hi. exists (emission_type_node ((k, t), id)).
    split; [|split; reflexivity].
    do 2 (apply in_or_app; right). apply in_or_app; left. now apply in_map. }
  assert (Hrd : forall e, In e sorted ->
            addresses (map well_node wells ++ map emissions_node wells
                       ++ map emission_type_node items
                       ++ map reading_of sorted)
                      (Endpoint (e_emission_type e) (reading_id e))).
  { intros e He. exists (reading_of e). split; [|split; reflexivity].
    do 3 (apply in_or_app; right). now apply in_map. }
  rewrite !Forall_app. repeat split; apply Forall_forall; intros r Hr.
  - apply in_map_iff in Hr as ([k w] & <- & Hi). split.
    + apply (Hwell (k, w) Hi).
    + unfold wells in Hi. apply in_map_iff in Hi as ([k' rs] & [= <- <-] & Hi).
      apply Hem. change k' with (fst (k', rs)). now apply in_map.
  - apply in_map_iff in Hr as ([[k t] id] & <- & Hi). split.
    + apply Hem. unfold items in Hi.
      now apply (@keys_type_id_items _ k t), in_map_iff; exists ((k, t), id).
    + apply (Hty ((k, t), id) Hi).
  - destruct (@link_rels_shape sorted sorted [] r (incl_refl _))
      as (e & He & [-> | (e' & He' & Hg & ->)]);
      [intros g p H; discriminate H | exact Hr | |].
    + split; [|apply (Hrd e He)].
      apply (Hty (group_of e, type_id (fst (group_of e)) (snd (group_of e)))).
      unfold items.
      pose proof (sort_desc_perm
                    (surviving py_float spreadsheet_name verified_time reader))
        as Hp.
      apply (Permutation_in _ Hp) in He.
      destruct (@surviving_inv py_float spreadsheet_name verified_time
                  reader e He) as (k & rws & t & row & Hw & Ht & _ & Hin).
      destruct (@row_entries_inv py_float spreadsheet_name verified_time
                  k t row e Ht Hin) as (Ek & Et & _).
      unfold group_of. rewrite Ek, Et. cbn [fst snd].
      apply in_flat_map. exists k.
      split; [change k with (fst (k, rws)); now apply in_map|].
      unfold type_id_items. apply in_map_iff. now exists t.
    + split; [|apply (Hrd e He)].
      injection Hg as _ Ht. cbn [next_date rel_source]. rewrite <- Ht.
      apply (Hrd e' He').
Qed.

Lemma relationships_address_nodes_witness :
  csv_text sample_reader = true
  /\ exists g,
       build_graph float_of_digits sample_file sample_time sample_reader
       = Ok g
       /\ Forall (fun r => addresses (all_nodes g) (rel_source r)
                           /\ addresses (all_nodes g) (rel_target r))
                 (all_relationships g).
Proof.
  split; [reflexivity|].
  exact (@relationships_address_nodes float_of_digits sample_file sample_time
           sample_header (tl sample_reader) eq_refl).
Defined.

(* ===================================================================== *)
(** * The order of the readings *)
(* ===================================================================== *)

Lemma same_key_eq key e : same_key key e = true <-> sort_key e = key.
Proof.
  unfold same_key. rewrite <- key_compare_eq.
  destruct (key_compare (sort_key e) key); split; congruence.
Qed.

Lemma insert_desc_same_key key x l :
  filter (same_key key) (insert_desc x l) = filter (same_key key) (x :: l).
Proof.
  induction l as [|y l IH]; [reflexivity|].
  cbn [insert_desc]. destruct (key_ltb (sort_key x) (sort_key y)) eqn:E;
    [|reflexivity].
  cbn [filter] in *. rewrite IH.
  destruct (same_key key x) eqn:Ex; [|reflexivity].
  destruct (same_key key y) eqn:Ey; [|reflexivity].
  apply same_key_eq in Ex, Ey. unfold key_ltb in E.
  rewrite Ex, Ey, (proj2 (key_compare_eq key key) eq_refl) in E. discriminate.
Qed.

(** The sort is stable: entries of one key keep their order. *)
Lemma sort_desc_same_key key l :
  filter (same_key key) (sort_desc l) = filter (same_key key) l.
Proof.
  induction l as [|x l IH]; [reflexivity|].
  cbn [sort_desc fold_right]. fold (sort_desc l).
  rewrite insert_desc_same_key. cbn [filter]. now rewrite IH.
Qed.

(** The Reading nodes are emitted in the order of the sorted entries:
    all surviving entries, each once, by descending (well key, emission
    type, date) compared as strings, entries with the same key staying in
    the order of the file. *)
Theorem reading_nodes_order py_float spreadsheet_name verified_time
  headers rows :
  csv_text (headers :: rows) = true ->
  exists g,
    build_graph py_float spreadsheet_name verified_time (headers :: rows)
    = Ok g
    /\ let entries :=
         surviving py_float spreadsheet_name verified_time (headers :: rows) in
       exists sorted,
         reading_nodes (all_nodes g) = map reading_of sorted
         /\ Permutation sorted entries
         /\ StronglySorted
              (fun a b => key_compare (sort_key a) (sort_key b) <> Lt) sorted
         /\ forall key,
              filter (same_key key) sorted = filter (same_key key) entries.
Proof.
  intros Htext. eexists. split; [now apply build_graph_expected|].
  cbv zeta.
  exists (sorted_entries py_float spreadsheet_name verified_time
                         (headers :: rows)).
  split; [apply expected_reading_nodes|].
  split; [apply sort_desc_perm|]. split; [|intros key; apply sort_desc_same_key].
  apply StronglySorted_weaken with (R := desc) (P := fun _ => True).
  - intros a b _ _. unfold desc, key_ltb. intros H E. now rewrite E in H.
  - apply Forall_forall. intros; exact I.
  - apply sort_desc_sorted.
Qed.

Lemma reading_nodes_order_witness :
  csv_text sample_reader = true
  /\ exists g,
       build_graph float_of_digits sample_file sample_time sample_reader
       = Ok g
       /\ map (fun n => show (node_type n)) (reading_nodes (all_nodes g))
          = ["FuelGas"; "Flaring"; "Flaring"; "Flaring"; "Flaring"]%string.
Proof.
  split; [reflexivity|].
  destruct (@reading_nodes_order float_of_digits sample_file sample_time
              sample_header (tl sample_reader) eq_refl)
    as (g & Hg & sorted & Hn & _).
  exists g. split; [exact Hg|].
  pose proof (build_graph_expected float_of_digits sample_file sample_time
                sample_header (tl sample_reader) eq_refl) as Hg'.
  rewrite Hg' in Hg. injection Hg as <-. vm_compute. reflexivity.
Defined.

(* ===================================================================== *)
(** * Batches *)
(* ===================================================================== *)

Lemma slices_concat {A} bs : (1 <= bs)%nat -> forall fuel (l : list A),
  (length l <= fuel)%nat -> concat (slices fuel bs l) = l.
Proof.
  intros Hbs. induction fuel as [|fuel IH]; intros l Hl.
  - destruct l; [reflexivity | simpl in Hl; lia].
  - destruct l as [|x l]; [reflexivity|].
    cbn [slices concat]. rewrite IH; [apply firstn_skipn|].
    rewrite length_skipn. simpl length in *. lia.
Qed.

Lemma slices_sizes {A} bs : (1 <= bs)%nat -> forall fuel (l : list A),
  Forall (fun b => (1 <= length b <= bs)%nat) (slices fuel bs l).
Proof.
  intros Hbs. induction fuel as [|fuel IH]; intros l; [constructor|].
  destruct l as [|x l]; [constructor|].
  cbn [slices]. constructor; [|apply IH].
  rewrite length_firstn. simpl length. lia.
Qed.

Lemma slices_full {A} bs : (1 <= bs)%nat -> forall fuel (l : list A) b rest,
  slices fuel bs l = b :: rest -> rest <> [] -> length b = bs.
Proof.
  intros Hbs [|fuel] l b rest; [discriminate|].
  destruct l as [|x l]; [discriminate|].
  cbn [slices]. intros [= <- <-] Hrest.
  rewrite length_firstn. apply Nat.min_l.
  destruct (Nat.le_gt_cases bs (length (x :: l))) as [H|H]; [exact H|].
  exfalso. apply Hrest.
  rewrite skipn_all2 by lia. now destruct fuel.
Qed.

Lemma slices_count {A} bs : (1 <= bs)%nat -> forall fuel (l : list A),
  (length l <= fuel)%nat ->
  length (slices fuel bs l) = ((length l + bs - 1) / bs)%nat.
Proof.
  intros Hbs. induction fuel as [|fuel IH]; intros l Hl.
  - destruct l; [|simpl in Hl; lia]. simpl.
    symmetry. apply Nat.div_small. lia.
  - destruct l as [|x l].
    + simpl. symmetry. apply Nat.div_small. lia.
    + cbn [slices length]. rewrite IH
        by (rewrite length_skipn; simpl length in *; lia).
      rewrite length_skipn. set (n := length (x :: l)).
      assert (Hn : (1 <= n)%nat) by (unfold n; simpl; lia).
      change (S (length l)) with n.
      destruct (Nat.le_gt_cases n bs) as [H|H].
      * replace (n - bs)%nat with 0%nat by lia.
        rewrite (Nat.div_small (0 + bs - 1) bs) by lia.
        apply (Nat.div_unique _ _ 1 (n - 1)); lia.
      * replace (n + bs - 1)%nat with ((n - bs + bs - 1) + 1 * bs)%nat by lia.
        rewrite Nat.div_add by lia. lia.
Qed.

(** The jobs of a round, for a positive batch size. *)
Lemma make_batches_jobs {A} (items : list A) batch_size :
  (0 < batch_size)%Z ->
  exists jobs,
    make_batches items batch_size = Ok jobs
    /\ concat (map snd jobs) = items
    /\ map (fun j => fst (fst j)) jobs = seq 1 (length jobs)
    /\ length jobs
       = ((length items + Z.to_nat batch_size - 1) / Z.to_nat batch_size)%nat
    /\ Forall (fun j => snd (fst j) = length jobs
                        /\ (1 <= length (snd j) <= Z.to_nat batch_size)%nat)
              jobs
    /\ forall pre j post,
         jobs = pre ++ j :: post -> post <> [] ->
         length (snd j) = Z.to_nat batch_size.
Proof.
  intros Hbs. assert (Hb : (1 <= Z.to_nat batch_size)%nat) by lia.
  eexists. split.
  { unfold make_batches. destruct (Z.eqb_spec batch_size 0); [lia|].
    destruct (Z.ltb_spec batch_size 0); [lia|]. reflexivity. }
  set (bs := Z.to_nat batch_size) in *.
  set (parts := slices (length items) bs items).
  assert (Hsnd : forall n, map snd (combine (seq n (length parts)) parts) = parts).
  { intros n. generalize parts n. clear.
    induction parts as [|p parts IH]; intros n; [reflexivity|].
    simpl. now rewrite IH. }
  assert (Hlen : length (combine (seq 1 (length parts)) parts) = length parts)
    by (rewrite length_combine, length_seq; apply Nat.min_id).
  assert (Hcount : length parts = ((length items + bs - 1) / bs)%nat)
    by (apply slices_count; [exact Hb | lia]).
  split; [|split; [|split; [|split]]].
  - rewrite map_map. cbn [snd]. rewrite Hsnd.
    apply slices_concat; [exact Hb | lia].
  - rewrite map_map. cbn [fst]. rewrite length_map, Hlen.
    generalize 1%nat. generalize parts. clear.
    induction parts as [|p parts IH]; intros n; [reflexivity|].
    simpl. now rewrite IH.
  - now rewrite length_map, Hlen.
  - rewrite length_map, Hlen. apply Forall_forall. intros j Hj.
    apply in_map_iff in Hj as ([n p] & <- & Hin). cbn [fst snd].
    split; [symmetry; exact Hcount|].
    apply in_combine_r in Hin.
    pose proof (slices_sizes Hb (length items) items) as HF.
    rewrite Forall_forall in HF. now apply HF.
  - intros pre j post Hj Hpost.
    assert (Hparts : parts = map snd pre ++ snd j :: map snd post).
    { pose proof (f_equal (map snd) Hj) as H'.
      rewrite map_map, map_app in H'. cbn [snd map] in H'. rewrite <- H'.
      rewrite <- (Hsnd 1%nat) at 1. apply map_ext. intros [? ?]. reflexivity. }
    assert (Hpost' : map snd post <> []) by (now destruct post).
    clear Hj Hsnd Hlen Hcount. unfold parts in Hparts.
    revert Hparts. generalize (map snd pre). generalize (length items) at 1.
    generalize items. clear - Hb Hpost'. intros l fuel pre0. revert l fuel.
    induction pre0 as [|q pre0 IH]; intros l fuel H.
    + apply (slices_full Hb fuel l H Hpost').
    + destruct fuel as [|fuel]; [discriminate|].
      destruct l as [|x l]; [discriminate|].
      cbn [slices app] in H. injection H as _ H. now apply IH in H.
Qed.

(** The batches of a round: with a positive batch size, the batches are
    consecutive slices that put together give the items back in order,
    each holds between one and [batch_size] items and all but the last
    hold exactly [batch_size]; they are numbered 1, 2, ..., and each
    carries the total, the number of items divided by the batch size,
    rounded up. *)
Theorem make_batches_partition {A} (items : list A) batch_size :
  (0 < batch_size)%Z ->
  exists jobs,
    make_batches items batch_size = Ok jobs
    /\ concat (map snd jobs) = items
    /\ map (fun j => fst (fst j)) jobs = seq 1 (length jobs)
    /\ length jobs
       = ((length items + Z.to_nat batch_size - 1) / Z.to_nat batch_size)%nat
    /\ Forall (fun j => snd (fst j) = length jobs
                        /\ (1 <= length (snd j) <= Z.to_nat batch_size)%nat)
              jobs
    /\ forall pre j post,
         jobs = pre ++ j :: post -> post <> [] ->
         length (snd j) = Z.to_nat batch_size.
Proof. exact (@make_batches_jobs A items batch_size). Qed.

Lemma make_batches_partition_witness :
  (0 < 2)%Z
  /\ exists jobs,
       make_batches three_nodes 2 = Ok jobs
       /\ map (fun j => (fst (fst j), snd (fst j), length (snd j))) jobs
          = [(1, 2, 2); (2, 2, 1)]%nat.
Proof.
  split; [reflexivity|].
  destruct (@make_batches_partition node three_nodes 2%Z eq_refl)
    as (jobs & Hj & _).
  exists jobs. split; [exact Hj|].
  vm_compute in Hj. injection Hj as <-. reflexivity.
Defined.

(* ===================================================================== *)
(** * Rounds: what is sent *)
(* ===================================================================== *)

Lemma submit_fold_any DEBUG_MODE net token jobs : forall s r,
  fold_left (submit DEBUG_MODE net token) jobs (s, r)
  = (s ++ flat_map
            (fun j : nat * nat * batch =>
               fst (process_batch DEBUG_MODE (net (fst (fst j)))
                                  (fst (fst j)) (snd (fst j)) (snd j) token))
            jobs,
     r ++ map
            (fun j : nat * nat * batch =>
               snd (process_batch DEBUG_MODE (net (fst (fst j)))
                                  (fst (fst j)) (snd (fst j)) (snd j) token))
            jobs).
Proof.
  induction jobs as [|[[n t] b] jobs IH]; intros s r; simpl.
  - now rewrite !app_nil_r.
  - destruct (process_batch DEBUG_MODE (net n) n t b token) as [s' r'].
    simpl. rewrite IH, <- !app_assoc. reflexivity.
Qed.

(** The two ways a round ends. *)
Lemma dispatch_round_cases {A} DEBUG_MODE net token (mk : list A -> batch)
  items batch_size max_threads :
  match dispatch_round DEBUG_MODE net token mk items batch_size max_threads
  with
  | Ok r =>
      (0 < batch_size)%Z /\ (0 < max_threads)%Z /\ items <> []
      /\ length (results r)
         = ((length items + Z.to_nat batch_size - 1)
            / Z.to_nat batch_size)%nat
  | Raise e =>
      e = ValueError
      /\ ((batch_size <= 0)%Z \/ (max_threads <= 0)%Z \/ items = [])
  end.
Proof.
  unfold dispatch_round.
  destruct (Z.ltb_spec 0 batch_size) as [Hbs|Hbs].
  - destruct (make_batches_jobs items Hbs)
      as (jobs & Hj & Hc & _ & Hn & _).
    rewrite Hj. cbn [bind].
    destruct (Z.leb_spec (Z.min max_threads (Z.of_nat (length jobs))) 0)
      as [H|H].
    + split; [reflexivity|]. right.
      destruct (Z.leb_spec max_threads 0); [now left|]. right.
      destruct jobs; [|simpl length in H; lia].
      simpl in Hc. now subst items.
    + rewrite submit_fold_any. cbn [results app].
      rewrite !length_map, Hn.
      repeat split; try lia.
      intros ->. simpl in Hn. rewrite Nat.div_small in Hn by lia.
      rewrite Hn in H. simpl in H. lia.
  - unfold make_batches. destruct (Z.eqb_spec batch_size 0) as [E|E].
    + cbn [bind]. split; [reflexivity | left; lia].
    + destruct (Z.ltb_spec batch_size 0); [|lia]. cbn [bind length].
      destruct (Z.leb_spec (Z.min max_threads (Z.of_nat 0)) 0); [|lia].
      split; [reflexivity | left; lia].
Qed.

(** A round fails to start, with [ValueError] and before anything is
    sent, exactly when the batch size or the pool size is not positive or
    there is no item: the test for an empty list that guards both rounds
    is what keeps the pool from being created with no worker.  In every
    other case the round returns, whatever the capture API answers. *)
Theorem dispatch_round_starts {A} DEBUG_MODE net token (mk : list A -> batch)
  items batch_size max_threads :
  match dispatch_round DEBUG_MODE net token mk items batch_size max_threads
  with
  | Ok r =>
      (0 < batch_size)%Z /\ (0 < max_threads)%Z /\ items <> []
      /\ length (results r)
         = ((length items + Z.to_nat batch_size - 1)
            / Z.to_nat batch_size)%nat
  | Raise e =>
      e = ValueError
      /\ ((batch_size <= 0)%Z \/ (max_threads <= 0)%Z \/ items = [])
  end.
Proof.
  exact (@dispatch_round_cases A DEBUG_MODE net token mk items batch_size
           max_threads).
Qed.

Lemma dispatch_round_starts_witness :
  dispatch_round false second_fails sample_token NodeBatch [] 250 6
  = Raise ValueError
  /\ dispatch_round false second_fails sample_token NodeBatch three_nodes 0 6
     = Raise ValueError
  /\ dispatch_round false second_fails sample_token NodeBatch three_nodes
                    250 0
     = Raise ValueError.
Proof.
  pose proof (@dispatch_round_starts node false second_fails sample_token
                NodeBatch [] 250%Z 6%Z) as H1.
  pose proof (@dispatch_round_starts node false second_fails sample_token
                NodeBatch three_nodes 0%Z 6%Z) as H2.
  pose proof (@dispatch_round_starts node false second_fails sample_token
                NodeBatch three_nodes 250%Z 0%Z) as H3.
  split; [|split].
  - destruct (dispatch_round _ _ _ _ _ _ _) as [r|e];
      [destruct H1 as (_ & _ & H & _); now elim H
      | destruct H1 as [-> _]; reflexivity].
  - destruct (dispatch_round _ _ _ _ _ _ _) as [r|e];
      [destruct H2 as (H & _); discriminate H
      | destruct H2 as [-> _]; reflexivity].
  - destruct (dispatch_round _ _ _ _ _ _ _) as [r|e];
      [destruct H3 as (_ & H & _); discriminate H
      | destruct H3 as [-> _]; reflexivity].
Defined.

Lemma process_batch_debug post n total b token :
  fst (process_batch true post n total b token) = []
  /\ succeeded (snd (process_batch true post n total b token)) = true.
Proof. destruct b; split; reflexivity. Qed.

Lemma flat_map_all_nil {A B} (f : A -> list B) l :
  (forall x, f x = []) -> flat_map f l = [].
Proof.
  intros H. induction l as [|x l IH]; [reflexivity|].
  cbn [flat_map]. now rewrite H, IH.
Qed.

(** Dry run: in debug mode a round sends no request at all and every
    batch reports success, so the round counts all its batches completed
    and none failed, whatever the capture API would have answered. *)
Theorem debug_round_sends_nothing {A} net token (mk : list A -> batch)
  items batch_size max_threads :
  (0 < batch_size)%Z -> (0 < max_threads)%Z -> items <> [] ->
  exists r,
    dispatch_round true net token mk items batch_size max_threads = Ok r
    /\ sent r = []
    /\ forall done,
         Permutation (results r) done ->
         tally done
         = (((length items + Z.to_nat batch_size - 1)
             / Z.to_nat batch_size)%nat, 0%nat).
Proof.
  intros Hbs Hmt Hi.
  pose proof (@dispatch_round_cases A true net token mk items batch_size
                max_threads) as Hs.
  destruct (make_batches_jobs items Hbs) as (jobs & Hj & _).
  unfold dispatch_round in *. rewrite Hj in *. cbn [bind] in *.
  destruct (Z.min max_threads (Z.of_nat (length jobs)) <=? 0)%Z;
    [destruct Hs as (_ & [H|[H|H]]); (lia || contradiction)|].
  rewrite submit_fold_any in *. cbn [results] in Hs.
  destruct Hs as (_ & _ & _ & Hn).
  eexists. split; [reflexivity|]. cbn [sent results app]. split.
  - apply flat_map_all_nil. intros j. apply process_batch_debug.
  - intros done Hp. rewrite <- (tally_permutation Hp), tally_counts.
    rewrite <- Hn. cbn [app]. f_equal.
    + rewrite filter_all; [reflexivity|]. intros x Hx.
      apply in_map_iff in Hx as (j & <- & _). apply process_batch_debug.
    + rewrite filter_none; [reflexivity|]. intros x Hx.
      apply in_map_iff in Hx as (j & <- & _).
      now rewrite (proj2 (process_batch_debug _ _ _ _ _)).
Qed.

Lemma debug_round_sends_nothing_witness :
  (0 < 2)%Z /\ (0 < 6)%Z /\ three_nodes <> []
  /\ exists r,
       dispatch_round true second_fails sample_token NodeBatch three_nodes
                      2 6 = Ok r
       /\ sent r = [] /\ tally (results r) = (2%nat, 0%nat).
Proof.
  split; [reflexivity|]. split; [reflexivity|]. split; [discriminate|].
  destruct (@debug_round_sends_nothing node second_fails sample_token
              NodeBatch three_nodes 2%Z 6%Z eq_refl eq_refl
              (fun H => eq_ind three_nodes
                          (fun l => match l with [] => False | _ => True end)
                          I [] H))
    as (r & Hr & Hs & Ht).
  exists r. split; [exact Hr|]. split; [exact Hs|].
  apply (Ht (results r) (Permutation_refl _)).
Defined.

(* ===================================================================== *)
(** * The whole run *)
(* ===================================================================== *)

Lemma wells_of_empty headers rows :
  (forall row, In row rows -> (length row < 21)%nat \/ field 1 row = []) ->
  wells_of (headers :: rows) = [].
Proof.
  intros H. destruct (wells_of (headers :: rows)) as [|[k rs] ws] eqn:E;
    [reflexivity|].
  assert (Hk : In k (well_keys (headers :: rows)))
    by (unfold well_keys; rewrite E; now left).
  apply well_keys_rows in Hk as (Hne & row & Hrow & Hl & Hf).
  destruct (H row Hrow) as [H'|H']; [lia | congruence].
Qed.

(** A file in which no row has both 21 columns and a well key gives an
    empty graph, and the run then skips both rounds: nothing is sent and
    no pool is created, whatever the batch size and the pool size. *)
Theorem no_usable_row_no_dispatch py_float DEBUG_MODE net verified_time
  token csv_file_name headers rows batch_size max_threads :
  (forall row, In row rows -> (length row < 21)%nat \/ field 1 row = []) ->
  process_emissions_data py_float DEBUG_MODE net verified_time token
                         csv_file_name (headers :: rows) batch_size
                         max_threads
  = Ok (Graph (map WarnShortRow
                   (filter (fun r => negb (long_enough r)) rows)) [] [],
        None, None).
Proof.
  intros H. unfold process_emissions_data, build_graph.
  rewrite read_csv_data_header. cbn [bind].
  fold (wells_of (headers :: rows)). rewrite (wells_of_empty headers rows H).
  reflexivity.
Qed.

Lemma no_usable_row_no_dispatch_witness :
  (forall row, In row [csv_line "short,row"; example_row] ->
     (length row < 21)%nat \/ field 1 row = [])
  /\ process_emissions_data float_of_digits false second_fails sample_time
                            sample_token sample_file
                            [sample_header; csv_line "short,row"; example_row]
                            0 0
     = Ok (Graph [WarnShortRow (csv_line "short,row");
                  WarnShortRow example_row] [] [], None, None).
Proof.
  assert (H : forall row, In row [csv_line "short,row"; example_row] ->
                (length row < 21)%nat \/ field 1 row = []).
  { intros row [<-|[<-|[]]]; left; vm_compute; lia. }
  split; [exact H|].
  exact (@no_usable_row_no_dispatch float_of_digits false second_fails
           sample_time sample_token sample_file sample_header
           [csv_line "short,row"; example_row] 0%Z 0%Z H).
Defined.

Section Payloads.
Variable net : nat -> request -> http_outcome.
Variable token : pystr.

Lemma node_round items batch_size max_threads :
  (0 < batch_size)%Z -> (0 < max_threads)%Z -> items <> [] ->
  exists r,
    dispatch_round false net token NodeBatch items batch_size max_threads
    = Ok r
    /\ flat_map request_nodes (sent r) = items
    /\ Forall (fun q => request_token q = token
                        /\ (1 <= request_size q <= Z.to_nat batch_size)%nat
                        /\ request_relationships q = [])
              (sent r).
Proof.
  intros Hbs Hmt Hi.
  destruct (make_batches_jobs items Hbs)
    as (jobs & Hj & Hc & _ & _ & Hsz & _).
  assert (Hne : jobs <> []) by (intros ->; simpl in Hc; congruence).
  eexists. split; [apply (dispatch_round_jobs net token NodeBatch _ _ Hj Hne Hmt)|].
  cbn [sent]. split.
  - rewrite <- Hc. clear. induction jobs as [|j jobs IH]; [reflexivity|].
    simpl in *. now f_equal.
  - apply Forall_forall. intros q Hq.
    apply in_map_iff in Hq as (j & <- & Hin).
    rewrite Forall_forall in Hsz. destruct (Hsz j Hin) as [_ Hs].
    cbn [request_of request_token request_size request_relationships].
    repeat split; lia.
Qed.

Lemma relationship_round items batch_size max_threads :
  (0 < batch_size)%Z -> (0 < max_threads)%Z -> items <> [] ->
  exists r,
    dispatch_round false net token RelBatch items batch_size max_threads
    = Ok r
    /\ flat_map request_relationships (sent r) = items
    /\ Forall (fun q => request_token q = token
                        /\ (1 <= request_size q <= Z.to_nat batch_size)%nat
                        /\ request_nodes q = [])
              (sent r).
Proof.
  intros Hbs Hmt Hi.
  destruct (make_batches_jobs items Hbs)
    as (jobs & Hj & Hc & _ & _ & Hsz & _).
  assert (Hne : jobs <> []) by (intros ->; simpl in Hc; congruence).
  eexists. split; [apply (dispatch_round_jobs net token RelBatch _ _ Hj Hne Hmt)|].
  cbn [sent]. split.
  - rewrite <- Hc. clear. induction jobs as [|j jobs IH]; [reflexivity|].
    simpl in *. now f_equal.
  - apply Forall_forall. intros q Hq.
    apply in_map_iff in Hq as (j & <- & Hin).
    rewrite Forall_forall in Hsz. destruct (Hsz j Hin) as [_ Hs].
    cbn [request_of request_token request_size request_nodes].
    repeat split; lia.
Qed.
End Payloads.

(** A run on a file with at least one well, outside debug mode and with
    positive batch and pool sizes, goes through both rounds, and every
    node and every relationship of the graph is posted exactly once: the
    payloads of the node requests, put end to end, are the node list, and
    those of the relationship requests the relationship list; each
    request carries the client key and between one and [batch_size]
    items.  No answer of the capture API makes the run raise. *)
Theorem every_item_posted_once py_float net verified_time token
  csv_file_name headers rows batch_size max_threads :
  csv_text (headers :: rows) = true ->
  well_keys (headers :: rows) <> [] ->
  (0 < batch_size)%Z -> (0 < max_threads)%Z ->
  exists g nodes_round rels_round,
    process_emissions_data py_float false net verified_time token
                           csv_file_name (headers :: rows) batch_size
                           max_threads
    = Ok (g, Some nodes_round, Some rels_round)
    /\ build_graph py_float csv_file_name verified_time (headers :: rows)
       = Ok g
    /\ flat_map request_nodes (sent nodes_round) = all_nodes g
    /\ flat_map request_relationships (sent rels_round)
       = all_relationships g
    /\ Forall (fun q => request_token q = token
                        /\ (1 <= request_size q <= Z.to_nat batch_size)%nat)
              (sent nodes_round ++ sent rels_round).
Proof.
  intros Htext Hk Hbs Hmt.
  pose proof (build_graph_expected py_float csv_file_name verified_time
                headers rows Htext) as Hg.
  set (g := expected_graph py_float csv_file_name verified_time
                           (headers :: rows)) in *.
  assert (Hw : wells_of (headers :: rows) <> [])
    by (intros E; apply Hk; unfold well_keys; now rewrite E).
  assert (Hn : all_nodes g <> []).
  { unfold g, expected_graph. cbn [all_nodes].
    destruct (wells_of (headers :: rows)); [congruence | discriminate]. }
  assert (Hr : all_relationships g <> []).
  { unfold g, expected_graph. cbn [all_relationships].
    destruct (wells_of (headers :: rows)); [congruence | discriminate]. }
  destruct (node_round net token Hbs Hmt Hn) as (nr & Hnr & Hnp & Hnf).
  destruct (relationship_round net token Hbs Hmt Hr) as (rr & Hrr & Hrp & Hrf).
  exists g, nr, rr. split.
  - unfold process_emissions_data. rewrite Hg. cbn [bind].
    destruct (all_nodes g) eqn:En; [congruence|]. rewrite Hnr. cbn [bind].
    destruct (all_relationships g) eqn:Er; [congruence|]. rewrite Hrr.
    reflexivity.
  - split; [exact Hg|]. split; [exact Hnp|]. split; [exact Hrp|].
    apply Forall_app. split.
    + eapply Forall_impl; [|exact Hnf]. intros q (H1 & H2 & _). now split.
    + eapply Forall_impl; [|exact Hrf]. intros q (H1 & H2 & _). now split.
Qed.

Lemma every_item_posted_once_witness :
  csv_text sample_reader = true /\ well_keys sample_reader <> []
  /\ (0 < 4)%Z /\ (0 < 6)%Z
  /\ exists g nodes_round rels_round,
       process_emissions_data float_of_digits false second_fails sample_time
                              sample_token sample_file sample_reader 4 6
       = Ok (g, Some nodes_round, Some rels_round)
       /\ map request_size (sent nodes_round) = [4; 4; 4; 4; 1]%nat
       /\ map request_size (sent rels_round) = [4; 4; 4; 3]%nat.
Proof.
  split; [reflexivity|]. split; [vm_compute; discriminate|].
  split; [reflexivity|]. split; [reflexivity|].
  destruct (@every_item_posted_once float_of_digits second_fails sample_time
              sample_token sample_file sample_header (tl sample_reader)
              4%Z 6%Z eq_refl)
    as (g & nr & rr & Hp & _); [vm_compute; discriminate | reflexivity
                               | reflexivity |].
  exists g, nr, rr. split; [exact Hp|].
  vm_compute in Hp. injection Hp as <- <- <-. split; reflexivity.
Defined.

(* ===================================================================== *)
(** * Identifiers and the separator *)
(* ===================================================================== *)

(** The three fields are joined by underscores and not delimited
    otherwise: a part of the key that follows an underscore can move into
    the category, and a part of the category into the date, without
    changing the identifier (or the failure).  Keys that themselves hold
    underscores can therefore share identifiers with other keys. *)
Theorem generate_external_id_separator key part category date :
  generate_external_id (key ++ lit "_" ++ part) category date
  = generate_external_id key (part ++ lit "_" ++ category) date
  /\ generate_external_id key (category ++ lit "_" ++ part) date
     = generate_external_id key category (part ++ lit "_" ++ date).
Proof.
  unfold generate_external_id. split; now rewrite <- !app_assoc.
Qed.

Example separator_collision :
  generate_external_id (lit "W_FuelGas_X") (lit "FuelGas") (lit "2024-01-01")
  = generate_external_id (lit "W") (lit "FuelGas")
                         (lit "X_FuelGas_2024-01-01").
Proof. vm_compute. reflexivity. Qed.

(* ===================================================================== *)
(** * Replay: unwrapping and posting *)
(* ===================================================================== *)

Lemma unwrap_nodes_dict d :
  unwrap_nodes (JDict d)
  = match dict_get str_eq_dec d (lit "nodes") with
    | Some v => unwrap_nodes v
    | None => JDict d
    end.
Proof.
  cbn [unwrap_nodes].
  generalize (JDict d). intros top.
  induction d as [|[k v] d IH]; [reflexivity|].
  cbn [dict_get]. destruct (str_eq_dec (lit "nodes") k); [reflexivity|exact IH].
Qed.

(** Induction on a JSON document, through its arrays and objects. *)
Lemma json_induction (P : json -> Prop) :
  P JNull -> (forall b, P (JBool b)) -> (forall z, P (JInt z)) ->
  (forall f, P (JFloat f)) -> (forall s, P (JStr s)) ->
  (forall l, Forall P l -> P (JList l)) ->
  (forall d, Forall (fun kv => P (snd kv)) d -> P (JDict d)) ->
  forall j, P j.
Proof.
  intros HNull HBool HInt HFloat HStr HList HDict.
  exact (fix F (j : json) : P j :=
           match j with
           | JNull => HNull
           | JBool b => HBool b
           | JInt z => HInt z
           | JFloat f => HFloat f
           | JStr s => HStr s
           | JList l =>
               HList l
                 ((fix go (l : list json) : Forall P l :=
                     match l with
                     | [] => Forall_nil P
                     | x :: l' => Forall_cons x (F x) (go l')
                     end) l)
           | JDict d =>
               HDict d
                 ((fix go (d : list (pystr * json))
                     : Forall (fun kv => P (snd kv)) d :=
                     match d with
                     | [] => Forall_nil _
                     | kv :: d' =>
                         Forall_cons (P := fun kv => P (snd kv)) kv
                                     (F (snd kv)) (go d')
                     end) d)
           end).
Qed.

(** What is left after unwrapping is never a dict with a "nodes" key. *)
Lemma unwrap_nodes_done j :
  match unwrap_nodes j with
  | JDict d => dict_get str_eq_dec d (lit "nodes") = None
  | _ => True
  end.
Proof.
  induction j as [| | | | | l _ | d IH] using json_induction; try exact I.
  rewrite unwrap_nodes_dict.
  destruct (dict_get str_eq_dec d (lit "nodes")) as [v|] eqn:E; [|exact E].
  apply dict_get_in in E. rewrite Forall_forall in IH. apply (IH _ E).
Qed.

Lemma unwrap_nodes_idempotent j : unwrap_nodes (unwrap_nodes j) = unwrap_nodes j.
Proof.
  pose proof (unwrap_nodes_done j) as H.
  destruct (unwrap_nodes j) as [| | | | | l | d]; try reflexivity.
  now rewrite unwrap_nodes_dict, H.
Qed.

(** Unwrapping: a dict with a "nodes" key unwraps to what its "nodes"
    value unwraps to, however deep the nesting; anything else is left as
    it is; the result is never a dict with a "nodes" key, so unwrapping
    again changes nothing. *)
Theorem unwrap_nodes_innermost :
  (forall d,
     unwrap_nodes (JDict d)
     = match dict_get str_eq_dec d (lit "nodes") with
       | Some v => unwrap_nodes v
       | None => JDict d
       end)
  /\ (forall l, unwrap_nodes (JDict [(lit "nodes",
                                      JDict [(lit "nodes", JList l)])])
                = JList l)
  /\ (forall j,
        match unwrap_nodes j with
        | JDict d => dict_get str_eq_dec d (lit "nodes") = None
        | _ => True
        end)
  /\ forall j, unwrap_nodes (unwrap_nodes j) = unwrap_nodes j.
Proof.
  split; [apply unwrap_nodes_dict|]. split; [reflexivity|].
  split; [apply unwrap_nodes_done | apply unwrap_nodes_idempotent].
Qed.

Lemma main_posts_nodes token host post data type :
  nonempty token = true -> nonempty host = true ->
  match type with Some t => Some t | None => detect_type data end
  = Some (lit "nodes") ->
  type_choice type ->
  main (Some token) host post (Loaded data) type
  = ([ReplayNodes token (replay_items data)],
     match read_response (post (ReplayNodes token (replay_items data))) with
     | Ok _ => 0%Z
     | Raise _ => 1%Z
     end).
Proof.
  intros Ht Hh Hty Hc. unfold main. rewrite Ht, Hh. cbn [negb].
  replace (match type with
           | Some t => if nonempty t then Some t else detect_type data
           | None => detect_type data
           end) with (Some (lit "nodes")).
  - change (str_eqb (lit "nodes") (lit "nodes")) with true. cbv iota.
    unfold replay_items, post_nodes.
    destruct (unwrap_nodes data); reflexivity.
  - destruct Hc as [-> | [-> | ->]]; [now symmetry | reflexivity|].
    discriminate Hty.
Qed.

Lemma relationships_count_countable data :
  if countable data then exists n, relationships_count data = Ok n
  else relationships_count data = Raise TypeError.
Proof.
  destruct data as [| | | | | |d]; try (now eexists).
  unfold countable, relationships_count, has_key, dict_mem.
  destruct (dict_get str_eq_dec d (lit "relationships")) as [v|];
    [|now eexists].
  destruct v; try reflexivity; now eexists.
Qed.

Lemma main_posts_relationships token host post data type :
  nonempty token = true -> nonempty host = true ->
  match type with Some t => Some t | None => detect_type data end
  = Some (lit "relationships") ->
  type_choice type ->
  main (Some token) host post (Loaded data) type
  = if countable data
    then ([ReplayRelationships token data],
          match read_response (post (ReplayRelationships token data)) with
          | Ok _ => 0%Z
          | Raise _ => 1%Z
          end)
    else ([], 1%Z).
Proof.
  intros Ht Hh Hty Hc. unfold main. rewrite Ht, Hh. cbn [negb].
  replace (match type with
           | Some t => if nonempty t then Some t else detect_type data
           | None => detect_type data
           end) with (Some (lit "relationships")).
  - change (str_eqb (lit "relationships") (lit "nodes")) with false.
    change (str_eqb (lit "relationships") (lit "relationships")) with true.
    cbv iota. unfold post_relationships.
    pose proof (relationships_count_countable data) as Hn.
    destruct (countable data).
    + destruct Hn as [n ->]. now destruct (read_response _).
    + now rewrite Hn.
  - destruct Hc as [-> | [-> | ->]]; [now symmetry | discriminate Hty|].
    reflexivity.
Qed.

Lemma main_cases INDYKITE_TOKEN INDYKITE_HOST post file type :
  type_choice type ->
  main INDYKITE_TOKEN INDYKITE_HOST post file type = ([], 1%Z)
  \/ exists token data req,
       INDYKITE_TOKEN = Some token /\ token <> [] /\ INDYKITE_HOST <> []
       /\ file = Loaded data
       /\ (req = ReplayRelationships token data /\ countable data = true
           \/ req = ReplayNodes token (replay_items data))
       /\ main INDYKITE_TOKEN INDYKITE_HOST post file type
          = ([req],
             match read_response (post req) with
             | Ok _ => 0%Z
             | Raise _ => 1%Z
             end).
Proof.
  intros Hc.
  destruct INDYKITE_TOKEN as [token|]; [|now left].
  destruct (nonempty token) eqn:Ht; [|left; unfold main; now rewrite Ht].
  destruct (nonempty INDYKITE_HOST) eqn:Hh;
    [|left; unfold main; now rewrite Ht, Hh].
  destruct file as [| | |data];
    try (left; unfold main; now rewrite Ht, Hh).
  destruct (match type with Some t => Some t | None => detect_type data end)
    as [t|] eqn:Hty.
  - assert (Hn : t = lit "nodes" \/ t = lit "relationships").
    { destruct Hc as [-> | [-> | ->]];
        [now apply detect_type_names in Hty
        | injection Hty as <-; now left
        | injection Hty as <-; now right]. }
    destruct Hn as [-> | ->].
    + right. exists token, data. eexists.
      split; [reflexivity|]. split; [now apply nonempty_true|].
      split; [now apply nonempty_true|]. split; [reflexivity|].
      split; [right; reflexivity | now apply main_posts_nodes].
    + rewrite (@main_posts_relationships token INDYKITE_HOST post data type
                 Ht Hh Hty Hc).
      destruct (countable data) eqn:Hcount; [|now left].
      right. exists token, data. eexists.
      split; [reflexivity|]. split; [now apply nonempty_true|].
      split; [now apply nonempty_true|]. split; [reflexivity|].
      split; [left; now split | reflexivity].
  - left. destruct Hc as [-> | [-> | ->]]; try discriminate Hty.
    now apply main_unclassified.
Qed.

(** A run of the replay tool either posts nothing and exits with code 1,
    or posts exactly one request and exits with code 0 when the response
    is read and 1 when that fails.  It posts only with a token, a host
    and a document that loaded; the request carries the token, and is
    either the document as it is (relationships), which is posted only
    when its relationships can be counted, or the node list the document
    unwraps to (nodes). *)
Theorem replay_outcome INDYKITE_TOKEN INDYKITE_HOST post file type :
  type_choice type ->
  main INDYKITE_TOKEN INDYKITE_HOST post file type = ([], 1%Z)
  \/ exists token data req,
       INDYKITE_TOKEN = Some token /\ token <> [] /\ INDYKITE_HOST <> []
       /\ file = Loaded data
       /\ (req = ReplayRelationships token data /\ countable data = true
           \/ req = ReplayNodes token (replay_items data))
       /\ main INDYKITE_TOKEN INDYKITE_HOST post file type
          = ([req],
             match read_response (post req) with
             | Ok _ => 0%Z
             | Raise _ => 1%Z
             end).
Proof. exact (@main_cases INDYKITE_TOKEN INDYKITE_HOST post file type). Qed.

Lemma replay_outcome_witness :
  type_choice None
  /\ main (Some sample_token) sample_host accepting (Loaded single_node) None
     = ([ReplayNodes sample_token [single_node]], 0%Z)
  /\ main None sample_host accepting (Loaded single_node) None = ([], 1%Z).
Proof.
  split; [now left|].
  destruct (@replay_outcome (Some sample_token) sample_host accepting
              (Loaded single_node) None (or_introl eq_refl))
    as [H|(token & data & req & Ht & _ & _ & Hf & Hr & H)].
  - discriminate H.
  - injection Ht as <-. injection Hf as <-. split; [|reflexivity].
    destruct Hr as [[-> _] | ->]; [discriminate H | reflexivity].
Defined.

(** An explicit [--type] is taken as it is and detection is not
    consulted.  With [--type relationships] a document that loads is
    posted unchanged to the relationships endpoint, whatever
    [detect_type] would have said, unless it is a dict whose
    "relationships" value is null, a number or a boolean: counting these
    raises before the request, nothing is posted and the exit code is 1.
    With [--type nodes] any document is posted to the nodes endpoint as
    the node list it unwraps to. *)
Theorem explicit_type_overrides token INDYKITE_HOST post data :
  token <> [] -> INDYKITE_HOST <> [] ->
  main (Some token) INDYKITE_HOST post (Loaded data)
       (Some (lit "relationships"))
  = (if countable data
     then ([ReplayRelationships token data],
           match read_response (post (ReplayRelationships token data)) with
           | Ok _ => 0%Z
           | Raise _ => 1%Z
           end)
     else ([], 1%Z))
  /\ fst (main (Some token) INDYKITE_HOST post (Loaded data)
               (Some (lit "nodes")))
     = [ReplayNodes token (replay_items data)].
Proof.
  intros Ht Hh. apply nonempty_true in Ht, Hh. split.
  - apply main_posts_relationships; try assumption; try reflexivity.
    right. now right.
  - rewrite main_posts_nodes; try assumption; try reflexivity.
    right. now left.
Qed.

Lemma explicit_type_overrides_witness :
  sample_token <> [] /\ sample_host <> []
  /\ detect_type single_node = Some (lit "nodes")
  /\ main (Some sample_token) sample_host accepting (Loaded single_node)
          (Some (lit "relationships"))
     = ([ReplayRelationships sample_token single_node], 0%Z)
  /\ main (Some sample_token) sample_host accepting
          (Loaded null_relationships) (Some (lit "relationships"))
     = ([], 1%Z).
Proof.
  split; [discriminate|]. split; [discriminate|]. split; [reflexivity|].
  split.
  - apply (@explicit_type_overrides sample_token sample_host accepting
             single_node); discriminate.
  - apply (@explicit_type_overrides sample_token sample_host accepting
             null_relationships); discriminate.
Defined.

(** The node list that is posted: the list itself for a list, for
    [{"nodes": [...]}] and for [{"nodes": {"nodes": [...]}}]; a
    one-element list holding the dict for a non-empty dict without a
    "nodes" key (a single node); the empty list for the empty dict and
    for a falsy value under "nodes" such as [{"nodes": null}]. *)
Theorem replay_items_shapes :
  (forall l, replay_items (JList l) = l)
  /\ (forall l d,
        dict_get str_eq_dec d (lit "nodes") = Some (JList l) ->
        replay_items (JDict d) = l)
  /\ (forall l, replay_items (JDict [(lit "nodes",
                                      JDict [(lit "nodes", JList l)])]) = l)
  /\ (forall d,
        d <> [] -> dict_get str_eq_dec d (lit "nodes") = None ->
        replay_items (JDict d) = [JDict d])
  /\ replay_items (JDict []) = []
  /\ replay_items (JDict [(lit "nodes", JNull)]) = [].
Proof.
  split; [reflexivity|]. split.
  { intros l d H. unfold replay_items. now rewrite unwrap_nodes_dict, H. }
  split; [reflexivity|]. split.
  { intros d Hd H. unfold replay_items. rewrite unwrap_nodes_dict, H.
    destruct d; [congruence | reflexivity]. }
  split; reflexivity.
Qed.

Lemma replay_items_shapes_witness :
  single_node <> JDict []
  /\ replay_items single_node = [single_node]
  /\ replay_items (JDict [(lit "nodes", JList [single_node])])
     = [single_node].
Proof.
  split; [discriminate|].
  destruct replay_items_shapes as (_ & Hw & _ & Hd & _). split.
  - apply Hd; [discriminate | reflexivity].
  - apply Hw. reflexivity.
Defined.

Lemma read_response_ok o r :
  read_response o = Ok r
  <-> exists status,
        o = Response status (Some r) /\ ~ (400 <= status < 600)%Z.
Proof.
  unfold read_response, raise_for_status. split.
  - destruct o as [|status body]; [discriminate|].
    destruct ((400 <=? status) && (status <? 600))%Z eqn:E;
      cbn [bind]; [discriminate|].
    destruct body as [r'|]; [|discriminate].
    intros [= ->]. exists status. split; [reflexivity|].
    intros [H1 H2]. apply Z.leb_le in H1. apply Z.ltb_lt in H2.
    rewrite H1, H2 in E. discriminate E.
  - intros (status & -> & H).
    destruct ((400 <=? status) && (status <? 600))%Z eqn:E;
      cbn [bind]; [|reflexivity].
    apply andb_true_iff in E. destruct E as [H1 H2].
    apply Z.leb_le in H1. apply Z.ltb_lt in H2. now destruct H.
Qed.

(** The exit code of the replay tool is 0 exactly when one request was
    posted and it was answered with a status outside 400..599 and a body
    that decodes as JSON.  So a 3xx or 204 answer with a JSON body ends
    in exit code 0, and a 200 answer without a JSON body in exit
    code 1. *)
Theorem replay_exit_code INDYKITE_TOKEN INDYKITE_HOST post file type :
  type_choice type ->
  snd (main INDYKITE_TOKEN INDYKITE_HOST post file type) = 0%Z
  <-> exists req status r,
        fst (main INDYKITE_TOKEN INDYKITE_HOST post file type) = [req]
        /\ post req = Response status (Some r)
        /\ ~ (400 <= status < 600)%Z.
Proof.
  intros Hc.
  destruct (@main_cases INDYKITE_TOKEN INDYKITE_HOST post file type Hc)
    as [H|(token & data & req & _ & _ & _ & _ & _ & H)]; rewrite H;
    cbn [fst snd].
  - split; [discriminate|]. intros (req & status & r & Hq & _).
    discriminate Hq.
  - split.
    + destruct (read_response (post req)) as [r|e] eqn:E; [|discriminate].
      intros _. apply read_response_ok in E. destruct E as (status & E & Hs).
      now exists req, status, r.
    + intros (req' & status & r & [= <-] & Hp & Hs).
      assert (E : read_response (post req) = Ok r)
        by (apply read_response_ok; now exists status).
      now rewrite E.
Qed.

Lemma replay_exit_code_witness :
  type_choice None
  /\ snd (main (Some sample_token) sample_host
               (fun _ => Response 302 (Some JNull)) (Loaded single_node) None)
     = 0%Z.
Proof.
  split; [now left|].
  apply (@replay_exit_code (Some sample_token) sample_host
           (fun _ => Response 302 (Some JNull)) (Loaded single_node) None
           (or_introl eq_refl)).
  exists (ReplayNodes sample_token [single_node]), 302%Z, JNull.
  split; [reflexivity|]. split; [reflexivity|]. lia.
Defined.

(* ===================================================================== *)
(** * The loader's entry point *)
(* ===================================================================== *)

Example basename_examples :
  basename (lit "data/2024/emissions.csv") = lit "emissions.csv"
  /\ basename (lit "emissions.csv") = lit "emissions.csv"
  /\ basename (lit "/tmp/") = []
  /\ basename (lit "/x") = lit "x".
Proof. repeat split. Qed.



Section LoaderMain.
Variable py_float : pystr -> option float.
Variable DEBUG_MODE : bool.
Variable net : nat -> request -> http_outcome.
Variable verified_time : pystr.
Variable INDYKITE_TOKEN : option pystr.
Variable INDYKITE_HOST : pystr.
Variables BATCH_SIZE MAX_THREADS : Z.
Variable CSV_FILE_PATH : option pystr.
Variable path_exists : pystr -> bool.
Variable open_csv : pystr -> list (list pystr).

Local Abbreviation loader_main :=
  (LoadEmissions.main py_float DEBUG_MODE net verified_time INDYKITE_TOKEN
     INDYKITE_HOST BATCH_SIZE MAX_THREADS CSV_FILE_PATH path_exists open_csv).
Local Abbreviation path_of :=
  (LoadEmissions.csv_file_path CSV_FILE_PATH).

End LoaderMain.


(* ===================================================================== *)
(** * Date strings and the calendar *)
(* ===================================================================== *)

Lemma str_compare_app (a b r1 r2 : pystr) :
  length a = length b ->
  str_compare (a ++ r1) (b ++ r2)
  = match str_compare a b with
    | Eq => str_compare r1 r2
    | c => c
    end.
Proof.
  revert b. induction a as [|x a IH]; intros [|y b] H; try discriminate H.
  - reflexivity.
  - injection H as H. unfold str_compare in *. cbn [app list_compare].
    destruct (x ?= y)%N; auto.
Qed.

Lemma digits_fold_lt s1 : forall s2 acc1 acc2,
  length s1 = length s2 ->
  forallb is_digit s1 = true -> forallb is_digit s2 = true ->
  (acc1 < acc2)%N ->
  (fold_left (fun a c => 10 * a + (c - 48)) s1 acc1
   < fold_left (fun a c => 10 * a + (c - 48)) s2 acc2)%N.
Proof.
  induction s1 as [|c1 s1 IH]; intros [|c2 s2] acc1 acc2 Hl H1 H2 Hacc;
    try discriminate Hl; [exact Hacc|].
  injection Hl as Hl. cbn [forallb] in H1, H2.
  apply andb_true_iff in H1 as [Hc1 H1]. apply andb_true_iff in H2 as [Hc2 H2].
  cbn [fold_left]. apply IH; try assumption.
  unfold is_digit in Hc1, Hc2.
  apply andb_true_iff in Hc1 as [Ha Hb]. apply andb_true_iff in Hc2 as [Hc Hd].
  apply N.leb_le in Ha, Hb, Hc, Hd. lia.
Qed.

Lemma digits_fold_compare s1 : forall s2 acc,
  length s1 = length s2 ->
  forallb is_digit s1 = true -> forallb is_digit s2 = true ->
  (fold_left (fun a c => 10 * a + (c - 48)) s1 acc
   ?= fold_left (fun a c => 10 * a + (c - 48)) s2 acc)%N
  = str_compare s1 s2.
Proof.
  induction s1 as [|c1 s1 IH]; intros [|c2 s2] acc Hl H1 H2;
    try discriminate Hl; [apply N.compare_refl|].
  injection Hl as Hl. cbn [forallb] in H1, H2.
  apply andb_true_iff in H1 as [Hc1 H1]. apply andb_true_iff in H2 as [Hc2 H2].
  unfold str_compare in *. cbn [fold_left list_compare].
  unfold is_digit in Hc1, Hc2.
  apply andb_true_iff in Hc1 as [Ha Hb]. apply andb_true_iff in Hc2 as [Hc Hd].
  apply N.leb_le in Ha, Hb, Hc, Hd.
  destruct (N.compare_spec c1 c2) as [->|Hlt|Hgt].
  - now apply IH.
  - apply N.compare_lt_iff. apply digits_fold_lt; try assumption. lia.
  - apply N.compare_gt_iff. apply digits_fold_lt; auto. lia.
Qed.

Lemma digits_value_compare s1 s2 :
  length s1 = length s2 ->
  forallb is_digit s1 = true -> forallb is_digit s2 = true ->
  (digits_value s1 ?= digits_value s2)%N = str_compare s1 s2.
Proof. apply digits_fold_compare. Qed.

Lemma padded2_digits s :
  forallb is_digit s = true -> (1 <= length s <= 2)%nat ->
  forallb is_digit (padded2 s) = true
  /\ length (padded2 s) = 2%nat
  /\ digits_value (padded2 s) = digits_value s.
Proof.
  intros Hd Hl. destruct s as [|c [|c' [|]]]; cbn [length] in Hl; try lia.
  - cbn [forallb] in Hd. rewrite andb_true_r in Hd.
    assert (Hs : ((c =? 43) || (c =? 45))%N = false).
    { unfold is_digit in Hd. apply andb_true_iff in Hd as [Ha _].
      apply N.leb_le in Ha. apply orb_false_iff.
      split; apply N.eqb_neq; lia. }
    unfold padded2. rewrite Hs. cbn [forallb]. rewrite Hd.
    split; [reflexivity|]. split; [reflexivity|].
    unfold digits_value. cbn [fold_left]. lia.
  - split; [exact Hd|]. split; reflexivity.
Qed.

(** For cells that hold a four-digit year and a month and a day of one
    or two digits, blanks around them allowed, [create_date_string]
    returns a string of ten characters, and comparing two such strings,
    as the sort of the date entries does, compares the dates: the order
    of the strings is the order of the (year, month, day) triples as
    numbers. *)
Theorem create_date_string_chronological
  y1 m1 d1 y2 m2 d2 Y1 M1 D1 Y2 M2 D2 :
  digits_cell 4 4 y1 Y1 -> digits_cell 1 2 m1 M1 -> digits_cell 1 2 d1 D1 ->
  digits_cell 4 4 y2 Y2 -> digits_cell 1 2 m2 M2 -> digits_cell 1 2 d2 D2 ->
  exists s1 s2,
    create_date_string y1 m1 d1 = Ok s1
    /\ create_date_string y2 m2 d2 = Ok s2
    /\ length s1 = 10%nat /\ length s2 = 10%nat
    /\ str_compare s1 s2
       = chronological (date_number Y1 M1 D1) (date_number Y2 M2 D2).
Proof.
  intros (Ty1 & Dy1 & Ly1) (Tm1 & Dm1 & Lm1) (Td1 & Dd1 & Ld1)
         (Ty2 & Dy2 & Ly2) (Tm2 & Dm2 & Lm2) (Td2 & Dd2 & Ld2).
  apply trimmed_strip in Ty1, Tm1, Td1, Ty2, Tm2, Td2.
  destruct (padded2_digits _ Dm1 Lm1) as (Zm1 & Zl1 & Zv1).
  destruct (padded2_digits _ Dm2 Lm2) as (Zm2 & Zl2 & Zv2).
  destruct (padded2_digits _ Dd1 Ld1) as (Zd1 & Zk1 & Zw1).
  destruct (padded2_digits _ Dd2 Ld2) as (Zd2 & Zk2 & Zw2).
  rewrite !create_date_string_ok, !zfill_padded2.
  rewrite Ty1, Tm1, Td1, Ty2, Tm2, Td2. do 2 eexists.
  split; [reflexivity|]. split; [reflexivity|].
  change (lit "-") with [45%N]. cbn [app].
  split; [rewrite length_app; cbn [length]; rewrite length_app; cbn [length];
          lia|].
  split; [rewrite length_app; cbn [length]; rewrite length_app; cbn [length];
          lia|].
  unfold date_number, chronological.
  rewrite str_compare_app by lia.
  rewrite <- (digits_value_compare Y1 Y2) by (lia || assumption).
  destruct (digits_value Y1 ?= digits_value Y2)%N; try reflexivity.
  change (str_compare (45%N :: ?a) (45%N :: ?b)) with (str_compare a b).
  rewrite str_compare_app by lia.
  rewrite <- (digits_value_compare (padded2 M1) (padded2 M2))
    by (lia || assumption).
  rewrite Zv1, Zv2.
  destruct (digits_value M1 ?= digits_value M2)%N; try reflexivity.
  change (str_compare (45%N :: ?a) (45%N :: ?b)) with (str_compare a b).
  rewrite <- (digits_value_compare (padded2 D1) (padded2 D2))
    by (lia || assumption).
  now rewrite Zw1, Zw2.
Qed.

Lemma create_date_string_chronological_witness :
  digits_cell 4 4 (lit "2024") (lit "2024")
  /\ digits_cell 1 2 (lit " 3") (lit "3")
  /\ digits_cell 1 2 (lit "15") (lit "15")
  /\ digits_cell 1 2 (lit "12") (lit "12")
  /\ digits_cell 1 2 (lit "1 ") (lit "1")
  /\ create_date_string (lit "2024") (lit " 3") (lit "15")
     = Ok (lit "2024-03-15")
  /\ create_date_string (lit "2024") (lit "12") (lit "1 ")
     = Ok (lit "2024-12-01")
  /\ str_compare (lit "2024-03-15") (lit "2024-12-01") = Lt.
Proof.
  assert (Hy : digits_cell 4 4 (lit "2024") (lit "2024")).
  { split; [exists [], []; repeat split|]. split; [reflexivity|cbn; lia]. }
  assert (Hm1 : digits_cell 1 2 (lit " 3") (lit "3")).
  { split; [exists [32%N], []; repeat split|]. split; [reflexivity|cbn; lia]. }
  assert (Hd1 : digits_cell 1 2 (lit "15") (lit "15")).
  { split; [exists [], []; repeat split|]. split; [reflexivity|cbn; lia]. }
  assert (Hm2 : digits_cell 1 2 (lit "12") (lit "12")).
  { split; [exists [], []; repeat split|]. split; [reflexivity|cbn; lia]. }
  assert (Hd2 : digits_cell 1 2 (lit "1 ") (lit "1")).
  { split; [exists [], [32%N]; repeat split|]. split; [reflexivity|cbn; lia]. }
  split; [exact Hy|]. split; [exact Hm1|]. split; [exact Hd1|].
  split; [exact Hm2|]. split; [exact Hd2|].
  destruct (create_date_string_chronological Hy Hm1 Hd1 Hy Hm2 Hd2)
    as (s1 & s2 & H1 & H2 & _ & _ & Hc).
  vm_compute in H1, H2. injection H1 as <-. injection H2 as <-.
  split; [reflexivity|]. split; [reflexivity|]. exact Hc.
Defined.
